(** * Mailpile command core: a shallow embedding of [mailpile/commands.py]

    The development follows the Python source function by function:
    the value model and [_sloppy_copy], the query-argument fingerprint
    ([state_as_query_args], [cache_id]), the registry ([GetCommand],
    [Action]), the paging arithmetic of [SearchResults.__init__], the
    render memo of [CommandResult.as_], and the lifecycle driver
    ([_starting], [_finishing], [_run_sync], [_run]).  Further
    functions of the module follow: [next_set] and [previous_set],
    [template_path], [_choose_messages], [SearchResults._name], the
    lifecycle methods that [Help] overrides, and [Cached.run]. *)

From Stdlib Require Import String Ascii ZArith List Bool Lia Permutation Sorted.
From Stdlib Require Import DecimalString OrderedTypeEx.
From stdpp Require Import base option list strings gmap functions.

Import ListNotations.
Set Warnings "-register-all".
Local Open Scope string_scope.
Local Open Scope Z_scope.

(** ** Python values *)

(** The values that travel through command arguments, query data, event
    data and result payloads.  Python 2 has two text types: [PStr] is a
    byte string ([str]), [PUni] is [unicode]; both are carried by
    [string], one character per code unit.  A dict is an association
    list whose keys are pairwise distinct ([dict_wf]); its Python
    equality is equality up to permutation.  Keys are text; a [str] key
    and the [unicode] key with the same characters are the same key, as
    they are for a Python dict. *)
Inductive pyval : Type :=
| PNone
| PBool (b : bool)
| PInt (z : Z)
| PStr (s : string)
| PUni (s : string)
| PList (l : list pyval)
| PTuple (l : list pyval)
| PDict (d : list (string * pyval)).

Abbreviation pydict := (list (string * pyval)).

Definition dict_keys (d : pydict) : list string := map fst d.

Definition dict_wf (d : pydict) : Prop := List.NoDup (dict_keys d).

Fixpoint dict_get (k : string) (d : pydict) : option pyval :=
  match d with
  | [] => None
  | (k', v) :: d' => if String.eqb k k' then Some v else dict_get k d'
  end.

(** [d[k] = v]: overwrite in place when the key exists, append otherwise. *)
Fixpoint dict_set (k : string) (v : pyval) (d : pydict) : pydict :=
  match d with
  | [] => [(k, v)]
  | (k', v') :: d' =>
      if String.eqb k k' then (k, v) :: d' else (k', v') :: dict_set k v d'
  end.

(** [d.update(other)] *)
Definition dict_update (d other : pydict) : pydict :=
  fold_left (fun acc kv => dict_set (fst kv) (snd kv) acc) other d.

(** Truthiness, as used by [if x:] and [x or y]. *)
Definition truthy (v : pyval) : bool :=
  match v with
  | PNone => false
  | PBool b => b
  | PInt z => negb (z =? 0)
  | PStr s | PUni s => negb (String.eqb s "")
  | PList l | PTuple l => negb (Nat.eqb (length l) 0)
  | PDict d => negb (Nat.eqb (length d) 0)
  end.

Definition str_truthy (s : string) : bool := negb (String.eqb s "").

Definition opt_str_truthy (o : option string) : bool :=
  match o with Some s => str_truthy s | None => false end.

(** [s[:n]] on text. *)
Definition str_take (n : nat) (s : string) : string := substring 0 n s.

Definition is_ascii7 (c : ascii) : bool := (N_of_ascii c <? 128)%N.

Definition decimal (z : Z) : string := NilZero.string_of_int (Z.to_int z).

(** [unicode(v)] followed by [.encode('utf-8')], for a value that is not
    a container: [None] when either step raises [UnicodeDecodeError] or
    [UnicodeEncodeError].  A byte string is decoded with the ASCII codec,
    which rejects any byte above 127; encoding a unicode object to UTF-8
    does not fail in Python 2. *)
Definition py_unicode (v : pyval) : option string :=
  match v with
  | PNone => Some "None"
  | PBool true => Some "True"
  | PBool false => Some "False"
  | PInt z => Some (decimal z)
  | PStr s => if forallb is_ascii7 (list_ascii_of_string s) then Some s else None
  | PUni s => Some s
  | PList _ | PTuple _ | PDict _ => None
  end.

(** ** [Command._sloppy_copy] *)

Definition SUPPRESSED : string := "(SUPPRESSED)".
Definition BINARY_DATA : string := "(BINARY DATA)".

(** [name and 'pass' == name[:4]] *)
Definition is_pass_name (name : option string) : bool :=
  match name with
  | Some n => str_truthy n && String.eqb "pass" (str_take 4 n)
  | None => false
  end.

(** The inner [copy_value(v)]. *)
Definition copy_value (v : pyval) : pyval :=
  match py_unicode v with
  | Some u => PUni (str_take 1024 u)
  | None => PStr BINARY_DATA
  end.

(** [_sloppy_copy(data, name)].  The source first rebinds [data] to the
    string ['(SUPPRESSED)'] when the name starts with ["pass"]; that
    string is neither list, tuple nor dict, so it goes to [copy_value]. *)
Fixpoint _sloppy_copy (data : pyval) (name : option string) : pyval :=
  if is_pass_name name then copy_value (PStr SUPPRESSED)
  else
    match data with
    | PList l | PTuple l => PList (map (fun i => _sloppy_copy i name) l)
    | PDict d => PDict (map (fun kv => (fst kv, _sloppy_copy (snd kv) (Some (fst kv)))) d)
    | _ => copy_value data
    end.

(** ** Exceptions and results of fallible code *)

(** The exception classes the command core names.  [except self.RAISES]
    matches by class; the classes below are unrelated by inheritance,
    and a bare [except:] catches all of them. *)
Inductive ExnClass : Type :=
| UsageError
| UrlRedirectException
| KeyboardInterrupt
| NotImplementedError
| TypeError
| KeyError
| UnicodeError
| RuntimeError.

Global Instance ExnClass_eq_dec : EqDecision ExnClass.
Proof. solve_decision. Defined.

Record Exn : Type := mkExn { exn_class : ExnClass; exn_msg : string }.

Inductive res (A : Type) : Type :=
| Ok (a : A)
| Raise (e : Exn).
Arguments Ok {A} a.
Arguments Raise {A} e.

(** ** Events *)

(** Modelled from the spec: [class Event] is in [mailpile/eventlog.py],
    which is not part of these sources.  The spec gives an event an id,
    a flag among INCOMPLETE, RUNNING and COMPLETE, a message, private
    data and public data; the command core reads and writes exactly
    these ([event.flags], [event.message], [event.data],
    [event.private_data], [event.event_id]). *)
Inductive EventFlag : Type := INCOMPLETE | RUNNING | COMPLETE.

Global Instance EventFlag_eq_dec : EqDecision EventFlag.
Proof. solve_decision. Defined.

Record Event : Type := mkEvent {
  event_id : nat;
  flags : EventFlag;
  e_message : string;
  e_data : pydict;
  e_private_data : pydict
}.

(** ** Command classes and command objects *)

(** Pieces of the [%]-format strings [LOG_STARTING] / [LOG_FINISHED]
    (keys [name], [status], [message]) and [FAILURE] (keys [name],
    [args]). *)
Inductive msg_piece : Type := MLit (s : string) | MName | MStatus | MMessage.
Inductive fail_piece : Type := FLit (s : string) | FName | FArgs.

(** What the body (the class's [command] method) can read, and what it
    leaves behind: the lifecycle fields it set (through [_success],
    [_error] or directly) and either a return value or an exception. *)
Record BodyIn : Type := mkBodyIn {
  bi_args : list pyval;
  bi_data : pydict;
  bi_run_args : list pyval;
  bi_run_kwargs : pydict;
  bi_status : string;
  bi_message : option string;
  bi_error_info : pydict
}.

Record BodyOut : Type := mkBodyOut {
  bo_status : string;
  bo_message : option string;
  bo_error_info : pydict;
  bo_value : res pyval
}.

Definition Synopsis : Type :=
  (option string * option string * option string * option string)%type.

Record CommandClass : Type := mkClass {
  cls_name : string;
  SYNOPSIS : Synopsis;
  COMMAND_CACHE_TTL : Z;
  CHANGES_SESSION_CONTEXT : bool;
  CONFIG_REQUIRED : bool;
  IS_USER_ACTIVITY : bool;
  SPLIT_ARG : bool;
  FAILURE : list fail_piece;
  RAISES : list ExnClass;
  LOG_NOTHING : bool;
  LOG_ARGUMENTS : bool;
  LOG_PROGRESS : bool;
  LOG_STARTING : list msg_piece;
  LOG_FINISHED : list msg_piece;
  cls_doc : option string;
  command : BodyIn -> BodyOut;
  view : pyval -> pyval
}.

Definition SYNOPSIS_0 (c : CommandClass) : option string := fst (fst (fst (SYNOPSIS c))).
Definition SYNOPSIS_1 (c : CommandClass) : option string := snd (fst (fst (SYNOPSIS c))).
Definition SYNOPSIS_2 (c : CommandClass) : option string := snd (fst (SYNOPSIS c)).
Definition SYNOPSIS_3 (c : CommandClass) : option string := snd (SYNOPSIS c).

(** [SYNOPSIS[:3]] *)
Definition SYNOPSIS_first3 (c : CommandClass) : list (option string) :=
  [SYNOPSIS_0 c; SYNOPSIS_1 c; SYNOPSIS_2 c].

(** The defaults of [class Command]. *)
Definition Command_FAILURE : list fail_piece := [FLit "Failed: "; FName; FLit " "; FArgs].
Definition Command_RAISES : list ExnClass := [UsageError; UrlRedirectException].
Definition Command_LOG_STARTING : list msg_piece := [MName; MLit ": Starting"].
Definition Command_LOG_FINISHED : list msg_piece := [MName; MLit ": "; MMessage].

(** [Command.command]: returns [None] and touches nothing. *)
Definition Command_command (i : BodyIn) : BodyOut :=
  mkBodyOut (bi_status i) (bi_message i) (bi_error_info i) (Ok PNone).

Definition base_class (name : string) (syn : Synopsis) : CommandClass :=
  {| cls_name := name; SYNOPSIS := syn;
     COMMAND_CACHE_TTL := 0; CHANGES_SESSION_CONTEXT := false;
     CONFIG_REQUIRED := true; IS_USER_ACTIVITY := false; SPLIT_ARG := true;
     FAILURE := Command_FAILURE; RAISES := Command_RAISES;
     LOG_NOTHING := false; LOG_ARGUMENTS := true; LOG_PROGRESS := false;
     LOG_STARTING := Command_LOG_STARTING; LOG_FINISHED := Command_LOG_FINISHED;
     cls_doc := None;
     command := Command_command;
     view := fun v => v |}.

(** A command object: the fields [__init__] sets, plus [_start_time],
    [_run_args] and [_run_kwargs], which [_starting] and [_run_sync]
    add. *)
Record Command : Type := mkCommand {
  cls : CommandClass;
  c_session : nat;
  c_context : option string;
  c_name : option string;
  c_data : pydict;
  c_status : string;
  c_message : option string;
  c_error_info : pydict;
  c_result : pyval;
  c_run_async : bool;
  c_args : list pyval;
  c_event : Event;
  c_start_time : Z;
  c_run_args : list pyval;
  c_run_kwargs : pydict
}.

(** ** Command results *)

(** [Command.CommandResult].  [r_command_obj] is the command the result
    belongs to, kept as the value of that object when the result is
    built: what [as_dict] reads from it ([args], [data], [context], the
    class) is not written afterwards, and the event id only changes when
    [refresh] builds a new event.  [r_session] is a reference into the
    store of session objects. *)
Record CommandResult : Type := mkResult {
  r_command_obj : Command;
  r_session : nat;
  r_command_name : option string;
  r_kwargs : pydict;
  r_template_id : option string;
  r_doc : option string;
  r_result : pyval;
  r_status : string;
  r_error_info : pydict;
  r_message : option string;
  r_rendered : gmap string string
}.

(** ** Sessions, configuration and the world around a command *)

(** Of the session, its ui and the configuration (all defined in other
    modules) the records below keep what the command core reads or
    writes.  Session objects are shared between commands and results, so
    they live in a store indexed by reference. *)

Record UI : Type := mkUI {
  ui_class : string;      (* str(ui.__class__) with 'mailpile.' replaced by '.' *)
  render_mode : string;
  time_elapsed : string   (* '%.3f' % ui.time_elapsed, already formatted *)
}.

Record Session : Type := mkSession {
  s_ui : UI;
  s_results : list pyval;
  s_searched : list string;
  s_context : string
}.

Record Tag : Type := mkTag { tag_slug : string; tag_name : string }.

(** Modelled from the spec: the command cache is in
    [mailpile/config.py], which is not part of these sources.  The spec
    gives an entry an expiry time, a set of requirements, a dirty mark
    set by invalidation, and the result it owns; [cache_result] is also
    handed the command object. *)
Record CacheEntry : Type := mkEntry {
  ce_expires : Z;
  ce_requirements : list string;
  ce_dirty : bool;
  ce_command : Command;
  ce_result : CommandResult
}.

Record Config : Type := mkConfig {
  loaded_config : bool;
  debug_has : string -> bool;            (* [x in config.sys.debug] *)
  command_cache : gmap string CacheEntry;
  event_log : option (list Event);       (* [None]: no event log configured *)
  get_tag : string -> option Tag;        (* [None]: a falsy answer *)
  num_results : Z                        (* config.prefs.num_results *)
}.

(** Observable steps of one run, recorded in order; the record is ghost
    state used to count what the driver does. *)
Inductive Obs : Type :=
| ObsFlag (f : EventFlag)
| ObsNewResult (r : CommandResult)
| ObsBody
| ObsCacheGet (cid : string)
| ObsCachePut (cid : string).

Record World : Type := mkWorld {
  sessions : nat -> Session;
  config : Config;
  QUITTING : bool;                (* mailpile.util.QUITTING *)
  LAST_USER_ACTIVITY : Z;
  LIVE_USER_ACTIVITIES : Z;
  clock : Z;                      (* what time.time() reads *)
  next_event_id : nat;
  async_tasks : list (list pyval * pydict);   (* queued streetcar closures *)
  trace : list Obs
}.

(** Functions of modules that are not part of these sources
    ([mailpile.util], [mailpile.urlmap], [mailpile.ui], [shlex], [json],
    Python's [str]), and [cache_requirements], the method that cacheable
    command classes of other modules override (the base class raises
    [NotImplementedError]).  Every theorem below holds for any choice
    of them. *)
Class Externals : Type := mkExternals {
  gettext : string -> string;
  shlex_split : string -> option (list string);
  md5_hex : string -> string;
  py_str : pyval -> string;
  py_str_items : pydict -> string;
  ui_url : CommandClass -> string;
  context_url : CommandClass -> string;
  get_context : Session -> bool -> string;
  session_copy : Session -> Session -> Session;
  cache_requirements : Command -> CommandResult -> res (list string);
  b36 : pyval -> res string;
  json_dumps : bool -> pyval -> string;
  render_json : pydict -> string;
  render_web : list string -> pydict -> string;
  template_path : CommandClass -> string -> option string -> option string -> string
}.

Section CommandCore.
Context `{Ext : Externals}.

(** ** Query arguments and the cache id *)

Definition dict_items_of (v : pyval) : pydict :=
  match v with PDict d => d | _ => [] end.

(** [Command.state_as_query_args] *)
Definition state_as_query_args (c : Command) : pydict :=
  let args := [] in
  let args :=
    if truthy (PTuple (c_args c))
    then dict_set "arg" (_sloppy_copy (PTuple (c_args c)) None) args
    else args in
  dict_update args (dict_items_of (_sloppy_copy (PDict (c_data c)) None)).

(** [sorted(list(d.iteritems()))]: the keys of a dict are distinct, so
    the order of the pairs is the order of their keys. *)
Fixpoint insert_item (kv : string * pyval) (l : pydict) : pydict :=
  match l with
  | [] => [kv]
  | kv' :: l' =>
      if String.leb (fst kv) (fst kv') then kv :: l else kv' :: insert_item kv l'
  end.

Definition sorted_items (d : pydict) : pydict := fold_right insert_item [] d.

Fixpoint str_replace_char (a b : ascii) (s : string) : string :=
  match s with
  | EmptyString => EmptyString
  | String c s' => String (if Ascii.eqb c a then b else c) (str_replace_char a b s')
  end.

(** [Command.cache_id(sqa=None)] *)
Definition cache_id (c : Command) (sqa : option pydict) : string :=
  if COMMAND_CACHE_TTL (cls c) <? 1 then ""
  else
    let d := match sqa with
             | Some q => if truthy (PDict q) then q else state_as_query_args c
             | None => state_as_query_args c
             end in
    let args := sorted_items d in
    str_replace_char "." "-"
      (str_replace_char "/" "-"
         (ui_url (cls c) ++ "-" ++ md5_hex (py_str_items args))).

(** ** Event creation *)

Definition show_opt (o : option string) : string :=
  match o with Some s => s | None => "None" end.

Definition or_empty (o : option string) : string :=
  match o with Some s => s | None => "" end.

(** [Command._fmt_msg] *)
Definition _fmt_msg (c : Command) (message : list msg_piece) : string :=
  String.concat ""
    (map (fun p => match p with
                   | MLit s => s
                   | MName => show_opt (c_name c)
                   | MStatus => c_status c
                   | MMessage => or_empty (c_message c)
                   end) message).

(** [Command._make_command_event]; the event id comes from the event
    log's counter. *)
Definition _make_command_event (c : Command) (private_data : pydict) (w : World)
  : Event * World :=
  (mkEvent (next_event_id w) INCOMPLETE (_fmt_msg c (LOG_STARTING (cls c))) [] private_data,
   mkWorld (sessions w) (config w) (QUITTING w) (LAST_USER_ACTIVITY w)
           (LIVE_USER_ACTIVITIES w) (clock w) (S (next_event_id w)) (async_tasks w)
           (trace w ++ [ObsFlag INCOMPLETE])%list).

(** The [private_data] dict that [_create_event] builds. *)
Definition logged_private_data (c : Command) : pydict :=
  let private_data := [] in
  if LOG_ARGUMENTS (cls c) then
    let private_data :=
      if truthy (PDict (c_data c))
      then dict_set "data" (_sloppy_copy (PDict (c_data c)) None) private_data
      else private_data in
    if truthy (PTuple (c_args c))
    then dict_set "args" (_sloppy_copy (PTuple (c_args c)) None) private_data
    else private_data
  else private_data.

Definition set_event (c : Command) (e : Event) : Command :=
  mkCommand (cls c) (c_session c) (c_context c) (c_name c) (c_data c) (c_status c)
            (c_message c) (c_error_info c) (c_result c) (c_run_async c) (c_args c)
            e (c_start_time c) (c_run_args c) (c_run_kwargs c).

(** [Command._create_event] *)
Definition _create_event (c : Command) (w : World) : Command * World :=
  let (e, w') := _make_command_event c (logged_private_data c) w in
  (set_event c e, w').

(** ** Construction *)

Inductive ArgSpec : Type :=
| ArgNone
| ArgStr (s : string)
| ArgSeq (l : list pyval).

Definition or_else (a b : option string) : option string :=
  if opt_str_truthy a then a else b.

(** [Command.__init__(session, name, arg, data, async)] *)
Definition Command__init__ (k : CommandClass) (session : nat) (name : option string)
    (arg : ArgSpec) (data : option pydict) (async : bool) (w : World)
  : res (Command * World) :=
  let self_name := or_else (SYNOPSIS_1 k) (or_else (SYNOPSIS_2 k) name) in
  let self_data := match data with
                   | Some d => if truthy (PDict d) then d else []
                   | None => []
                   end in
  let parsed : res (list pyval) :=
    match arg with
    | ArgSeq l => Ok l
    | ArgStr s =>
        if str_truthy s then
          if SPLIT_ARG k then
            match shlex_split s with
            | Some l => Ok (map PUni l)
            | None => Raise (mkExn UsageError (gettext "Failed to parse arguments"))
            end
          else Ok [PStr s]
        else Ok []
    | ArgNone => Ok []
    end in
  match parsed with
  | Raise e => Raise e
  | Ok args =>
      let with_data : res (list pyval) :=
        match dict_get "arg" self_data with
        | None => Ok args
        | Some (PList l) => Ok (args ++ l)%list
        | Some _ => Raise (mkExn TypeError "can only concatenate list to list")
        end in
      match with_data with
      | Raise e => Raise e
      | Ok args' =>
          let c := mkCommand k session None self_name self_data "unknown" name []
                     PNone async args'
                     (mkEvent 0 INCOMPLETE "" [] []) 0 [] [] in
          Ok (_create_event c w)
      end
  end.

(** ** The registry: [GetCommand] and [Action] *)

Definition opt_string_eqb (a b : option string) : bool :=
  match a, b with
  | Some x, Some y => String.eqb x y
  | None, None => true
  | _, _ => false
  end.

(** [name in c.SYNOPSIS[:3]] *)
Definition synopsis_matches (name : option string) (k : CommandClass) : bool :=
  existsb (opt_string_eqb name) (SYNOPSIS_first3 k).

(** [GetCommand(name)], with the module-level list [COMMANDS] passed
    in. *)
Definition GetCommand (COMMANDS : list CommandClass) (name : option string)
  : option CommandClass :=
  let match_ := List.filter (synopsis_matches name) COMMANDS in
  if Nat.eqb (length match_) 1 then head match_ else None.

(** What [Action] ends in: a command class instantiated with
    [(session, name, arg, data=data)] whose [run()] is returned, or an
    exception. *)
Inductive ActionOutcome : Type :=
| RunCommand (k : CommandClass) (session : nat) (name : option string)
             (arg : ArgSpec) (data : option pydict)
| ActionRaise (e : Exn).

Definition arg_truthy (a : ArgSpec) : bool :=
  match a with
  | ArgNone => false
  | ArgStr s => str_truthy s
  | ArgSeq l => negb (Nat.eqb (length l) 0)
  end.

(** ['%s' % arg] *)
Definition arg_text (a : ArgSpec) : string :=
  match a with
  | ArgNone => "None"
  | ArgStr s => s
  | ArgSeq l => py_str (PList l)
  end.

(** [template % x] for a template with a single [%s] directive. *)
Fixpoint percent_s (template x : string) : string :=
  match template with
  | EmptyString => EmptyString
  | String c rest =>
      match rest with
      | String c' rest' =>
          if Ascii.eqb c "%" && Ascii.eqb c' "s" then x ++ rest'
          else String c (percent_s rest x)
      | EmptyString => template
      end
  end.

(** [Action(session, opt, arg, data=None)].  [Help] is the module's
    help command class. *)
Definition Action (COMMANDS : list CommandClass) (Help : CommandClass)
    (w : World) (session : nat) (opt : option string) (arg : ArgSpec)
    (data : option pydict) : ActionOutcome :=
  let config := config w in
  if negb (opt_str_truthy opt) then
    RunCommand Help session (Some "help") ArgNone None
  else
    match GetCommand COMMANDS opt with
    | Some command => RunCommand command session opt arg data
    | None =>
        let unknown_command :=
          ActionRaise (mkExn UsageError
                         (percent_s (gettext "Unknown command: %s") (show_opt opt))) in
        if loaded_config config then
          match get_tag config (or_empty opt) with
          | Some tag =>
              let a := "in:" ++ tag_slug tag
                       ++ (if arg_truthy arg then " " else "") ++ arg_text arg in
              match GetCommand COMMANDS (Some "search") with
              | Some search => RunCommand search session opt (ArgStr a) data
              | None => ActionRaise (mkExn TypeError "'NoneType' object is not callable")
              end
          | None => unknown_command
          end
        else unknown_command
    end.

(** ** Paging in [SearchResults.__init__] *)

(** Python's [l[i:j]] for integer bounds: a negative bound counts from
    the end, and both are clamped to the list. *)
Definition slice_bound (len i : Z) : Z :=
  if i <? 0 then Z.max (i + len) 0 else Z.min i len.

Definition py_slice {A : Type} (l : list A) (i j : Z) : list A :=
  let len := Z.of_nat (length l) in
  let i' := slice_bound len i in
  let j' := slice_bound len j in
  firstn (Z.to_nat (j' - i')) (skipn (Z.to_nat i') l).

Definition or_list (a b : list pyval) : list pyval :=
  match a with [] => b | _ => a end.

Definition or_Z (a : option Z) (b : Z) : Z :=
  match a with
  | Some z => if z =? 0 then b else z
  | None => b
  end.

Fixpoint map_res {A B : Type} (f : A -> res B) (l : list A) : res (list B) :=
  match l with
  | [] => Ok []
  | x :: l' =>
      match f x with
      | Raise e => Raise e
      | Ok y => match map_res f l' with
                | Raise e => Raise e
                | Ok ys => Ok (y :: ys)
                end
      end
  end.

Record Stats : Type := mkStats {
  st_count : Z;
  st_start : Z;
  st_end : Z;
  st_total : Z
}.

Record SearchResults : Type := mkSearchResults {
  sr_results : list pyval;
  sr_stats : Stats;
  sr_search_terms : list string;
  sr_thread_ids : list string
}.

(** [SearchResults.__init__] up to and including its first
    [self.update({...})], which fixes ['stats'] and ['thread_ids'].  The
    rest of the constructor adds tag and message data under other keys
    and does not write to these. *)
Definition SearchResults__init__ (session : Session) (cfg : Config)
    (results : option (list pyval)) (start : Z) (end_ : option Z)
    (num : option Z) : res SearchResults :=
  let results := or_list (or_list (default [] results) (s_results session)) [] in
  let num := or_Z num (num_results cfg) in
  let start := match end_ with
               | Some e => if e =? 0 then start else e - num
               | None => start
               end in
  let start := if start >? Z.of_nat (length results)
               then Z.of_nat (length results) else start in
  let start := if start <? 0 then 0 else start in
  let finish (results : list pyval) (threads : list string) (start : Z) :=
    Ok (mkSearchResults results
          (mkStats (Z.of_nat (length threads))
                   (start + 1)
                   (start + Z.min num (Z.of_nat (length results) - start))
                   (Z.of_nat (length results)))
          (s_searched session)
          threads) in
  match map_res b36 (py_slice results start (start + num)) with
  | Ok threads => finish results threads start
  | Raise e =>
      match exn_class e with
      | TypeError => finish [] [] 0
      | _ => Raise e
      end
  end.

(** ** Rendering a [CommandResult] *)

Inductive Renderer : Type :=
| as_json_r
| as_text_r
| as_template_r (etype : string).

(** [self.renderers.get(what)] *)
Definition renderers (what : string) : option Renderer :=
  if String.eqb what "json" then Some as_json_r
  else if String.eqb what "html" then Some (as_template_r "html")
  else if String.eqb what "text" then Some as_text_r
  else if String.eqb what "css" then Some (as_template_r "css")
  else if String.eqb what "rss" then Some (as_template_r "rss")
  else if String.eqb what "xml" then Some (as_template_r "xml")
  else if String.eqb what "txt" then Some (as_template_r "txt")
  else if String.eqb what "js" then Some (as_template_r "js")
  else None.

(** Calls that do the rendering work, in order (ghost). *)
Inductive RenderCall : Type :=
| CallRenderer (r : Renderer)
| CallJsonDumps
| CallRenderJson
| CallRenderWeb (tpath : string).

Definition set_rendered (r : CommandResult) (m : gmap string string) : CommandResult :=
  mkResult (r_command_obj r) (r_session r) (r_command_name r) (r_kwargs r) (r_template_id r) (r_doc r)
           (r_result r) (r_status r) (r_error_info r) (r_message r) m.

Definition opt_val (o : option string) : pyval :=
  match o with Some s => PUni s | None => PNone end.

Definition str_startswith (s p : string) : bool := String.prefix p s.

Definition str_endswith (s e : string) : bool :=
  (String.length e <=? String.length s)%nat
  && String.eqb (substring (String.length s - String.length e) (String.length e) s) e.

(** [CommandResult.as_dict]; [ui] is [self.session.ui]. *)
Definition as_dict (ui : UI) (r : CommandResult) : pydict :=
  let co := r_command_obj r in
  let rv :=
    [ ("command", opt_val (r_command_name r));
      ("state", PDict [ ("command_url", PUni (ui_url (cls co)));
                        ("context_url", PUni (context_url (cls co)));
                        ("query_args", PDict (state_as_query_args co));
                        ("cache_id", PUni (cache_id co None));
                        ("context", PUni (or_empty (c_context co))) ]);
      ("status", PStr (r_status r));
      ("message", opt_val (r_message r));
      ("result", r_result r);
      ("event_id", PInt (Z.of_nat (event_id (c_event co))));
      ("elapsed", PStr (time_elapsed ui)) ] in
  let rv := if truthy (PDict (r_error_info r))
            then dict_set "error" (PDict (r_error_info r)) rv else rv in
  fold_left (fun rv kv => dict_set (fst kv) (snd kv) rv)
            (List.filter (fun kv => str_startswith (fst kv) "ui_") (r_kwargs r)) rv.

(** [CommandResult.as_text] *)
Definition as_text (r : CommandResult) : res string * list RenderCall :=
  match r_result r with
  | PBool b =>
      let happy :=
        (if b && str_truthy (gettext "OK") then gettext "OK" else gettext "Failed")
        ++ ": "
        ++ (if opt_str_truthy (r_message r) then or_empty (r_message r)
            else show_opt (r_doc r)) in
      if negb b && truthy (PDict (r_error_info r))
      then (Ok (happy ++ String (ascii_of_nat 10) ""
                  ++ json_dumps false (PDict (r_error_info r))), [CallJsonDumps])
      else (Ok happy, [])
  | PDict _ | PList _ | PTuple _ => (Ok (json_dumps true (r_result r)), [CallJsonDumps])
  | v =>
      match py_unicode v with
      | Some u => (Ok u, [])
      | None => (Raise (mkExn UnicodeError "ascii codec cannot decode"), [])
      end
  end.

(** [CommandResult.as_json] *)
Definition as_json (ui : UI) (r : CommandResult) : res string * list RenderCall :=
  (Ok (render_json (as_dict ui r)), [CallRenderJson]).

Definition content_suffixes : list string := ["jhtml"; "jjs"; "jcss"; "jxml"; "jrss"].

(** The memo key that [as_template] computes. *)
Definition template_key (ui : UI) (etype : string) (template : option string) : string :=
  let what := etype ++ (if opt_str_truthy template then "/" else "") ++ or_empty template in
  fold_left (fun what e => if str_endswith (render_mode ui) e
                           then what ++ ":content" else what)
            content_suffixes what.

(** [CommandResult.as_template(etype, template)] *)
Definition as_template (ui : UI) (r : CommandResult)
    (etype : string) (template : option string)
  : res string * CommandResult * list RenderCall :=
  let what := template_key ui etype template in
  match r_rendered r !! what with
  | Some cached => (Ok cached, r, [])
  | None =>
      let tpath := template_path (cls (r_command_obj r)) etype (r_template_id r) template in
      let data := as_dict ui r in
      let data := dict_set "title" (opt_val (r_message r)) data in
      let render (data : pydict) := render_web [tpath] data in
      if str_endswith what ":content" then
        let data := dict_set "render_mode" (PStr "content") data in
        let data := dict_set "result" (PUni (render data)) data in
        let out := render_json data in
        (Ok out, set_rendered r (<[what := out]> (r_rendered r)),
         [CallRenderWeb tpath; CallRenderJson])
      else
        let data := dict_set "render_mode" (PStr "full") data in
        let out := render data in
        (Ok out, set_rendered r (<[what := out]> (r_rendered r)), [CallRenderWeb tpath])
  end.

(** Binding of the extra arguments of [as_] to the one optional
    parameter [template] of the template renderers. *)
Definition bind_template (args : list (option string))
    (kwargs : list (string * option string)) : res (option string) :=
  match args, kwargs with
  | [], [] => Ok None
  | [t], [] => Ok t
  | [], [(k, t)] =>
      if String.eqb k "template" then Ok t
      else Raise (mkExn TypeError "got an unexpected keyword argument")
  | _, _ => Raise (mkExn TypeError "wrong number of arguments")
  end.

(** Calling one renderer with the given extra arguments. *)
Definition call_renderer (ui : UI) (r : CommandResult)
    (f : Renderer) (args : list (option string))
    (kwargs : list (string * option string))
  : res string * CommandResult * list RenderCall :=
  match f with
  | as_template_r etype =>
      match bind_template args kwargs with
      | Ok template =>
          let '(out, r', calls) := as_template ui r etype template in
          (out, r', CallRenderer f :: calls)
      | Raise e => (Raise e, r, [])
      end
  | as_json_r =>
      match args, kwargs with
      | [], [] => let (out, calls) := as_json ui r in (out, r, CallRenderer f :: calls)
      | _, _ => (Raise (mkExn TypeError "as_json() takes exactly 1 argument"), r, [])
      end
  | as_text_r =>
      match args, kwargs with
      | [], [] => let (out, calls) := as_text r in (out, r, CallRenderer f :: calls)
      | _, _ => (Raise (mkExn TypeError "as_text() takes exactly 1 argument"), r, [])
      end
  end.

(** [CommandResult.as_(what, *args, **kwargs)] *)
Definition as_ (ui : UI) (r : CommandResult) (what : string)
    (args : list (option string)) (kwargs : list (string * option string))
  : res string * CommandResult * list RenderCall :=
  if negb (Nat.eqb (length args) 0) || negb (Nat.eqb (length kwargs) 0) then
    match renderers what with
    | Some f => call_renderer ui r f args kwargs
    | None => (Raise (mkExn TypeError "'NoneType' object is not callable"), r, [])
    end
  else
    match r_rendered r !! what with
    | Some cached => (Ok cached, r, [])
    | None =>
        let f := default as_text_r (renderers what) in
        let '(out, r', calls) := call_renderer ui r f [] [] in
        match out with
        | Ok text => (Ok text, set_rendered r' (<[what := text]> (r_rendered r')), calls)
        | Raise e => (Raise e, r', calls)
        end
    end.

(** ** The lifecycle driver *)

(** Methods of a command run in a state made of the command object
    ([self]) and the world; an exception leaves the state as it was
    when it was raised.

    Left out, because they only write to the console or the debug log
    and return nothing the driver uses: the calls [session.ui.mark],
    [ui.error], [ui.debug] (through [_ignore_exception]),
    [ui.start_command], [ui.finish_command], [ui.report_marks] and
    [ui.reset_marks].  [MultiContext(self.WITH_CONTEXT)] is entered with
    the empty tuple of the base class and is left out too.
    [time.time()] reads an integer clock. *)
Definition St : Type := (Command * World)%type.
Definition M (A : Type) : Type := St -> res A * St.

Definition ret {A : Type} (a : A) : M A := fun st => (Ok a, st).
Definition raise {A : Type} (e : Exn) : M A := fun st => (Raise e, st).

Definition bind {A B : Type} (m : M A) (k : A -> M B) : M B :=
  fun st => match m st with
            | (Ok a, st') => k a st'
            | (Raise e, st') => (Raise e, st')
            end.

(** [try: m except: h] *)
Definition try_except {A : Type} (m : M A) (h : Exn -> M A) : M A :=
  fun st => match m st with
            | (Ok a, st') => (Ok a, st')
            | (Raise e, st') => h e st'
            end.

Notation "x <- m ;; k" := (bind m (fun x => k))
  (at level 100, m at next level, k at level 200, right associativity).
Notation "m ;; k" := (bind m (fun _ => k))
  (at level 100, k at level 200, right associativity).

Definition get_self : M Command := fun st => (Ok (fst st), st).
Definition get_world : M World := fun st => (Ok (snd st), st).
Definition modify_self (f : Command -> Command) : M unit :=
  fun st => (Ok tt, (f (fst st), snd st)).
Definition modify_world (f : World -> World) : M unit :=
  fun st => (Ok tt, (fst st, f (snd st))).
Definition when (b : bool) (m : M unit) : M unit := if b then m else ret tt.

(** Field updates. *)
Definition set_status (s : string) (c : Command) : Command :=
  mkCommand (cls c) (c_session c) (c_context c) (c_name c) (c_data c) s
            (c_message c) (c_error_info c) (c_result c) (c_run_async c) (c_args c)
            (c_event c) (c_start_time c) (c_run_args c) (c_run_kwargs c).
Definition set_message (m : option string) (c : Command) : Command :=
  mkCommand (cls c) (c_session c) (c_context c) (c_name c) (c_data c) (c_status c)
            m (c_error_info c) (c_result c) (c_run_async c) (c_args c)
            (c_event c) (c_start_time c) (c_run_args c) (c_run_kwargs c).
Definition set_error_info (d : pydict) (c : Command) : Command :=
  mkCommand (cls c) (c_session c) (c_context c) (c_name c) (c_data c) (c_status c)
            (c_message c) d (c_result c) (c_run_async c) (c_args c)
            (c_event c) (c_start_time c) (c_run_args c) (c_run_kwargs c).
Definition set_context (x : option string) (c : Command) : Command :=
  mkCommand (cls c) (c_session c) x (c_name c) (c_data c) (c_status c)
            (c_message c) (c_error_info c) (c_result c) (c_run_async c) (c_args c)
            (c_event c) (c_start_time c) (c_run_args c) (c_run_kwargs c).
Definition set_start_time (t : Z) (c : Command) : Command :=
  mkCommand (cls c) (c_session c) (c_context c) (c_name c) (c_data c) (c_status c)
            (c_message c) (c_error_info c) (c_result c) (c_run_async c) (c_args c)
            (c_event c) t (c_run_args c) (c_run_kwargs c).
Definition set_run_args (a : list pyval) (k : pydict) (c : Command) : Command :=
  mkCommand (cls c) (c_session c) (c_context c) (c_name c) (c_data c) (c_status c)
            (c_message c) (c_error_info c) (c_result c) (c_run_async c) (c_args c)
            (c_event c) (c_start_time c) a k.
Definition map_event (f : Event -> Event) (c : Command) : Command :=
  set_event c (f (c_event c)).

Definition set_flags (f : EventFlag) (e : Event) : Event :=
  mkEvent (event_id e) f (e_message e) (e_data e) (e_private_data e).
Definition set_e_message (m : string) (e : Event) : Event :=
  mkEvent (event_id e) (flags e) m (e_data e) (e_private_data e).
Definition set_e_data (k : string) (v : pyval) (e : Event) : Event :=
  mkEvent (event_id e) (flags e) (e_message e) (dict_set k v (e_data e)) (e_private_data e).
Definition map_private_data (f : pydict -> pydict) (e : Event) : Event :=
  mkEvent (event_id e) (flags e) (e_message e) (e_data e) (f (e_private_data e)).

Definition set_ui (u : UI) (s : Session) : Session :=
  mkSession u (s_results s) (s_searched s) (s_context s).

Definition set_sessions (f : nat -> Session) (w : World) : World :=
  mkWorld f (config w) (QUITTING w) (LAST_USER_ACTIVITY w) (LIVE_USER_ACTIVITIES w)
          (clock w) (next_event_id w) (async_tasks w) (trace w).
Definition set_config (g : Config) (w : World) : World :=
  mkWorld (sessions w) g (QUITTING w) (LAST_USER_ACTIVITY w) (LIVE_USER_ACTIVITIES w)
          (clock w) (next_event_id w) (async_tasks w) (trace w).
Definition set_activity (last live : Z) (w : World) : World :=
  mkWorld (sessions w) (config w) (QUITTING w) last live
          (clock w) (next_event_id w) (async_tasks w) (trace w).
Definition set_async_tasks (t : list (list pyval * pydict)) (w : World) : World :=
  mkWorld (sessions w) (config w) (QUITTING w) (LAST_USER_ACTIVITY w)
          (LIVE_USER_ACTIVITIES w) (clock w) (next_event_id w) t (trace w).
Definition set_trace (t : list Obs) (w : World) : World :=
  mkWorld (sessions w) (config w) (QUITTING w) (LAST_USER_ACTIVITY w)
          (LIVE_USER_ACTIVITIES w) (clock w) (next_event_id w) (async_tasks w) t.

Definition set_command_cache (m : gmap string CacheEntry) (g : Config) : Config :=
  mkConfig (loaded_config g) (debug_has g) m (event_log g) (get_tag g) (num_results g).
Definition set_event_log (l : option (list Event)) (g : Config) : Config :=
  mkConfig (loaded_config g) (debug_has g) (command_cache g) l (get_tag g) (num_results g).

Definition add_obs (o : Obs) : M unit :=
  modify_world (fun w => set_trace (trace w ++ [o])%list w).

(** Modelled from the spec: [EventLog.log_event] is in
    [mailpile/eventlog.py], which is not part of these sources; the
    spec gives the log an [append(event)] operation. *)
Definition log_event (e : Event) (g : Config) : Config :=
  match event_log g with
  | Some l => set_event_log (Some (l ++ [e])%list) g
  | None => g
  end.

(** Modelled from the spec: [command_cache.get_result] is in
    [mailpile/config.py], which is not part of these sources.  The spec
    returns the cached result only if [now < expires_at] and the entry
    has not been marked dirty; anything else is a miss, which the
    caller sees as an exception. *)
Definition get_result (g : Config) (now : Z) (cid : string) : res CommandResult :=
  match command_cache g !! cid with
  | Some e =>
      if (now <? ce_expires e) && negb (ce_dirty e) then Ok (ce_result e)
      else Raise (mkExn KeyError cid)
  | None => Raise (mkExn KeyError cid)
  end.

(** Modelled from the spec: [command_cache.cache_result] (same module):
    it replaces any existing entry for that fingerprint. *)
Definition cache_put (cid : string) (expires : Z) (reqs : list string)
    (c : Command) (r : CommandResult) (g : Config) : Config :=
  set_command_cache (<[cid := mkEntry expires reqs false c r]> (command_cache g)) g.

Definition time_time : M Z := w <- get_world ;; ret (clock w).

(** [Command._update_event_state(state, log=False)] *)
Definition _update_event_state (state : EventFlag) (log : bool) : M unit :=
  modify_self (map_event (set_flags state)) ;;
  add_obs (ObsFlag state) ;;
  now <- time_time ;;
  modify_self (fun c =>
    map_event (set_e_data "elapsed" (PInt (1000 * (now - c_start_time c)))) c) ;;
  c <- get_self ;;
  when ((log || LOG_PROGRESS (cls c)) && negb (LOG_NOTHING (cls c)))
    (w <- get_world ;;
     let ui := s_ui (sessions w (c_session c)) in
     modify_self (map_event (set_e_data "ui" (PStr (ui_class ui)))) ;;
     modify_self (map_event (set_e_data "output" (PStr (render_mode ui)))) ;;
     c <- get_self ;;
     modify_world (fun w => set_config (log_event (c_event c) (config w)) w)).

(** [Command._starting] *)
Definition _starting : M unit :=
  now <- time_time ;;
  modify_self (set_start_time now) ;;
  _update_event_state RUNNING false.

(** [Command._error(message, info=None, result=None)] *)
Definition _error (message : string) (info : option pydict) (result : pyval) : M pyval :=
  modify_self (set_status "error") ;;
  modify_self (set_message (Some message)) ;;
  when (match info with Some i => truthy (PDict i) | None => false end)
    (modify_self (fun c => set_error_info (dict_update (c_error_info c) (default [] info)) c)) ;;
  c <- get_self ;;
  if truthy result then ret (view (cls c) result) else ret (PBool false).

(** [Command._success(message, result=True)] *)
Definition _success (message : string) (result : pyval) : M pyval :=
  modify_self (set_status "success") ;;
  modify_self (set_message (Some message)) ;;
  c <- get_self ;;
  ret (view (cls c) result).

(** [Command._update_finished_event] *)
Definition _update_finished_event : M unit :=
  c <- get_self ;;
  when (opt_str_truthy (c_message c))
    (modify_self (map_event (set_e_message (or_empty (c_message c))))) ;;
  when (truthy (PDict (c_error_info c)))
    (modify_self (map_event (map_private_data
                               (dict_set "error_info" (PDict (c_error_info c)))))) ;;
  modify_self (fun c => map_event (set_e_message (_fmt_msg c (LOG_FINISHED (cls c)))) c) ;;
  _update_event_state COMPLETE true.

(** [Command.cache_result(result)] *)
Definition cache_result (result : CommandResult) : M unit :=
  c <- get_self ;;
  when (COMMAND_CACHE_TTL (cls c) >? 0)
    (let cid := cache_id c None in
     when (str_truthy cid)
       (now <- time_time ;;
        match cache_requirements c result with
        | Raise e => raise e
        | Ok reqs =>
            modify_world (fun w =>
              set_config (cache_put cid (now + COMMAND_CACHE_TTL (cls c)) reqs c result
                            (config w)) w) ;;
            add_obs (ObsCachePut cid)
        end)).

(** What a driver method hands back: [_finishing] returns its [rv]
    argument when it only cleans up, and a [CommandResult] otherwise. *)
Inductive RetVal : Type :=
| RetValue (v : pyval)
| RetResult (r : CommandResult).

(** [CommandResult(self, self.session, self.name, doc, rv, self.status,
    self.message, error_info=self.error_info)] *)
Definition new_result (c : Command) (doc : option string) (rv : pyval) : CommandResult :=
  mkResult c (c_session c) (c_name c) [] None doc rv (c_status c)
           (dict_update [] (c_error_info c)) (c_message c) ∅.

(** [Command._finishing(command, rv, just_cleanup=False)]; of its
    [command] argument only [command.__doc__] is used. *)
Definition _finishing (command_doc : option string) (rv : pyval) (just_cleanup : bool)
  : M RetVal :=
  if just_cleanup then
    _update_finished_event ;; ret (RetValue rv)
  else
    c <- get_self ;;
    w <- get_world ;;
    when (negb (opt_str_truthy (c_context c)))
      (modify_self (set_context
         (Some (get_context (sessions w (c_session c)) (CHANGES_SESSION_CONTEXT (cls c)))))) ;;
    c <- get_self ;;
    let result := new_result c (or_else command_doc (cls_doc (cls c))) rv in
    add_obs (ObsNewResult result) ;;
    cache_result result ;;
    when (negb (c_run_async c)) _update_finished_event ;;
    ret (RetResult result).

Definition is_text (v : pyval) : bool :=
  match v with PStr _ | PUni _ => true | _ => false end.
Definition is_unicode (v : pyval) : bool :=
  match v with PUni _ => true | _ => false end.
Definition text_of (v : pyval) : string :=
  match v with PStr s | PUni s => s | _ => "" end.

(** [sep.join(l)]: every item must be text; joining byte strings with
    unicode decodes the byte strings as ASCII. *)
Definition str_join (sep : string) (l : list pyval) : res string :=
  if forallb is_text l then
    if existsb is_unicode l
       && negb (forallb (fun v => match py_unicode v with Some _ => true | None => false end) l)
    then Raise (mkExn UnicodeError "ascii codec cannot decode")
    else Ok (String.concat sep (map text_of l))
  else Raise (mkExn TypeError "sequence item: expected string").

(** [self.FAILURE % {'name': self.name, 'args': args}] *)
Definition fmt_failure (c : Command) (args : string) : string :=
  String.concat ""
    (map (fun p => match p with
                   | FLit s => s
                   | FName => show_opt (c_name c)
                   | FArgs => args
                   end) (FAILURE (cls c))).

(** The local function [command] that [_run_sync] wraps around the
    body. *)
Definition invoke_body (args : list pyval) (kwargs : pydict) : M pyval :=
  c <- get_self ;;
  add_obs ObsBody ;;
  let out := command (cls c)
               (mkBodyIn (c_args c) (c_data c) args kwargs
                         (c_status c) (c_message c) (c_error_info c)) in
  modify_self (set_status (bo_status out)) ;;
  modify_self (set_message (bo_message out)) ;;
  modify_self (set_error_info (bo_error_info out)) ;;
  match bo_value out with
  | Ok v => ret v
  | Raise e => raise e
  end.

Definition command_wrapper (args : list pyval) (kwargs : pydict) : M pyval :=
  c <- get_self ;;
  w <- get_world ;;
  if CONFIG_REQUIRED (cls c) && negb (loaded_config (config w))
  then _error (gettext "Please log in") None PNone
  else if CONFIG_REQUIRED (cls c) && QUITTING w
  then _error (gettext "Shutting down") None PNone
  else invoke_body args kwargs.

(** The [try] block of the cache lookup in [_run_sync]. *)
Definition use_cached (cid : string) : M CommandResult :=
  add_obs (ObsCacheGet cid) ;;
  w <- get_world ;;
  match get_result (config w) (clock w) cid with
  | Raise e => raise e
  | Ok rv =>
      c <- get_self ;;
      modify_world (fun w =>
        set_sessions (<[r_session rv :=
                          set_ui (s_ui (sessions w (c_session c)))
                                 (sessions w (r_session rv))]> (sessions w)) w) ;;
      when (CHANGES_SESSION_CONTEXT (cls c))
        (modify_world (fun w =>
           set_sessions (<[c_session c :=
                             session_copy (sessions w (c_session c))
                                          (sessions w (r_session rv))]> (sessions w)) w)) ;;
      _finishing (cls_doc (cls c)) (PBool true) true ;;
      ret rv
  end.

Definition in_RAISES (c : Command) (e : Exn) : bool :=
  bool_decide (exn_class e ∈ RAISES (cls c)).

(** The cache lookup at the head of [_run_sync]: [Some rv] when the
    [try] block returns the cached result, [None] when the lookup is
    skipped or the bare [except: pass] swallows an exception. *)
Definition lookup_cached (enable_cache : bool) : M (option CommandResult) :=
  c <- get_self ;;
  w <- get_world ;;
  if (COMMAND_CACHE_TTL (cls c) >? 0)
     && negb (debug_has (config w) "http")
     && enable_cache
  then try_except (rv <- use_cached (cache_id c None) ;; ret (Some rv))
                  (fun _ => ret None)
  else ret None.

(** The [try ... except self.RAISES ... except] statement that ends
    [_run_sync]. *)
Definition run_command (args : list pyval) (kwargs : pydict) : M RetVal :=
  try_except
    (rv <- command_wrapper args kwargs ;; _finishing None rv false)
    (fun e =>
       c <- get_self ;;
       if in_RAISES c e then
         modify_self (set_status "success") ;;
         _finishing None (PBool true) true ;;
         raise e
       else
         c <- get_self ;;
         match str_join " " (c_args c) with
         | Raise e' => raise e'
         | Ok joined =>
             _error (fmt_failure c joined) None PNone ;;
             _finishing None (PBool false) false
         end).

(** [Command._run_sync(enable_cache, *args, **kwargs)] *)
Definition _run_sync (enable_cache : bool) (args : list pyval) (kwargs : pydict)
  : M RetVal :=
  _starting ;;
  modify_self (set_run_args args kwargs) ;;
  hit <- lookup_cached enable_cache ;;
  match hit with
  | Some rv => ret (RetResult rv)
  | None => run_command args kwargs
  end.

(** The placeholder that [_run] returns for a background command. *)
Definition background_result (c : Command) : CommandResult :=
  mkResult c (c_session c) (c_name c) [] None (cls_doc (cls c))
           (PDict [("resultid", PInt (Z.of_nat (event_id (c_event c))))])
           "success" [] (Some "Running in background") ∅.

(** What [streetcar] does with the value of [_run_sync]: it merges
    [rv.as_dict()] into the private data of the event and closes the
    event. *)
Definition record_result (rv : RetVal) : M unit :=
  match rv with
  | RetResult r =>
      w <- get_world ;;
      let d := as_dict (s_ui (sessions w (r_session r))) r in
      modify_self (map_event (map_private_data (fun p => dict_update p d))) ;;
      _update_finished_event
  | RetValue _ => raise (mkExn TypeError "object has no attribute 'as_dict'")
  end.

(** The closure [streetcar] that [_run] hands to the background worker:
    the bare [except:] around it swallows every exception. *)
Definition streetcar (args : list pyval) (kwargs : pydict) : M unit :=
  try_except
    (rv <- _run_sync true args kwargs ;; record_result rv)
    (fun _ => ret tt).

(** [Command._run], called with the run arguments.  Adding the task to the
    background worker is recorded in [async_tasks]; the worker runs
    [streetcar] later. *)
Definition _run (args : list pyval) (kwargs : pydict) : M RetVal :=
  c <- get_self ;;
  if c_run_async c then
    _starting ;;
    _update_event_state RUNNING true ;;
    c <- get_self ;;
    let result := background_result c in
    add_obs (ObsNewResult result) ;;
    modify_world (fun w => set_async_tasks (async_tasks w ++ [(args, kwargs)])%list w) ;;
    ret (RetResult result)
  else
    _run_sync true args kwargs.

(** [Command.run]; the [finally] clause runs on both
    exits. *)
Definition run (args : list pyval) (kwargs : pydict) : M RetVal :=
  c <- get_self ;;
  if IS_USER_ACTIVITY (cls c) then
    modify_world (fun w => set_activity (clock w) (LIVE_USER_ACTIVITIES w + 1) w) ;;
    fun st =>
      let '(r, (c', w')) := _run args kwargs st in
      (r, (c', set_activity (LAST_USER_ACTIVITY w') (LIVE_USER_ACTIVITIES w' - 1) w'))
  else
    _run args kwargs.


(** The flags written to the event, in order, and the results built. *)
Definition flag_writes (t : list Obs) : list EventFlag :=
  omap (fun o => match o with ObsFlag f => Some f | _ => None end) t.

Definition results_built (t : list Obs) : list CommandResult :=
  omap (fun o => match o with ObsNewResult r => Some r | _ => None end) t.

Definition body_runs (t : list Obs) : nat :=
  length (List.filter (fun o => match o with ObsBody => true | _ => false end) t).

Definition cache_lookups (t : list Obs) : nat :=
  length (List.filter (fun o => match o with ObsCacheGet _ => true | _ => false end) t).

End CommandCore.

(** ** Vocabulary of the statements *)

Definition is_container (v : pyval) : bool :=
  match v with PList _ | PTuple _ | PDict _ => true | _ => false end.

(** Every [(key, value)] pair of every dict inside a value, at any
    depth. *)
Fixpoint all_fields (v : pyval) : pydict :=
  match v with
  | PList l | PTuple l => concat (map all_fields l)
  | PDict d => concat (map (fun kv => (fst kv, snd kv) :: all_fields (snd kv)) d)
  | _ => []
  end.

(** Every value inside a value that is not a list, tuple or dict. *)
Fixpoint leaves (v : pyval) : list pyval :=
  match v with
  | PList l | PTuple l => concat (map leaves l)
  | PDict d => concat (map (fun kv => leaves (snd kv)) d)
  | _ => [v]
  end.

(** Two values that differ at most below names that start with
    ["pass"]; [name] is the name the values are stored under. *)
Inductive pass_equiv : option string -> pyval -> pyval -> Prop :=
| pe_pass name v1 v2 :
    is_pass_name name = true -> pass_equiv name v1 v2
| pe_same name v :
    pass_equiv name v v
| pe_list name l1 l2 :
    Forall2 (pass_equiv name) l1 l2 -> pass_equiv name (PList l1) (PList l2)
| pe_tuple name l1 l2 :
    Forall2 (pass_equiv name) l1 l2 -> pass_equiv name (PTuple l1) (PTuple l2)
| pe_dict name d1 d2 :
    Forall2 (fun kv1 kv2 => fst kv1 = fst kv2
                            /\ pass_equiv (Some (fst kv1)) (snd kv1) (snd kv2)) d1 d2 ->
    pass_equiv name (PDict d1) (PDict d2).

(** The same command with other positional and keyword inputs. *)
Definition set_inputs (args : list pyval) (data : pydict) (c : Command) : Command :=
  mkCommand (cls c) (c_session c) (c_context c) (c_name c) data (c_status c)
            (c_message c) (c_error_info c) (c_result c) (c_run_async c) args
            (c_event c) (c_start_time c) (c_run_args c) (c_run_kwargs c).

(** What may end up in logged event data: text of at most 1024
    characters, or the marker for undecodable values. *)
Definition logged_leaf (v : pyval) : Prop :=
  (exists s, v = PUni s /\ (String.length s <= 1024)%nat) \/ v = PStr BINARY_DATA.


(** ** The registry as shipped, and one choice of the external functions *)

(** Names and [SYNOPSIS] tuples of the classes in the module-level list
    [COMMANDS], in its order. *)
Definition COMMANDS_SYNOPSIS : list (string * Synopsis) :=
  [ ("Load", (None, Some "load", None, None));
    ("Optimize", (None, Some "optimize", None, Some "[harder]"));
    ("Rescan", (None, Some "rescan", None,
                Some "[full|vcards|both|mailboxes|sources|<msgs>]"));
    ("BrowseOrLaunch", (None, Some "browse_or_launch", None, None));
    ("RunWWW", (None, Some "www", None, Some "[<host:port>]"));
    ("ProgramStatus", (None, Some "ps", Some "ps", None));
    ("ListDir", (None, Some "ls", None, Some "<.../new/path/...>"));
    ("ChangeDir", (None, Some "cd", None, Some "<.../new/path/...>"));
    ("CatFile", (None, Some "cat", None, Some "</path/to/file> [>/path/to/output]"));
    ("WritePID", (None, Some "pidfile", None, Some "</path/to/pidfile>"));
    ("ConfigPrint", (Some "P", Some "print", Some "settings", Some "[-short] <var>"));
    ("ConfigSet", (Some "S", Some "set", Some "settings/set",
                   Some "<section.variable> <value>"));
    ("ConfigAdd", (None, Some "append", Some "settings/add",
                   Some "<section.variable> <value>"));
    ("ConfigUnset", (Some "U", Some "unset", Some "settings/unset", Some "<var>"));
    ("AddMailboxes", (Some "A", Some "add", None, Some "<path/to/mailbox>"));
    ("RenderPage", (None, None, Some "page", None));
    ("Cached", (None, Some "cached", Some "cached", Some "[<cache-id>]"));
    ("Output", (None, Some "output", None,
                Some "[json|text|html|<template>.html|...]"));
    ("Help", (Some "h", Some "help", Some "help", Some "[<command-group>]"));
    ("HelpVars", (None, Some "help/variables", Some "help/variables", None));
    ("HelpSplash", (None, Some "help/splash", Some "help/splash", None));
    ("Quit", (Some "q", Some "quit", Some "quitquitquit", None));
    ("TrustingQQQ", (None, Some "trustingqqq", None, None));
    ("Abort", (None, Some "quit/abort", Some "abortabortabort", None)) ].

(** The registry entries as far as [GetCommand] reads them: the class
    name and [SYNOPSIS] are those of the source, every other attribute
    is the default of [class Command]. *)
Definition COMMANDS_by_synopsis : list CommandClass :=
  map (fun e => base_class (fst e) (snd e)) COMMANDS_SYNOPSIS.

(** One concrete choice of the external functions, to run the model on
    examples.  [b36] accepts integers and raises [TypeError] on text. *)
Definition plain_externals : Externals :=
  {| gettext := fun s => s;
     shlex_split := fun s => Some [s];
     md5_hex := fun s => s;
     py_str := fun _ => "";
     py_str_items := fun d => String.concat "," (map fst d);
     ui_url := fun k => "/" ++ or_empty (SYNOPSIS_2 k) ++ "/";
     context_url := fun k => "/" ++ or_empty (SYNOPSIS_2 k) ++ "/";
     get_context := fun s _ => s_context s;
     session_copy := fun self other =>
       mkSession (s_ui self) (s_results other) (s_searched other) (s_context other);
     cache_requirements := fun _ _ => Ok [];
     b36 := fun v => match v with
                     | PInt z => Ok (decimal z)
                     | PNone => Ok "0"
                     | _ => Raise (mkExn TypeError "unsupported operand type(s) for divmod()")
                     end;
     json_dumps := fun _ _ => "{}";
     render_json := fun d => String.concat "," (map fst d);
     render_web := fun tpath _ => String.concat "," tpath;
     template_path := fun _ etype _ template => or_empty template ++ "." ++ etype |}.

Definition plain_ui : UI := mkUI ".ui.UserInteraction" "text" "0.000".

Definition plain_session : Session := mkSession plain_ui [] [] "".

Definition plain_config : Config :=
  mkConfig false (fun _ => false) ∅ None (fun _ => None) 20.

Definition plain_world : World :=
  mkWorld (fun _ => plain_session) plain_config false 0 0 0 0 [] [].

(** ** The claims about [Action] and the paging, as they are worded *)

(** [Action] as the claim words it: primary resolution first, then the
    tag fallback, then [UsageError]. *)
Definition Action_as_worded `{Ext : Externals} (COMMANDS : list CommandClass)
    (Help : CommandClass) (w : World) (session : nat) (opt : option string)
    (arg : ArgSpec) (data : option pydict) : Prop :=
  let out := Action COMMANDS Help w session opt arg data in
  match GetCommand COMMANDS opt with
  | Some k => out = RunCommand k session opt arg data
  | None =>
      match (if loaded_config (config w) then get_tag (config w) (or_empty opt)
             else None) with
      | Some tag =>
          exists search a,
            GetCommand COMMANDS (Some "search") = Some search
            /\ out = RunCommand search session opt (ArgStr a) data
            /\ String.prefix ("in:" ++ tag_slug tag) a = true
      | None => exists msg, out = ActionRaise (mkExn UsageError msg)
      end
  end.

(** The effective page size, requested start and clamped start of
    [SearchResults.__init__]. *)
Definition page_results (session : Session) (results : option (list pyval)) : list pyval :=
  or_list (or_list (default [] results) (s_results session)) [].

Definition page_size (cfg : Config) (num : option Z) : Z := or_Z num (num_results cfg).

Definition page_start (session : Session) (cfg : Config) (results : option (list pyval))
    (start : Z) (end_ : option Z) (num : option Z) : Z :=
  let s0 := match end_ with
            | Some e => if e =? 0 then start else e - page_size cfg num
            | None => start
            end in
  Z.max 0 (Z.min s0 (Z.of_nat (length (page_results session results)))).

(** The paging claim as it is worded, for a results list of length
    [L], page size [num] and requested start position [start]. *)
Definition paging_as_worded `{Ext : Externals} (session : Session) (cfg : Config)
    (results : option (list pyval)) (start : Z) (num : option Z) : Prop :=
  let R := page_results session results in
  let L := Z.of_nat (length R) in
  let n := page_size cfg num in
  let s := page_start session cfg results start None num in
  exists sr,
    SearchResults__init__ session cfg results start None num = Ok sr
    /\ 0 <= s <= L
    /\ st_total (sr_stats sr) = L
    /\ st_start (sr_stats sr) = s + 1
    /\ st_count (sr_stats sr) = Z.of_nat (length (py_slice R s (s + n)))
    /\ st_count (sr_stats sr) <= n
    /\ st_end (sr_stats sr) = s + Z.min n (L - s)
    /\ st_end (sr_stats sr) <= st_total (sr_stats sr).

(** ** The claim about extra arguments of [as_], as it is worded *)

Definition as_out (x : res string * CommandResult * list RenderCall) : res string :=
  fst (fst x).
Definition as_obj (x : res string * CommandResult * list RenderCall) : CommandResult :=
  snd (fst x).
Definition as_calls (x : res string * CommandResult * list RenderCall) : list RenderCall :=
  snd x.


Definition plain_command : Command :=
  mkCommand (base_class "Help" (Some "h", Some "help", Some "help", Some "[<command-group>]"))
            0%nat None (Some "help") [] "success" (Some "help") [] PNone false []
            (mkEvent 0 COMPLETE "help: help" [] []) 0 [] [].

Definition plain_result : CommandResult :=
  mkResult plain_command 0%nat (Some "help") [] None None (PBool true) "success" []
           (Some "help") ∅.

(** ** Conditions on one run *)

(** The condition under which [_run_sync] looks into the cache. *)
Definition cache_consulted (c : Command) (w : World) (enable_cache : bool) : bool :=
  (COMMAND_CACHE_TTL (cls c) >? 0) && negb (debug_has (config w) "http") && enable_cache.

(** The wrapper lets the body run: the configuration is loaded and the
    program is not quitting, or the class does not require it. *)
Definition body_allowed (c : Command) (w : World) : bool :=
  negb (CONFIG_REQUIRED (cls c)) || (loaded_config (config w) && negb (QUITTING w)).

(** What the body does when [run] is called with the given
    arguments. *)
Definition body_outcome (c : Command) (args : list pyval) (kwargs : pydict) : BodyOut :=
  command (cls c)
    (mkBodyIn (c_args c) (c_data c) args kwargs (c_status c) (c_message c) (c_error_info c)).

(** Two configurations that agree on everything but the event log. *)
Definition same_settings (g g' : Config) : Prop :=
  loaded_config g' = loaded_config g
  /\ debug_has g' = debug_has g
  /\ command_cache g' = command_cache g
  /\ get_tag g' = get_tag g
  /\ num_results g' = num_results g.

(** Two configurations that agree on everything but the cache and the
    event log. *)
Definition same_switches (g g' : Config) : Prop :=
  loaded_config g' = loaded_config g
  /\ debug_has g' = debug_has g
  /\ get_tag g' = get_tag g
  /\ num_results g' = num_results g.

(** A stretch of the record with no flag write, no result built, no
    body run and no cache lookup. *)
Definition quiet (t : list Obs) : Prop :=
  flag_writes t = [] /\ results_built t = [] /\ body_runs t = 0%nat
  /\ cache_lookups t = 0%nat.

(** What a bookkeeping step may do to the world: extend the record by
    [t] and touch the cache and the event log, nothing else. *)
Definition world_step (w w' : World) (t : list Obs) : Prop :=
  trace w' = (trace w ++ t)%list
  /\ sessions w' = sessions w
  /\ QUITTING w' = QUITTING w
  /\ clock w' = clock w
  /\ async_tasks w' = async_tasks w
  /\ same_switches (config w) (config w').

(** The cacheable classes override [cache_requirements] with a method
    that returns. *)
Definition requirements_return `{Ext : Externals} (c : Command) : Prop :=
  COMMAND_CACHE_TTL (cls c) > 0 ->
  forall c' r, cls c' = cls c -> exists reqs, cache_requirements c' r = Ok reqs.

(** The lookup at the head of [_run_sync] does not return a cached
    result: it is skipped, or [get_result] raises. *)
Definition no_hit `{Ext : Externals} (c : Command) (w : World) (enable_cache : bool) : Prop :=
  cache_consulted c w enable_cache = false
  \/ exists e, get_result (config w) (clock w) (cache_id c None) = Raise e.


(** The sessions after a cache hit: the session of the cached result
    carries the caller's ui; a class that changes the session context
    then has the cached session copied into the caller's. *)
Definition sessions_after_hit `{Ext : Externals} (c : Command) (rv : CommandResult) (s : nat -> Session)
  : nat -> Session :=
  let s1 := <[r_session rv := set_ui (s_ui (s (c_session c))) (s (r_session rv))]> s in
  if CHANGES_SESSION_CONTEXT (cls c)
  then <[c_session c := session_copy (s1 (c_session c)) (s1 (r_session rv))]> s1
  else s1.


(** A computation that, from any state, extends the record by a
    stretch without a cache lookup. *)
Definition lookup_free {A : Type} (m : M A) : Prop :=
  forall st, exists t, trace (m st).2.2 = (trace st.2 ++ t)%list /\ cache_lookups t = 0%nat.

(** ** The lifecycle claims, as they are worded *)

(** A command class whose body raises [e] and touches nothing else;
    it does not require a loaded configuration, every other attribute
    is the default of [class Command]. *)
Definition raising_class (e : Exn) : CommandClass :=
  {| cls_name := "Raising"; SYNOPSIS := (None, Some "raising", None, None);
     COMMAND_CACHE_TTL := 0; CHANGES_SESSION_CONTEXT := false;
     CONFIG_REQUIRED := false; IS_USER_ACTIVITY := false; SPLIT_ARG := true;
     FAILURE := Command_FAILURE; RAISES := Command_RAISES;
     LOG_NOTHING := false; LOG_ARGUMENTS := true; LOG_PROGRESS := false;
     LOG_STARTING := Command_LOG_STARTING; LOG_FINISHED := Command_LOG_FINISHED;
     cls_doc := None;
     command := fun i =>
       mkBodyOut (bi_status i) (bi_message i) (bi_error_info i) (Raise e);
     view := fun v => v |}.



(** A command of class [k] built by [Command(session, name, arg)] in
    the plain world, and the world after its construction. *)
Definition built (k : CommandClass) (arg : ArgSpec) (async : bool) : Command * World :=
  match Command__init__ (Ext := plain_externals) k 0%nat None arg None async plain_world with
  | Ok cw => cw
  | Raise _ => (plain_command, plain_world)
  end.

Definition usage_error : Exn := mkExn UsageError "usage".

(** ** Concrete commands for the examples *)

Definition Help_entry : CommandClass :=
  base_class "Help" (Some "h", Some "help", Some "help", Some "[<command-group>]").

Definition usage_cmd : Command := (built (raising_class usage_error) ArgNone false).1.
Definition usage_world : World := (built (raising_class usage_error) ArgNone false).2.

(** A cacheable class (TTL 60) with the body of the base class. *)
Definition cacheable_class : CommandClass :=
  {| cls_name := "Cacheable"; SYNOPSIS := (None, Some "cacheable", Some "cacheable", None);
     COMMAND_CACHE_TTL := 60; CHANGES_SESSION_CONTEXT := false;
     CONFIG_REQUIRED := false; IS_USER_ACTIVITY := false; SPLIT_ARG := true;
     FAILURE := Command_FAILURE; RAISES := Command_RAISES;
     LOG_NOTHING := false; LOG_ARGUMENTS := true; LOG_PROGRESS := false;
     LOG_STARTING := Command_LOG_STARTING; LOG_FINISHED := Command_LOG_FINISHED;
     cls_doc := None;
     command := Command_command;
     view := fun v => v |}.

Definition with_data (d : pydict) (c : Command) : Command := set_inputs (c_args c) d c.

Definition cacheable_cmd : Command := (built cacheable_class ArgNone false).1.


(** A result of an earlier run, held by session 1, and a world whose
    cache has it under the cache id of [cacheable_cmd], fresh until
    time 100. *)
Definition earlier_result : CommandResult :=
  mkResult cacheable_cmd 1%nat (Some "cacheable") [] None None (PBool true) "success" []
           (Some "Done") ∅.

Definition cached_world : World :=
  set_config
    (cache_put (cache_id (Ext := plain_externals) cacheable_cmd None) 100 []
               cacheable_cmd earlier_result plain_config)
    (built cacheable_class ArgNone false).2.

Definition secret_cmd : Command :=
  with_data [("password", PStr "hunter2"); ("q", PList [PUni "inbox"])] plain_command.

(** ** Further functions of the module *)

(** ** Paging from one page to the next *)

Section PagingSets.
Context `{Ext : Externals}.

(** [SearchResults.next_set]: a new page over the results of the
    session, with the default page size. *)
Definition next_set (session : Session) (cfg : Config) (self : SearchResults)
  : res SearchResults :=
  let stats := sr_stats self in
  SearchResults__init__ session cfg None (st_start stats - 1 + st_count stats) None None.

(** [SearchResults.previous_set] *)
Definition previous_set (session : Session) (cfg : Config) (self : SearchResults)
  : res SearchResults :=
  let stats := sr_stats self in
  SearchResults__init__ session cfg None 0 (Some (st_start stats - 1)) None.

End PagingSets.

(** ** [Command.template_path] *)

(** [s.split(sep)] for a one-character separator: at least one part. *)
Fixpoint str_split_char (sep : ascii) (s : string) : list string :=
  match s with
  | EmptyString => [EmptyString]
  | String c s' =>
      if Ascii.eqb c sep then EmptyString :: str_split_char sep s'
      else match str_split_char sep s' with
           | h :: t => String c h :: t
           | [] => [String c EmptyString]
           end
  end.

(** [s.replace(old, '')] for a non-empty [old]: occurrences are removed
    from left to right and do not overlap; [skip] counts the characters
    of the occurrence being removed. *)
Fixpoint str_remove_from (old : string) (skip : nat) (s : string) : string :=
  match s with
  | EmptyString => EmptyString
  | String c s' =>
      match skip with
      | S k => str_remove_from old k s'
      | O =>
          if String.prefix old s
          then str_remove_from old (String.length old - 1) s'
          else String c (str_remove_from old 0 s')
      end
  end.

Definition str_remove (old s : string) : string := str_remove_from old 0 s.

(** [l[-1] += suffix] *)
Fixpoint append_to_last (l : list string) (suffix : string) : list string :=
  match l with
  | [] => []
  | [x] => [x ++ suffix]
  | x :: l' => x :: append_to_last l' suffix
  end.

(** [os.path.join] of [posixpath], applied to the parts: a part that starts with
    ['/'] discards what came before it; with no part at all the call
    raises [TypeError]. *)
Definition os_path_join (parts : list string) : res string :=
  match parts with
  | [] => Raise (mkExn TypeError "join() takes at least 1 argument (0 given)")
  | a :: p =>
      Ok (fold_left (fun path b =>
                       if str_startswith b "/" then b
                       else if String.eqb path "" || str_endswith path "/" then path ++ b
                       else path ++ "/" ++ b) p a)
  end.

(** [Command.template_path(etype, template_id=None, template=None)];
    [clean_text s] is [str(CleanText(s, banned=CleanText.FS +
    CleanText.WHITESPACE))] of [mailpile.util], which is not part of
    these sources. *)
Definition Command_template_path (clean_text : string -> string) (k : CommandClass)
    (etype : string) (template_id template : option string) : res string :=
  let path_parts :=
    str_split_char "/"
      (or_empty (or_else template_id (or_else (SYNOPSIS_2 k) (Some "command")))) in
  let path_parts :=
    if Nat.eqb (length path_parts) 1 then (path_parts ++ ["index"])%list else path_parts in
  let path_parts :=
    match template with
    | None => path_parts
    | Some t =>
        if String.eqb t etype || String.eqb t ("as." ++ etype) then path_parts
        else append_to_last path_parts
               ("-" ++ clean_text (str_remove ("." ++ etype) t))
    end in
  let path_parts := append_to_last path_parts ("." ++ etype) in
  os_path_join path_parts.

(** ** [Command._choose_messages] *)

(** [c.lower()] on the ASCII letters; the words compared below (['these'],
    ['all'], the name titles) are ASCII, and within the code units
    carried here no other character lowers to an ASCII letter. *)
Definition ascii_lower (c : ascii) : ascii :=
  let n := nat_of_ascii c in
  if ((65 <=? n) && (n <=? 90))%nat then ascii_of_nat (n + 32) else c.

Fixpoint str_lower (s : string) : string :=
  match s with
  | EmptyString => EmptyString
  | String c s' => String (ascii_lower c) (str_lower s')
  end.

(** [ch in s] for a character. *)
Fixpoint str_has_char (ch : ascii) (s : string) : bool :=
  match s with
  | EmptyString => false
  | String c s' => Ascii.eqb c ch || str_has_char ch s'
  end.

(** [s[1:]] *)
Definition str_tail (s : string) : string :=
  match s with
  | EmptyString => EmptyString
  | String _ s' => s'
  end.

(** Values that can be members of a set: lists and dicts cannot, a
    tuple can when its items can. *)
Fixpoint hashable (v : pyval) : bool :=
  match v with
  | PList _ | PDict _ => false
  | PTuple l => forallb hashable l
  | _ => true
  end.

(** [l[i]] for an integer index: a negative index counts from the end,
    and an index out of range raises [IndexError] ([None] here). *)
Definition py_index {A : Type} (l : list A) (i : Z) : option A :=
  let len := Z.of_nat (length l) in
  let i' := if i <? 0 then i + len else i in
  if (0 <=? i') && (i' <? len) then nth_error l (Z.to_nat i') else None.

Section ChooseMessages.

(** [int(text, base)] of Python: [None] stands for [ValueError]. *)
Variable py_int : Z -> string -> option Z.

(** [len(self._idx().INDEX)], for an index that is loaded. *)
Variable index_size : Z.

(** What one word of the selection adds to [msg_ids]: [Ok] with the
    values added (none when the word only earns a warning on the
    console), or the [TypeError] of [set(...)] on a value that cannot
    be a member, which the branches for ['these'] and ['all'] do not
    catch.  [displayed] is [session.displayed['stats']] when
    [session.displayed] is set. *)
Definition choose_word (results : list pyval) (displayed : option Stats)
    (allow_ephemeral : bool) (what : string) : res (list pyval) :=
  let unhashable := Raise (mkExn TypeError "unhashable type") in
  if String.eqb (str_lower what) "these" then
    match displayed with
    | Some stats =>
        let b := st_start stats - 1 in
        let c := st_count stats in
        let chosen := py_slice results b (b + c) in
        if forallb hashable chosen then Ok chosen else unhashable
    | None => Ok []
    end
  else if String.eqb (str_lower what) "all" then
    if negb (Nat.eqb (length results) 0) then
      if forallb hashable results then Ok results else unhashable
    else Ok []
  else if str_startswith what "=" then
    match py_int 36 (str_tail what) with
    | Some msg_id =>
        if (msg_id >=? 0) && (msg_id <? index_size) then Ok [PInt msg_id] else Ok []
    | None =>
        if allow_ephemeral && str_has_char "-" what then Ok [PUni (str_tail what)]
        else Ok []
    end
  else if str_has_char "-" what then
    match str_split_char "-" what with
    | [b; e] =>
        match py_int 10 b, py_int 10 e with
        | Some b', Some e' =>
            let chosen := py_slice results (b' - 1) e' in
            if forallb hashable chosen then Ok chosen else Ok []
        | _, _ => Ok []
        end
    | _ => Ok []
    end
  else
    match py_int 10 what with
    | Some n =>
        match py_index results (n - 1) with
        | Some v => if hashable v then Ok [v] else Ok []
        | None => Ok []
        end
    | None => Ok []
    end.

(** The loop over [all_words]. *)
Fixpoint choose_words (results : list pyval) (displayed : option Stats)
    (allow_ephemeral : bool) (all_words : list string) (msg_ids : list pyval)
  : res (list pyval) :=
  match all_words with
  | [] => Ok msg_ids
  | what :: rest =>
      match choose_word results displayed allow_ephemeral what with
      | Raise e => Raise e
      | Ok added =>
          choose_words results displayed allow_ephemeral rest (msg_ids ++ added)%list
      end
  end.

(** [Command._choose_messages(words, allow_ephemeral=False)].  The set
    [msg_ids] is carried as the list of the values added to it, in the
    order they were added; a value may occur more than once. *)
Definition _choose_messages (session : Session) (displayed : option Stats)
    (words : list string) (allow_ephemeral : bool) : res (list pyval) :=
  let all_words := concat (map (str_split_char ",") words) in
  choose_words (s_results session) displayed allow_ephemeral all_words [].

(** What a chosen value can be: one of the results, a position inside
    the index, or, when ephemeral ids are allowed, a text with a
    ['-']. *)
Definition choosable (results : list pyval) (allow_ephemeral : bool) (x : pyval) : Prop :=
  In x results
  \/ (exists n, x = PInt n /\ 0 <= n < index_size)
  \/ (allow_ephemeral = true /\ exists w, x = PUni w /\ str_has_char "-" w = true).

End ChooseMessages.

(** ** [SearchResults._name] *)

(** [s] without the characters that [drop] selects. *)
Fixpoint str_drop_chars (drop : ascii -> bool) (s : string) : string :=
  match s with
  | EmptyString => EmptyString
  | String c s' =>
      if drop c then str_drop_chars drop s' else String c (str_drop_chars drop s')
  end.

(** [s.split(sep, 1)[0]]: the text before the first [sep]. *)
Fixpoint str_before (sep : ascii) (s : string) : string :=
  match s with
  | EmptyString => EmptyString
  | String c s' => if Ascii.eqb c sep then EmptyString else String c (str_before sep s')
  end.

(** The double quote character. *)
Definition double_quote : ascii := Eval cbv in ascii_of_nat 34.

Definition _NAME_TITLES : list string := ["the"; "mr"; "ms"; "mrs"; "sir"; "dr"; "lord"].

Section Names.

(** The characters that [split()] takes for whitespace; the set differs
    between byte strings and unicode objects. *)
Variable is_space : ascii -> bool.

(** [s.split()]: the words between runs of whitespace. *)
Fixpoint str_split_ws (s : string) : list string :=
  match s with
  | EmptyString => []
  | String c s' =>
      if is_space c then str_split_ws s'
      else
        match s' with
        | EmptyString => [String c EmptyString]
        | String c' _ =>
            if is_space c' then String c EmptyString :: str_split_ws s'
            else match str_split_ws s' with
                 | h :: t => String c h :: t
                 | [] => [String c EmptyString]
                 end
        end
  end.

(** [SearchResults._name(sender, short=True, full_email=False)]; the
    pattern of [re.sub] is the character class of the double quote and
    the two angle brackets. *)
Definition _name (sender : string) (short full_email : bool) : string :=
  let words :=
    str_split_ws
      (str_drop_chars (fun c => Ascii.eqb c double_quote || Ascii.eqb c "<"
                                  || Ascii.eqb c ">")
                      sender) in
  let nomail := List.filter (fun w => negb (str_has_char "@" w)) words in
  match nomail with
  | n0 :: rest =>
      if short then
        match rest with
        | n1 :: _ =>
            if existsb (String.eqb (str_lower n0)) _NAME_TITLES then n1 else n0
        | [] => n0
        end
      else String.concat " " nomail
  | [] =>
      match words with
      | w0 :: _ => if negb full_email then str_before "@" w0 else w0
      | [] => "(nobody)"
      end
  end.

End Names.

(** The whitespace of [split()] on a byte string. *)
Definition str_isspace (c : ascii) : bool :=
  let n := nat_of_ascii c in ((9 <=? n) && (n <=? 13) || (n =? 32))%nat.

(** ** What a run leaves alone *)

(** From one state of a command and the world to a later one: the
    class, the inputs and the global switches are the same, the event
    log is the same for a class with [LOG_NOTHING], and the command
    cache is the same for a class that is not cacheable. *)
Definition steady (st st' : St) : Prop :=
  cls st'.1 = cls st.1
  /\ c_args st'.1 = c_args st.1
  /\ c_data st'.1 = c_data st.1
  /\ c_run_async st'.1 = c_run_async st.1
  /\ LIVE_USER_ACTIVITIES st'.2 = LIVE_USER_ACTIVITIES st.2
  /\ LAST_USER_ACTIVITY st'.2 = LAST_USER_ACTIVITY st.2
  /\ QUITTING st'.2 = QUITTING st.2
  /\ clock st'.2 = clock st.2
  /\ same_switches (config st.2) (config st'.2)
  /\ (LOG_NOTHING (cls st.1) = true ->
      event_log (config st'.2) = event_log (config st.2))
  /\ (COMMAND_CACHE_TTL (cls st.1) <= 0 ->
      command_cache (config st'.2) = command_cache (config st.2)).

(** A computation that keeps [steady] from any state, however it
    ends. *)
Definition keeps_steady {A : Type} (m : M A) : Prop :=
  forall st, steady st (m st).2.

(** ** Classes that override the lifecycle methods *)

Section Overrides.
Context `{Ext : Externals}.

Local Notation "x <- m ;; k" := (bind m (fun x => k))
  (at level 100, m at next level, k at level 200, right associativity).
Local Notation "m ;; k" := (bind m (fun _ => k))
  (at level 100, k at level 200, right associativity).

(** [_run_sync] calls [self._starting] and [self._finishing], which a
    subclass may override.  The driver below is [_run_sync] with the two
    methods as parameters; with the methods of [class Command] it is
    [_run_sync] itself. *)
Definition use_cached_with (finishing : option string -> pyval -> bool -> M RetVal)
    (cid : string) : M CommandResult :=
  add_obs (ObsCacheGet cid) ;;
  w <- get_world ;;
  match get_result (config w) (clock w) cid with
  | Raise e => raise e
  | Ok rv =>
      c <- get_self ;;
      modify_world (fun w =>
        set_sessions (<[r_session rv :=
                          set_ui (s_ui (sessions w (c_session c)))
                                 (sessions w (r_session rv))]> (sessions w)) w) ;;
      when (CHANGES_SESSION_CONTEXT (cls c))
        (modify_world (fun w =>
           set_sessions (<[c_session c :=
                             session_copy (sessions w (c_session c))
                                          (sessions w (r_session rv))]> (sessions w)) w)) ;;
      finishing (cls_doc (cls c)) (PBool true) true ;;
      ret rv
  end.

Definition lookup_cached_with (finishing : option string -> pyval -> bool -> M RetVal)
    (enable_cache : bool) : M (option CommandResult) :=
  c <- get_self ;;
  w <- get_world ;;
  if (COMMAND_CACHE_TTL (cls c) >? 0)
     && negb (debug_has (config w) "http")
     && enable_cache
  then try_except (rv <- use_cached_with finishing (cache_id c None) ;; ret (Some rv))
                  (fun _ => ret None)
  else ret None.

Definition run_command_with (finishing : option string -> pyval -> bool -> M RetVal)
    (args : list pyval) (kwargs : pydict) : M RetVal :=
  try_except
    (rv <- command_wrapper args kwargs ;; finishing None rv false)
    (fun e =>
       c <- get_self ;;
       if in_RAISES c e then
         modify_self (set_status "success") ;;
         finishing None (PBool true) true ;;
         raise e
       else
         c <- get_self ;;
         match str_join " " (c_args c) with
         | Raise e' => raise e'
         | Ok joined =>
             _error (fmt_failure c joined) None PNone ;;
             finishing None (PBool false) false
         end).

Definition _run_sync_with (starting : M unit)
    (finishing : option string -> pyval -> bool -> M RetVal)
    (enable_cache : bool) (args : list pyval) (kwargs : pydict) : M RetVal :=
  starting ;;
  modify_self (set_run_args args kwargs) ;;
  hit <- lookup_cached_with finishing enable_cache ;;
  match hit with
  | Some rv => ret (RetResult rv)
  | None => run_command_with finishing args kwargs
  end.

(** [Help._starting]: [pass]. *)
Definition Help__starting : M unit := ret tt.

(** [Help._finishing(command, rv, ...)]: a [CommandResult] built without
    [error_info]; further arguments ([just_cleanup]) are accepted and
    ignored.  Nothing is cached and the event is not written. *)
Definition Help__finishing (command_doc : option string) (rv : pyval) (just_cleanup : bool)
  : M RetVal :=
  c <- get_self ;;
  let result :=
    mkResult c (c_session c) (c_name c) [] None (or_else command_doc (cls_doc (cls c)))
             rv (c_status c) [] (c_message c) ∅ in
  add_obs (ObsNewResult result) ;;
  ret (RetResult result).

(** [_run_sync] as [Help], [HelpVars] and [HelpSplash] inherit it. *)
Definition Help__run_sync : bool -> list pyval -> pydict -> M RetVal :=
  _run_sync_with Help__starting Help__finishing.

(** *** [Cached.run] *)

(** [v[0]]; [None] when the subscript raises. *)
Definition first_item (v : pyval) : option pyval :=
  match v with
  | PList (x :: _) | PTuple (x :: _) => Some x
  | PStr (String ch _) => Some (PStr (String ch EmptyString))
  | PUni (String ch _) => Some (PUni (String ch EmptyString))
  | _ => None
  end.

(** [self.args[0] if self.args else self.data.get('id', [None])[0]] *)
Definition Cached_cid (c : Command) : option pyval :=
  match c_args c with
  | x :: _ => Some x
  | [] => first_item (default (PList [PNone]) (dict_get "id" (c_data c)))
  end.

(** The cache holds its entries under cache ids, which are text; the
    lookup of any other value raises. *)
Definition cid_text (cid : option pyval) : option string :=
  match cid with
  | Some (PStr s) | Some (PUni s) => Some s
  | _ => None
  end.

(** [Session.copy(session)] with its default flags is in
    [mailpile/ui.py], which is not part of these sources. *)
Variable copy_session : Session -> Session -> Session.

(** [Cached.run()].  The bare [except:] does not look at the exception
    it catches. *)
Definition Cached_run : M RetVal :=
  c <- get_self ;;
  w <- get_world ;;
  let found :=
    match cid_text (Cached_cid c) with
    | Some cid =>
        match get_result (config w) (clock w) cid with
        | Ok rv => Some rv
        | Raise _ => None
        end
    | None => None
    end in
  match found with
  | Some rv =>
      modify_world (fun w =>
        set_sessions (<[c_session c :=
                          copy_session (sessions w (c_session c))
                                       (sessions w (r_session rv))]> (sessions w)) w) ;;
      ret (RetResult rv)
  | None =>
      _starting ;;
      c <- get_self ;;
      match str_join " " (c_args c) with
      | Raise e => raise e
      | Ok joined =>
          _error (fmt_failure c joined) None PNone ;;
          c <- get_self ;;
          _finishing (cls_doc (cls c)) (PBool false) false
      end
  end.

End Overrides.

(** [class Cached], as far as the lifecycle reads it. *)
Definition Cached_class : CommandClass :=
  {| cls_name := "Cached";
     SYNOPSIS := (None, Some "cached", Some "cached", Some "[<cache-id>]");
     COMMAND_CACHE_TTL := 0; CHANGES_SESSION_CONTEXT := false;
     CONFIG_REQUIRED := true; IS_USER_ACTIVITY := false; SPLIT_ARG := true;
     FAILURE := Command_FAILURE; RAISES := Command_RAISES;
     LOG_NOTHING := true; LOG_ARGUMENTS := true; LOG_PROGRESS := false;
     LOG_STARTING := Command_LOG_STARTING; LOG_FINISHED := Command_LOG_FINISHED;
     cls_doc := Some "Fetch results from the command cache.";
     command := Command_command;
     view := fun v => v |}.

(** The external functions with [cache_requirements] as [class Command]
    has it: it raises [NotImplementedError]. *)
Definition base_externals : Externals :=
  {| gettext := gettext (Externals := plain_externals);
     shlex_split := shlex_split (Externals := plain_externals);
     md5_hex := md5_hex (Externals := plain_externals);
     py_str := py_str (Externals := plain_externals);
     py_str_items := py_str_items (Externals := plain_externals);
     ui_url := ui_url (Externals := plain_externals);
     context_url := context_url (Externals := plain_externals);
     get_context := get_context (Externals := plain_externals);
     session_copy := session_copy (Externals := plain_externals);
     cache_requirements := fun _ _ =>
       Raise (mkExn NotImplementedError
                "Cachable commands should override this, returning a set() of requirements.");
     b36 := b36 (Externals := plain_externals);
     json_dumps := json_dumps (Externals := plain_externals);
     render_json := render_json (Externals := plain_externals);
     render_web := render_web (Externals := plain_externals);
     template_path := template_path (Externals := plain_externals) |}.

(** ** More concrete inputs for the examples *)

(** A cacheable command whose data has an ['arg'] entry. *)
Definition arg_data_cmd : Command :=
  with_data [("arg", PList [PUni "inbox"]); ("q", PList [PUni "x"])] cacheable_cmd.

(** A session with three results, shown two to a page. *)
Definition paged_session : Session :=
  mkSession plain_ui [PInt 1; PInt 2; PInt 3] ["x"] "".

Definition paged_config : Config :=
  mkConfig false (fun _ => false) ∅ None (fun _ => None) 2.

Definition first_page : SearchResults :=
  mkSearchResults [PInt 1; PInt 2; PInt 3] (mkStats 2 1 2 3) ["x"] ["1"; "2"].

(** One choice of [int(text, base)] for the examples: a single digit of
    the base. *)
Definition plain_int (base : Z) (s : string) : option Z :=
  match s with
  | String ch EmptyString =>
      let n := Z.of_nat (nat_of_ascii ch) in
      let d := if (48 <=? n) && (n <=? 57) then Some (n - 48)
               else if (97 <=? n) && (n <=? 122) then Some (n - 87)
               else None in
      match d with
      | Some z => if z <? base then Some z else None
      | None => None
      end
  | _ => None
  end.

(** A [Cached] command without arguments, and a background command of
    the cacheable class. *)
Definition cached_cmd : Command := (built Cached_class ArgNone false).1.
Definition cached_cmd_world : World := (built Cached_class ArgNone false).2.
Definition cacheable_world : World := (built cacheable_class ArgNone false).2.

Definition not_implemented : Exn :=
  mkExn NotImplementedError
    "Cachable commands should override this, returning a set() of requirements.".

(** * Properties *)

(** ** Induction over Python values *)

Lemma pyval_nested_ind (P : pyval -> Prop)
  (HNone : P PNone)
  (HBool : forall b, P (PBool b))
  (HInt : forall z, P (PInt z))
  (HStr : forall s, P (PStr s))
  (HUni : forall s, P (PUni s))
  (HList : forall l, Forall P l -> P (PList l))
  (HTuple : forall l, Forall P l -> P (PTuple l))
  (HDict : forall d, Forall (fun kv => P (snd kv)) d -> P (PDict d)) :
  forall v, P v.
Proof.
  fix IH 1. intros [ | b | z | s | s | l | l | d ].
  - exact HNone.
  - apply HBool.
  - apply HInt.
  - apply HStr.
  - apply HUni.
  - apply HList. induction l as [ | x l IHl ]; constructor; [ apply IH | exact IHl ].
  - apply HTuple. induction l as [ | x l IHl ]; constructor; [ apply IH | exact IHl ].
  - apply HDict. induction d as [ | [k x] d IHd ]; constructor; [ apply IH | exact IHd ].
Qed.

(** ** [_sloppy_copy] *)

Lemma str_take_length (n : nat) (s : string) :
  (String.length (str_take n s) <= n)%nat.
Proof.
  unfold str_take. revert s. induction n as [ | n IH ]; intros s.
  - destruct s; simpl; lia.
  - destruct s as [ | a s ]; simpl; [ lia | ]. specialize (IH s). lia.
Qed.

Lemma str_take_short (n : nat) (s : string) :
  (String.length s <= n)%nat -> str_take n s = s.
Proof.
  unfold str_take. revert s. induction n as [ | n IH ]; intros s Hs.
  - destruct s; simpl in *; [ reflexivity | lia ].
  - destruct s as [ | a s ]; simpl in *; [ reflexivity | ].
    rewrite IH; [ reflexivity | lia ].
Qed.

Lemma eqb_take_prefix (p k : string) :
  String.eqb p (substring 0 (String.length p) k) = String.prefix p k.
Proof.
  revert k. induction p as [ | a p IH ]; intros k.
  - destruct k; reflexivity.
  - destruct k as [ | b k ]; simpl; [ reflexivity | ].
    rewrite IH. destruct (ascii_dec a b) as [ -> | Hne ].
    + rewrite Ascii.eqb_refl. reflexivity.
    + apply Ascii.eqb_neq in Hne. rewrite Hne. reflexivity.
Qed.

(** [name and 'pass' == name[:4]] says that the name starts with
    ["pass"]. *)
Lemma is_pass_name_prefix (k : string) :
  is_pass_name (Some k) = String.prefix "pass" k.
Proof.
  unfold is_pass_name, str_take.
  change 4%nat with (String.length "pass"). rewrite eqb_take_prefix.
  destruct k; reflexivity.
Qed.

Lemma sloppy_suppressed (v : pyval) (name : option string) :
  is_pass_name name = true -> _sloppy_copy v name = PUni SUPPRESSED.
Proof.
  intros H. destruct v; simpl; rewrite H; reflexivity.
Qed.

Lemma sloppy_leaf (v : pyval) (name : option string) :
  is_pass_name name = false -> is_container v = false ->
  _sloppy_copy v name = copy_value v.
Proof.
  intros H Hc. destruct v; simpl in *; rewrite H; try reflexivity; discriminate.
Qed.

Lemma copy_value_logged (v : pyval) : logged_leaf (copy_value v).
Proof.
  unfold copy_value, logged_leaf. destruct (py_unicode v) as [ u | ].
  - left. exists (str_take 1024 u). split; [ reflexivity | apply str_take_length ].
  - right. reflexivity.
Qed.

Lemma in_concat_map {A B : Type} (f : A -> list B) (l : list A) (y : B) :
  In y (concat (map f l)) -> exists x, In x l /\ In y (f x).
Proof.
  intros H. apply in_concat in H. destruct H as (ys & Hys & Hy).
  apply in_map_iff in Hys. destruct Hys as (x & <- & Hx). eauto.
Qed.

(** Whatever is stored under a name that starts with ["pass"], at any
    depth of the copy, is the marker. *)
Lemma sloppy_fields (v : pyval) :
  forall name k x,
    In (k, x) (all_fields (_sloppy_copy v name)) ->
    is_pass_name (Some k) = true -> x = PUni SUPPRESSED.
Proof.
  induction v as [ | b | z | s | s | l IH | l IH | d IH ] using pyval_nested_ind;
    intros name k x Hin Hk; simpl in Hin;
    destruct (is_pass_name name) eqn:Hn; simpl in Hin; try contradiction;
    try (unfold copy_value in Hin; destruct (py_unicode _); simpl in Hin; contradiction).
  - apply in_concat_map in Hin. destruct Hin as (y & Hy & Hin).
    apply in_map_iff in Hy. destruct Hy as (i & <- & Hi).
    rewrite Forall_forall in IH. eapply IH; eauto.
  - apply in_concat_map in Hin. destruct Hin as (y & Hy & Hin).
    apply in_map_iff in Hy. destruct Hy as (i & <- & Hi).
    rewrite Forall_forall in IH. eapply IH; eauto.
  - apply in_concat_map in Hin. destruct Hin as (y & Hy & Hin).
    apply in_map_iff in Hy. destruct Hy as (kv & <- & Hkv).
    simpl in Hin. destruct Hin as [ Heq | Hin ].
    + inversion Heq; subst. apply sloppy_suppressed. exact Hk.
    + rewrite Forall_forall in IH. eapply (IH kv); eauto.
Qed.

(** Every leaf of the copy is bounded text or the binary marker. *)
Lemma sloppy_leaves (v : pyval) :
  forall name x, In x (leaves (_sloppy_copy v name)) -> logged_leaf x.
Proof.
  induction v as [ | b | z | s | s | l IH | l IH | d IH ] using pyval_nested_ind;
    intros name x Hin; simpl in Hin;
    destruct (is_pass_name name) eqn:Hn;
    try (match type of Hin with
         | In _ (leaves (copy_value ?v)) =>
             pose proof (copy_value_logged v) as Hl;
             unfold copy_value in *; destruct (py_unicode v); simpl in Hin;
             destruct Hin as [ <- | [] ]; exact Hl
         end).
  - simpl in Hin. apply in_concat_map in Hin. destruct Hin as (y & Hy & Hin).
    apply in_map_iff in Hy. destruct Hy as (i & <- & Hi).
    rewrite Forall_forall in IH. eapply IH; eauto.
  - simpl in Hin. apply in_concat_map in Hin. destruct Hin as (y & Hy & Hin).
    apply in_map_iff in Hy. destruct Hy as (i & <- & Hi).
    rewrite Forall_forall in IH. eapply IH; eauto.
  - simpl in Hin. apply in_concat_map in Hin. destruct Hin as (y & Hy & Hin).
    apply in_map_iff in Hy. destruct Hy as (kv & <- & Hkv).
    rewrite Forall_forall in IH. eapply (IH kv); eauto.
Qed.

(** The copy does not depend on what sits below ["pass"] names. *)
Lemma sloppy_pass_equiv (v1 : pyval) :
  forall name v2, pass_equiv name v1 v2 -> _sloppy_copy v1 name = _sloppy_copy v2 name.
Proof.
  induction v1 as [ | b | z | s | s | l IH | l IH | d IH ] using pyval_nested_ind;
    intros name v2 H; inversion H; subst;
    try reflexivity;
    try (rewrite !sloppy_suppressed by assumption; reflexivity).
  - simpl. destruct (is_pass_name name); [ reflexivity | ]. f_equal.
    match goal with Hf : Forall2 _ _ _ |- _ => induction Hf as [ | a b la lb Hab Hf IHf ] end;
      [ reflexivity | ].
    inversion IH; subst. simpl. f_equal; [ auto | ].
    apply IHf; [ assumption | constructor; assumption ].
  - simpl. destruct (is_pass_name name); [ reflexivity | ]. f_equal.
    match goal with Hf : Forall2 _ _ _ |- _ => induction Hf as [ | a b la lb Hab Hf IHf ] end;
      [ reflexivity | ].
    inversion IH; subst. simpl. f_equal; [ auto | ].
    apply IHf; [ assumption | constructor; assumption ].
  - simpl. destruct (is_pass_name name); [ reflexivity | ]. f_equal.
    match goal with Hf : Forall2 _ _ _ |- _ => induction Hf as [ | a b la lb Hab Hf IHf ] end;
      [ reflexivity | ].
    inversion IH; subst. destruct Hab as [ Hk Hv ]. simpl. f_equal.
    + rewrite <- Hk. f_equal. auto.
    + apply IHf; [ assumption | constructor; assumption ].
Qed.

Lemma pass_equiv_dict_length (d1 d2 : pydict) :
  pass_equiv None (PDict d1) (PDict d2) -> length d1 = length d2.
Proof.
  intros H. inversion H; subst.
  - discriminate.
  - reflexivity.
  - eapply Forall2_length; eassumption.
Qed.

Lemma pass_equiv_tuple_length (l1 l2 : list pyval) :
  pass_equiv None (PTuple l1) (PTuple l2) -> length l1 = length l2.
Proof.
  intros H. inversion H; subst.
  - discriminate.
  - reflexivity.
  - eapply Forall2_length; eassumption.
Qed.

Lemma logged_private_data_equiv (c : Command) (args' : list pyval) (data' : pydict) :
  pass_equiv None (PTuple (c_args c)) (PTuple args') ->
  pass_equiv None (PDict (c_data c)) (PDict data') ->
  logged_private_data (set_inputs args' data' c) = logged_private_data c.
Proof.
  intros Ha Hd. unfold logged_private_data. cbn [set_inputs cls c_data c_args].
  rewrite <- (sloppy_pass_equiv _ _ _ Ha), <- (sloppy_pass_equiv _ _ _ Hd).
  cbn [truthy].
  rewrite <- (pass_equiv_tuple_length _ _ Ha), <- (pass_equiv_dict_length _ _ Hd).
  reflexivity.
Qed.

Lemma logged_private_data_fields (c : Command) (k : string) (x : pyval) :
  In (k, x) (all_fields (PDict (logged_private_data c))) ->
  is_pass_name (Some k) = true -> x = PUni SUPPRESSED.
Proof.
  unfold logged_private_data. intros Hin Hk.
  destruct (LOG_ARGUMENTS (cls c)); [ | contradiction ].
  destruct (truthy (PDict (c_data c))), (truthy (PTuple (c_args c)));
    cbn [dict_set String.eqb Ascii.eqb Bool.eqb all_fields map concat fst snd app] in Hin;
    repeat (rewrite ?in_app_iff in Hin; cbn [In] in Hin);
    repeat match goal with
           | H : _ \/ _ |- _ => destruct H
           | H : False |- _ => contradiction
           | H : (_, _) = (_, _) |- _ => inversion H; subst; clear H; discriminate Hk
           | H : In _ (all_fields (_sloppy_copy _ _)) |- _ =>
               exact (sloppy_fields _ _ _ _ H Hk)
           end.
Qed.

Lemma logged_private_data_leaves (c : Command) (x : pyval) :
  In x (leaves (PDict (logged_private_data c))) -> logged_leaf x.
Proof.
  unfold logged_private_data. intros Hin.
  destruct (LOG_ARGUMENTS (cls c)); [ | contradiction ].
  destruct (truthy (PDict (c_data c))), (truthy (PTuple (c_args c)));
    cbn [dict_set String.eqb Ascii.eqb Bool.eqb leaves map concat fst snd app] in Hin;
    repeat (rewrite ?in_app_iff in Hin; cbn [In] in Hin);
    repeat match goal with
           | H : _ \/ _ |- _ => destruct H
           | H : False |- _ => contradiction
           | H : In _ (leaves (_sloppy_copy _ _)) |- _ =>
               exact (sloppy_leaves _ _ _ H)
           end.
Qed.

(** C9: the private data of a command's event holds the marker
    ['(SUPPRESSED)'] under every name that starts with ["pass"], at any
    depth; the event is the same for any two inputs that differ only
    below such names; every logged leaf is text of at most 1024
    characters or the marker ['(BINARY DATA)']; a value stored under
    another name is logged as the first 1024 characters of its text, or
    as ['(BINARY DATA)'] when it cannot be decoded. *)
Theorem C9_logged_event_data (c : Command) (w : World) :
  let e := c_event (fst (_create_event c w)) in
  (forall k x, In (k, x) (all_fields (PDict (e_private_data e))) ->
               String.prefix "pass" k = true -> x = PUni "(SUPPRESSED)")
  /\ (forall args' data',
        pass_equiv None (PTuple (c_args c)) (PTuple args') ->
        pass_equiv None (PDict (c_data c)) (PDict data') ->
        c_event (fst (_create_event (set_inputs args' data' c) w)) = e)
  /\ (forall x, In x (leaves (PDict (e_private_data e))) ->
                (exists s, x = PUni s /\ (String.length s <= 1024)%nat)
                \/ x = PStr "(BINARY DATA)")
  /\ (forall v name, is_pass_name name = false -> is_container v = false ->
        _sloppy_copy v name =
        match py_unicode v with
        | Some u => PUni (substring 0 1024 u)
        | None => PStr "(BINARY DATA)"
        end).
Proof.
  cbn zeta. unfold _create_event, _make_command_event. cbn [fst snd c_event set_event e_private_data].
  repeat split.
  - intros k x Hin Hk. rewrite <- is_pass_name_prefix in Hk.
    exact (logged_private_data_fields c k x Hin Hk).
  - intros args' data' Ha Hd.
    rewrite (logged_private_data_equiv c args' data' Ha Hd). reflexivity.
  - intros x Hin. exact (logged_private_data_leaves c x Hin).
  - intros v name Hn Hc. rewrite (sloppy_leaf v name Hn Hc). reflexivity.
Qed.

(** ** Dicts as association lists *)






(** ** Sorting the query arguments *)










(** ** [cache_id] *)

Section CacheId.
Context `{Ext : Externals}.


End CacheId.

(** ** The registry *)

Lemma opt_string_eqb_eq (a b : option string) : opt_string_eqb a b = true <-> a = b.
Proof.
  destruct a as [ x | ], b as [ y | ]; simpl; try (split; [ discriminate | congruence ]).
  - rewrite String.eqb_eq. split; congruence.
  - tauto.
Qed.

Lemma synopsis_matches_iff (name : option string) (k : CommandClass) :
  synopsis_matches name k = true
  <-> name = SYNOPSIS_0 k \/ name = SYNOPSIS_1 k \/ name = SYNOPSIS_2 k.
Proof.
  unfold synopsis_matches, SYNOPSIS_first3. simpl.
  rewrite !orb_true_iff, !opt_string_eqb_eq. intuition congruence.
Qed.

(** C6: [GetCommand] returns a class exactly when the classes of
    [COMMANDS] whose short code, short name or endpoint equals the token
    are that one class and no other; it returns [None] exactly when the
    number of matching entries is not one. *)
Theorem C6_GetCommand_unique_match (COMMANDS : list CommandClass) (name : option string) :
  (forall k, GetCommand COMMANDS name = Some k
             <-> List.filter (synopsis_matches name) COMMANDS = [k])
  /\ (GetCommand COMMANDS name = None
      <-> length (List.filter (synopsis_matches name) COMMANDS) <> 1%nat)
  /\ (forall k, In k (List.filter (synopsis_matches name) COMMANDS)
                <-> In k COMMANDS
                    /\ (name = SYNOPSIS_0 k \/ name = SYNOPSIS_1 k \/ name = SYNOPSIS_2 k)).
Proof.
  unfold GetCommand. split; [ | split ].
  - intros k.
    destruct (List.filter (synopsis_matches name) COMMANDS) as [ | a [ | b l ] ];
      simpl; split; intros H; congruence.
  - destruct (List.filter (synopsis_matches name) COMMANDS) as [ | a [ | b l ] ];
      simpl; split; intros H; try congruence; try lia; try discriminate.
  - intros k. rewrite filter_In, synopsis_matches_iff. reflexivity.
Qed.

(** In the registry as shipped no token is ambiguous: a token that
    occurs in some entry resolves to that entry. *)
Lemma shipped_tokens_unambiguous :
  forallb (fun k =>
    forallb (fun t => match t with
                      | Some _ =>
                          match GetCommand COMMANDS_by_synopsis t with
                          | Some k' => String.eqb (cls_name k') (cls_name k)
                          | None => false
                          end
                      | None => true
                      end) (SYNOPSIS_first3 k)) COMMANDS_by_synopsis = true.
Proof. vm_compute. reflexivity. Qed.

Section Registry.
Context `{Ext : Externals}.
Variable COMMANDS : list CommandClass.
Variable Help : CommandClass.

(** C7 (amended): for a token that is not empty, [Action] runs the
    class that [GetCommand] resolves, whatever the configuration and the
    tags are; it rewrites the request into a ['search'] for
    ['in:<slug>'] only if [GetCommand] found nothing, the configuration
    is loaded and the token names a tag; and it raises [UsageError] when
    neither resolves.  For an empty token it runs [Help]. *)
Theorem C7_Action_resolution_order (w : World) (session : nat) (opt : option string)
    (arg : ArgSpec) (data : option pydict) :
  let out := Action COMMANDS Help w session opt arg data in
  (opt_str_truthy opt = false -> out = RunCommand Help session (Some "help") ArgNone None)
  /\ (opt_str_truthy opt = true ->
      (forall k, GetCommand COMMANDS opt = Some k ->
                 out = RunCommand k session opt arg data
                 /\ forall w', Action COMMANDS Help w' session opt arg data = out)
      /\ (forall tag, GetCommand COMMANDS opt = None ->
                      loaded_config (config w) = true ->
                      get_tag (config w) (or_empty opt) = Some tag ->
            match GetCommand COMMANDS (Some "search") with
            | Some search =>
                out = RunCommand search session opt
                        (ArgStr ("in:" ++ tag_slug tag
                                 ++ (if arg_truthy arg then " " else "")
                                 ++ arg_text arg)) data
            | None => out = ActionRaise (mkExn TypeError "'NoneType' object is not callable")
            end)
      /\ (GetCommand COMMANDS opt = None ->
          loaded_config (config w) = false
          \/ get_tag (config w) (or_empty opt) = None ->
          out = ActionRaise (mkExn UsageError
                  (percent_s (gettext "Unknown command: %s") (show_opt opt))))
      /\ (forall k a, out = RunCommand k session opt (ArgStr a) data ->
                      GetCommand COMMANDS opt = None ->
                      loaded_config (config w) = true
                      /\ exists tag, get_tag (config w) (or_empty opt) = Some tag)).
Proof.
  cbn zeta. unfold Action. split.
  - intros ->. reflexivity.
  - intros ->. cbn [negb]. repeat split.
    + rewrite H. reflexivity.
    + intros w'. rewrite H. reflexivity.
    + intros tag Hn Hl Ht. rewrite Hn, Hl, Ht.
      destruct (GetCommand COMMANDS (Some "search")); reflexivity.
    + intros Hn [ Hl | Ht ]; rewrite Hn.
      * rewrite Hl. reflexivity.
      * rewrite Ht. destruct (loaded_config (config w)); reflexivity.
    + rewrite H0 in H. destruct (loaded_config (config w)); [ reflexivity | discriminate ].
    + rewrite H0 in H. destruct (loaded_config (config w)); [ | discriminate ].
      destruct (get_tag (config w) (or_empty opt)) as [ tag | ]; [ eauto | discriminate ].
Qed.

End Registry.

(** C7, as worded, fails for the empty token: nothing resolves, and
    [Action] runs [Help] instead of raising [UsageError]. *)
Lemma C7_empty_token_runs_help :
  ~ Action_as_worded (Ext := plain_externals) COMMANDS_by_synopsis
      (base_class "Help" (Some "h", Some "help", Some "help", Some "[<command-group>]"))
      plain_world 0%nat (Some "") ArgNone None.
Proof.
  unfold Action_as_worded. vm_compute. intros [ msg H ]. discriminate H.
Qed.

(** ** Paging *)

Lemma map_res_length {A B : Type} (f : A -> res B) (l : list A) (ys : list B) :
  map_res f l = Ok ys -> length ys = length l.
Proof.
  revert ys. induction l as [ | x l IH ]; intros ys H; simpl in H.
  - inversion H. reflexivity.
  - destruct (f x); [ | discriminate ].
    destruct (map_res f l) as [ ys' | ]; [ | discriminate ].
    inversion H. simpl. f_equal. apply IH. reflexivity.
Qed.

Lemma py_slice_length {A : Type} (l : list A) (i j : Z) :
  Z.of_nat (length (py_slice l i j))
  = Z.max 0 (slice_bound (Z.of_nat (length l)) j - slice_bound (Z.of_nat (length l)) i).
Proof.
  unfold py_slice. rewrite length_firstn, length_skipn.
  assert (Hi : 0 <= slice_bound (Z.of_nat (length l)) i <= Z.of_nat (length l)).
  { unfold slice_bound. destruct (i <? 0) eqn:E; [ apply Z.ltb_lt in E | apply Z.ltb_ge in E ]; lia. }
  assert (Hj : 0 <= slice_bound (Z.of_nat (length l)) j <= Z.of_nat (length l)).
  { unfold slice_bound. destruct (j <? 0) eqn:E; [ apply Z.ltb_lt in E | apply Z.ltb_ge in E ]; lia. }
  lia.
Qed.

Lemma page_start_range `{Ext : Externals} (session : Session) (cfg : Config)
    (results : option (list pyval)) (start : Z) (end_ : option Z) (num : option Z) :
  0 <= page_start session cfg results start end_ num
    <= Z.of_nat (length (page_results session results)).
Proof. unfold page_start. lia. Qed.

Section Paging.
Context `{Ext : Externals}.

(** C10 (amended): the effective start lies in [0, L].  When [b36]
    converts every entry of the page [results[start:start+num]], the
    stats are: total [L], start [start + 1], count the length of the
    page (at most [num] when [num] is not negative), end
    [start + min(num, L - start)], which is at most the total.  When a
    conversion raises [TypeError], the results are dropped: total 0,
    count 0, start 1, no thread ids. *)
Theorem C10_paging_stats (session : Session) (cfg : Config)
    (results : option (list pyval)) (start : Z) (end_ : option Z) (num : option Z) :
  let R := page_results session results in
  let L := Z.of_nat (length R) in
  let n := page_size cfg num in
  let s := page_start session cfg results start end_ num in
  0 <= s <= L
  /\ (forall threads, map_res b36 (py_slice R s (s + n)) = Ok threads ->
        exists sr,
          SearchResults__init__ session cfg results start end_ num = Ok sr
          /\ sr_thread_ids sr = threads
          /\ st_total (sr_stats sr) = L
          /\ st_start (sr_stats sr) = s + 1
          /\ st_count (sr_stats sr) = Z.of_nat (length (py_slice R s (s + n)))
          /\ (0 <= n -> st_count (sr_stats sr) <= n)
          /\ st_end (sr_stats sr) = s + Z.min n (L - s)
          /\ st_end (sr_stats sr) <= st_total (sr_stats sr))
  /\ (forall e, map_res b36 (py_slice R s (s + n)) = Raise e ->
        exn_class e = TypeError ->
        exists sr,
          SearchResults__init__ session cfg results start end_ num = Ok sr
          /\ sr_thread_ids sr = []
          /\ st_total (sr_stats sr) = 0
          /\ st_count (sr_stats sr) = 0
          /\ st_start (sr_stats sr) = 1
          /\ st_end (sr_stats sr) = Z.min n 0).
Proof.
  cbn zeta.
  pose proof (page_start_range session cfg results start end_ num) as Hs.
  assert (Heq : forall X : Type, forall (f : list pyval -> Z -> Z -> X),
            (let results := or_list (or_list (default [] results) (s_results session)) [] in
             let num := or_Z num (num_results cfg) in
             let start := match end_ with
                          | Some e => if e =? 0 then start else e - num
                          | None => start
                          end in
             let start := if start >? Z.of_nat (length results)
                          then Z.of_nat (length results) else start in
             let start := if start <? 0 then 0 else start in
             f results num start)
            = f (page_results session results) (page_size cfg num)
                (page_start session cfg results start end_ num)).
  { intros X f. cbn zeta. unfold page_start, page_size, page_results. f_equal.
    set (s0 := match end_ with
               | Some e => if e =? 0 then start else e - or_Z num (num_results cfg)
               | None => start
               end).
    set (L := Z.of_nat (length (or_list (or_list (default [] results) (s_results session)) []))).
    destruct (Z.gtb_spec s0 L); destruct (Z.ltb_spec s0 0);
      try (destruct (Z.ltb_spec L 0)); lia. }
  unfold SearchResults__init__.
  rewrite (Heq _ (fun results num start =>
    match map_res b36 (py_slice results start (start + num)) with
    | Ok threads =>
        Ok (mkSearchResults results
              (mkStats (Z.of_nat (length threads)) (start + 1)
                       (start + Z.min num (Z.of_nat (length results) - start))
                       (Z.of_nat (length results)))
              (s_searched session) threads)
    | Raise e =>
        match exn_class e with
        | TypeError =>
            Ok (mkSearchResults []
                  (mkStats (Z.of_nat (length (@nil string))) (0 + 1)
                           (0 + Z.min num (Z.of_nat (length (@nil pyval)) - 0))
                           (Z.of_nat (length (@nil pyval))))
                  (s_searched session) [])
        | _ => Raise e
        end
    end)).
  split; [ exact Hs | split ].
  - intros threads Hth. rewrite Hth. eexists. split; [ reflexivity | ]. cbn.
    pose proof (map_res_length _ _ _ Hth) as Hlen.
    pose proof (py_slice_length (page_results session results)
                  (page_start session cfg results start end_ num)
                  (page_start session cfg results start end_ num + page_size cfg num)) as Hsl.
    rewrite Hlen.
    repeat split; try lia.
    intros Hn. rewrite Hsl. unfold slice_bound.
    destruct (Z.ltb_spec (page_start session cfg results start end_ num) 0);
      destruct (Z.ltb_spec (page_start session cfg results start end_ num
                            + page_size cfg num) 0); lia.
  - intros e He Hc. rewrite He, Hc. eexists. split; [ reflexivity | ]. cbn.
    repeat split; reflexivity.
Qed.

End Paging.

(** C10, as worded, fails when an entry of the page is not a number:
    [b36] raises [TypeError], the constructor drops the results, and the
    total is 0 although the list has one entry. *)
Lemma C10_text_entry_drops_results :
  ~ paging_as_worded (Ext := plain_externals) plain_session plain_config
      (Some [PUni "x"]) 0 (Some 20).
Proof.
  unfold paging_as_worded. vm_compute.
  intros (sr & Hsr & _ & Htotal & _). inversion Hsr; subst sr. simpl in Htotal.
  discriminate Htotal.
Qed.

(** ** The render memo *)

Section Rendering.
Context `{Ext : Externals}.





End Rendering.


(** ** The lifecycle: what each bookkeeping method leaves behind *)

Lemma flag_writes_app (a b : list Obs) :
  flag_writes (a ++ b) = (flag_writes a ++ flag_writes b)%list.
Proof. unfold flag_writes. apply omap_app. Qed.

Lemma results_built_app (a b : list Obs) :
  results_built (a ++ b) = (results_built a ++ results_built b)%list.
Proof. unfold results_built. apply omap_app. Qed.

Lemma body_runs_app (a b : list Obs) :
  body_runs (a ++ b) = (body_runs a + body_runs b)%nat.
Proof. unfold body_runs. rewrite List.filter_app, length_app. reflexivity. Qed.

Lemma cache_lookups_app (a b : list Obs) :
  cache_lookups (a ++ b) = (cache_lookups a + cache_lookups b)%nat.
Proof. unfold cache_lookups. rewrite List.filter_app, length_app. reflexivity. Qed.

Lemma same_settings_refl (g : Config) : same_settings g g.
Proof. repeat split. Qed.

Lemma same_settings_log (e : Event) (g : Config) : same_settings g (log_event e g).
Proof. unfold log_event. destruct (event_log g); repeat split. Qed.

Lemma same_settings_trans (g1 g2 g3 : Config) :
  same_settings g1 g2 -> same_settings g2 g3 -> same_settings g1 g3.
Proof. unfold same_settings. intuition congruence. Qed.

Lemma get_result_same_settings (g g' : Config) (now : Z) (cid : string) :
  same_settings g g' -> get_result g' now cid = get_result g now cid.
Proof. intros (_ & _ & Hc & _). unfold get_result. rewrite Hc. reflexivity. Qed.

Lemma same_switches_refl (g : Config) : same_switches g g.
Proof. repeat split. Qed.

Lemma same_settings_switches (g g' : Config) : same_settings g g' -> same_switches g g'.
Proof. unfold same_settings, same_switches. tauto. Qed.

Lemma same_switches_trans (g1 g2 g3 : Config) :
  same_switches g1 g2 -> same_switches g2 g3 -> same_switches g1 g3.
Proof. unfold same_switches. intuition congruence. Qed.

Lemma world_step_refl (w : World) : world_step w w [].
Proof.
  unfold world_step. rewrite app_nil_r.
  repeat (split; [ reflexivity | ]). apply same_switches_refl.
Qed.

Lemma world_step_trans (w1 w2 w3 : World) (t t' : list Obs) :
  world_step w1 w2 t -> world_step w2 w3 t' -> world_step w1 w3 (t ++ t').
Proof.
  intros (Ht & Hs & Hq & Hc & Ha & Hg) (Ht' & Hs' & Hq' & Hc' & Ha' & Hg').
  unfold world_step. rewrite Ht', Ht, app_assoc.
  repeat (split; [ congruence | ]). eapply same_switches_trans; eassumption.
Qed.

Lemma world_step_logged (w : World) (g : Config) (t : list Obs) :
  same_settings (config w) g ->
  world_step w (set_trace (trace w ++ t) (set_config g w)) t.
Proof.
  intros Hg. unfold world_step. cbn.
  repeat (split; [ reflexivity | ]). apply same_settings_switches. exact Hg.
Qed.

Lemma quiet_nil : quiet [].
Proof. repeat split. Qed.

Section Lifecycle.
Context `{Ext : Externals}.

Ltac munfold :=
  unfold when, time_time, add_obs, bind, ret, raise, try_except,
    get_self, get_world, modify_self, modify_world.

Ltac mcbn :=
  cbn -[_update_event_state _update_finished_event _starting _error _finishing
        cache_result invoke_body command_wrapper use_cached lookup_cached run_command
        _run_sync _run streetcar record_result
        log_event get_result cache_put cache_id _fmt_msg fmt_failure str_join
        dict_set dict_update new_result background_result as_dict fn_insert
        opt_str_truthy truthy str_truthy in_RAISES
        Z.mul Z.sub Z.add Z.gtb Z.ltb].

Lemma _update_event_state_run (state : EventFlag) (log : bool) (c : Command) (w : World) :
  exists ev g,
    _update_event_state state log (c, w)
    = (Ok tt, (set_event c ev,
               set_trace (trace w ++ [ObsFlag state]) (set_config g w)))
    /\ flags ev = state
    /\ event_id ev = event_id (c_event c)
    /\ same_settings (config w) g.
Proof.
  unfold _update_event_state. munfold. mcbn.
  destruct ((log || LOG_PROGRESS (cls c)) && negb (LOG_NOTHING (cls c))).
  - eexists _, _. split; [ reflexivity | ].
    split; [ reflexivity | ]. split; [ reflexivity | ]. apply same_settings_log.
  - eexists _, _. split; [ reflexivity | ].
    split; [ reflexivity | ]. split; [ reflexivity | ]. apply same_settings_refl.
Qed.

Lemma _starting_run (c : Command) (w : World) :
  exists ev g,
    _starting (c, w)
    = (Ok tt, (set_event (set_start_time (clock w) c) ev,
               set_trace (trace w ++ [ObsFlag RUNNING]) (set_config g w)))
    /\ flags ev = RUNNING
    /\ event_id ev = event_id (c_event c)
    /\ same_settings (config w) g.
Proof.
  unfold _starting. munfold. mcbn.
  destruct (_update_event_state_run RUNNING false (set_start_time (clock w) c) w)
    as (ev & g & Heq & Hf & Hid & Hg).
  exists ev, g. rewrite Heq.
  split; [ reflexivity | split; [ exact Hf | split; [ exact Hid | exact Hg ] ] ].
Qed.

Lemma _update_finished_event_run (c : Command) (w : World) :
  exists ev g,
    _update_finished_event (c, w)
    = (Ok tt, (set_event c ev,
               set_trace (trace w ++ [ObsFlag COMPLETE]) (set_config g w)))
    /\ flags ev = COMPLETE
    /\ event_id ev = event_id (c_event c)
    /\ same_settings (config w) g.
Proof.
  unfold _update_finished_event. munfold. mcbn.
  destruct (opt_str_truthy (c_message c)), (truthy (PDict (c_error_info c))); mcbn.
  all: match goal with
       | |- context [_update_event_state COMPLETE true (?c', ?w')] =>
           destruct (_update_event_state_run COMPLETE true c' w')
             as (ev & g & Heq & Hf & Hid & Hg)
       end.
  all: exists ev, g; rewrite Heq;
    split; [ reflexivity | split; [ exact Hf | split; [ exact Hid | exact Hg ] ] ].
Qed.

Lemma cache_result_run (r : CommandResult) (c : Command) (w : World) :
  requirements_return c ->
  exists w' t,
    cache_result r (c, w) = (Ok tt, (c, w'))
    /\ world_step w w' t /\ quiet t.
Proof.
  intros Hreq. unfold cache_result. munfold. mcbn.
  destruct (Z.gtb_spec (COMMAND_CACHE_TTL (cls c)) 0) as [ Hpos | Hnpos ].
  - destruct (str_truthy (cache_id c None)).
    + destruct (Hreq ltac:(lia) c r eq_refl) as [ reqs Hreqs ]. rewrite Hreqs. mcbn.
      eexists _, [ObsCachePut (cache_id c None)]. split; [ reflexivity | ].
      split; [ | repeat split ].
      unfold world_step. cbn. repeat (split; [ reflexivity | ]). repeat split.
    + exists w, []. split; [ reflexivity | ]. split; [ apply world_step_refl | apply quiet_nil ].
  - exists w, []. split; [ reflexivity | ]. split; [ apply world_step_refl | apply quiet_nil ].
Qed.

Lemma _finishing_cleanup_run (doc : option string) (rv : pyval) (c : Command) (w : World) :
  exists ev w',
    _finishing doc rv true (c, w) = (Ok (RetValue rv), (set_event c ev, w'))
    /\ flags ev = COMPLETE
    /\ world_step w w' [ObsFlag COMPLETE]
    /\ command_cache (config w') = command_cache (config w).
Proof.
  unfold _finishing. munfold.
  destruct (_update_finished_event_run c w) as (ev & g & Heq & Hf & _ & Hg).
  rewrite Heq. exists ev. eexists. split; [ reflexivity | ]. split; [ exact Hf | ].
  split; [ apply world_step_logged; exact Hg | ]. cbn. apply Hg.
Qed.

Lemma _finishing_result_run (doc : option string) (rv : pyval) (c : Command) (w : World) :
  requirements_return c ->
  exists res c' w' t,
    _finishing doc rv false (c, w) = (Ok (RetResult res), (c', w'))
    /\ r_status res = c_status c
    /\ r_message res = c_message c
    /\ r_error_info res = dict_update [] (c_error_info c)
    /\ r_result res = rv
    /\ r_session res = c_session c
    /\ c_status c' = c_status c
    /\ flags (c_event c') = (if c_run_async c then flags (c_event c) else COMPLETE)
    /\ world_step w w' ([ObsNewResult res] ++ t
                        ++ (if c_run_async c then [] else [ObsFlag COMPLETE]))
    /\ quiet t.
Proof.
  intros Hreq. unfold _finishing. munfold. mcbn.
  assert (Hstep0 : forall res, world_step w (set_trace (trace w ++ [ObsNewResult res]) w)
                                 [ObsNewResult res]).
  { intros res. unfold world_step. cbn. repeat (split; [ reflexivity | ]). repeat split. }
  destruct (negb (opt_str_truthy (c_context c))); mcbn.
  all: match goal with
       | |- context [cache_result ?res (?c1, ?w1)] =>
           assert (Hreq1 : requirements_return c1) by exact Hreq;
           destruct (cache_result_run res c1 w1 Hreq1) as (w2 & t & Heq & Hstep & Hq);
           rewrite Heq; mcbn; exists res
       end.
  all: destruct (c_run_async c) eqn:Hasync; mcbn.
  all: try match goal with
           | |- context [_update_finished_event (?c1, ?w2)] =>
               destruct (_update_finished_event_run c1 w2) as (ev & g & Heq' & Hf & _ & Hg);
               rewrite Heq'; mcbn
           end.
  all: eexists _, _, t; split; [ reflexivity | ].
  all: repeat (split; [ first [ reflexivity | exact Hf ] | ]).
  all: split; [ | exact Hq ].
  all: try (rewrite app_nil_r; eapply (world_step_trans _ _ _ [_] t);
            [ apply Hstep0 | exact Hstep ]).
  all: change (ObsNewResult ?r :: t ++ [ObsFlag COMPLETE])%list
         with ([ObsNewResult r] ++ t ++ [ObsFlag COMPLETE])%list;
       eapply world_step_trans; [ apply Hstep0 | ];
       eapply world_step_trans; [ exact Hstep | ];
       apply world_step_logged; exact Hg.
Qed.

Lemma _error_run (msg : string) (c : Command) (w : World) :
  _error msg None PNone (c, w)
  = (Ok (PBool false), (set_message (Some msg) (set_status "error" c), w)).
Proof. reflexivity. Qed.

(** The command after the body has run: the lifecycle fields are the
    ones the body left. *)
Lemma invoke_body_run (args : list pyval) (kwargs : pydict) (c : Command) (w : World) :
  exists c',
    invoke_body args kwargs (c, w)
    = (bo_value (body_outcome c args kwargs),
       (c', set_trace (trace w ++ [ObsBody]) w))
    /\ cls c' = cls c /\ c_args c' = c_args c /\ c_session c' = c_session c
    /\ c_run_async c' = c_run_async c /\ c_event c' = c_event c
    /\ c_name c' = c_name c
    /\ c_status c' = bo_status (body_outcome c args kwargs)
    /\ c_message c' = bo_message (body_outcome c args kwargs)
    /\ c_error_info c' = bo_error_info (body_outcome c args kwargs).
Proof.
  unfold invoke_body, body_outcome. munfold. mcbn.
  destruct (bo_value (command (cls c) _)) eqn:Hv;
    eexists; (split; [ reflexivity | repeat split ]).
Qed.

Lemma world_step_obs (w : World) (o : Obs) :
  world_step w (set_trace (trace w ++ [o]) w) [o].
Proof.
  unfold world_step. cbn. repeat (split; [ reflexivity | ]). apply same_switches_refl.
Qed.

(** The wrapper around the body: either it refuses (configuration not
    loaded, or quitting) and records an error, or the body runs. *)
Lemma command_wrapper_run (args : list pyval) (kwargs : pydict) (c : Command) (w : World) :
  exists c' w' t,
    command_wrapper args kwargs (c, w)
    = ((if body_allowed c w then bo_value (body_outcome c args kwargs)
        else Ok (PBool false)), (c', w'))
    /\ cls c' = cls c /\ c_args c' = c_args c /\ c_session c' = c_session c
    /\ c_run_async c' = c_run_async c /\ c_event c' = c_event c
    /\ c_name c' = c_name c
    /\ (if body_allowed c w
        then c_status c' = bo_status (body_outcome c args kwargs)
             /\ c_message c' = bo_message (body_outcome c args kwargs)
             /\ c_error_info c' = bo_error_info (body_outcome c args kwargs)
        else c_status c' = "error" /\ c_error_info c' = c_error_info c)
    /\ world_step w w' t
    /\ t = (if body_allowed c w then [ObsBody] else []).
Proof.
  unfold command_wrapper, body_allowed. munfold. mcbn.
  destruct (CONFIG_REQUIRED (cls c)), (loaded_config (config w)), (QUITTING w); mcbn;
    try (rewrite _error_run; eexists _, _, _;
         split; [ reflexivity | ];
         repeat (split; [ reflexivity | ]);
         split; [ split; reflexivity | ];
         split; [ apply world_step_refl | reflexivity ]).
  all: destruct (invoke_body_run args kwargs c w)
         as (c' & Heq & Hcls & Hargs & Hses & Hasync & Hev & Hname & Hst & Hmsg & Hei);
       rewrite Heq; exists c'; eexists _, _;
       split; [ reflexivity | ];
       repeat (split; [ assumption | ]);
       split; [ repeat split; assumption | ];
       split; [ apply world_step_obs | reflexivity ].
Qed.

Lemma in_RAISES_cls (c c' : Command) (e : Exn) :
  cls c' = cls c -> in_RAISES c' e = in_RAISES c e.
Proof. unfold in_RAISES. intros ->. reflexivity. Qed.


Lemma requirements_return_cls (c c' : Command) :
  cls c' = cls c -> requirements_return c -> requirements_return c'.
Proof. unfold requirements_return. intros ->. tauto. Qed.


Lemma cache_id_inputs (c c' : Command) (sqa : option pydict) :
  cls c' = cls c -> c_args c' = c_args c -> c_data c' = c_data c ->
  cache_id c' sqa = cache_id c sqa.
Proof.
  intros Hcls Hargs Hdata. unfold cache_id, state_as_query_args.
  rewrite Hcls, Hargs, Hdata. reflexivity.
Qed.

Lemma sessions_after_hit_ui (c : Command) (rv : CommandResult) (s : nat -> Session) :
  (forall a b, s_ui (session_copy a b) = s_ui a) ->
  s_ui (sessions_after_hit c rv s (r_session rv)) = s_ui (s (c_session c)).
Proof.
  intros Hcopy. unfold sessions_after_hit. cbv zeta.
  destruct (CHANGES_SESSION_CONTEXT (cls c)).
  - destruct (decide (c_session c = r_session rv)) as [ Heq | Hne ].
    + rewrite Heq, !fn_lookup_insert, Hcopy. reflexivity.
    + rewrite fn_lookup_insert_ne by exact Hne. rewrite fn_lookup_insert. reflexivity.
  - rewrite fn_lookup_insert. reflexivity.
Qed.

Lemma lookup_cached_hit (enable_cache : bool) (c : Command) (w : World)
    (rv : CommandResult) :
  cache_consulted c w enable_cache = true ->
  get_result (config w) (clock w) (cache_id c None) = Ok rv ->
  exists ev w',
    lookup_cached enable_cache (c, w) = (Ok (Some rv), (set_event c ev, w'))
    /\ flags ev = COMPLETE
    /\ trace w' = (trace w ++ [ObsCacheGet (cache_id c None); ObsFlag COMPLETE])%list
    /\ sessions w' = sessions_after_hit c rv (sessions w).
Proof.
  intros Hcons Hget. unfold lookup_cached, cache_consulted in *. munfold. mcbn.
  rewrite Hcons. unfold use_cached. munfold. mcbn. rewrite Hget. mcbn.
  unfold sessions_after_hit.
  destruct (CHANGES_SESSION_CONTEXT (cls c)); mcbn.
  all: match goal with
       | |- context [_finishing ?d (PBool true) true (?c0, ?w1)] =>
           destruct (_finishing_cleanup_run d (PBool true) c0 w1)
             as (ev & w2 & Heq & Hfl & (Ht & Hs & _) & _)
       end.
  all: rewrite Heq; mcbn; exists ev, w2; split; [ reflexivity | ];
       split; [ exact Hfl | ]; split; [ | exact Hs ].
  all: rewrite Ht; cbn; rewrite <- app_assoc; reflexivity.
Qed.

Lemma lookup_cached_miss (enable_cache : bool) (c : Command) (w : World) :
  no_hit c w enable_cache ->
  exists w' t,
    lookup_cached enable_cache (c, w) = (Ok None, (c, w'))
    /\ world_step w w' t
    /\ flag_writes t = [] /\ results_built t = [] /\ body_runs t = 0%nat
    /\ cache_lookups t = (if cache_consulted c w enable_cache then 1 else 0)%nat.
Proof.
  intros Hno. unfold lookup_cached, no_hit, cache_consulted in *. munfold. mcbn.
  destruct ((COMMAND_CACHE_TTL (cls c) >? 0) && negb (debug_has (config w) "http")
            && enable_cache) eqn:Hcons.
  - destruct Hno as [ Hno | [ e Hget ] ]; [ discriminate | ].
    unfold use_cached. munfold. mcbn. rewrite Hget. mcbn.
    eexists _, _. split; [ reflexivity | ].
    split; [ apply world_step_obs | ]. repeat split.
  - exists w, []. split; [ reflexivity | ].
    split; [ apply world_step_refl | ]. repeat split.
Qed.

(** [_run_sync] on a cache hit. *)
Lemma _run_sync_hit (enable_cache : bool) (args : list pyval) (kwargs : pydict)
    (c : Command) (w : World) (rv : CommandResult) :
  cache_consulted c w enable_cache = true ->
  get_result (config w) (clock w) (cache_id c None) = Ok rv ->
  exists c' w',
    _run_sync enable_cache args kwargs (c, w) = (Ok (RetResult rv), (c', w'))
    /\ flags (c_event c') = COMPLETE
    /\ c_status c' = c_status c
    /\ trace w' = (trace w ++ [ObsFlag RUNNING; ObsCacheGet (cache_id c None);
                               ObsFlag COMPLETE])%list
    /\ sessions w' = sessions_after_hit c rv (sessions w).
Proof.
  intros Hcons Hget. unfold _run_sync. munfold.
  destruct (_starting_run c w) as (ev & g & Heq & Hfl & Hid & Hg). rewrite Heq. mcbn.
  match goal with
  | |- context [lookup_cached enable_cache (?c1, ?w1)] =>
      destruct (lookup_cached_hit enable_cache c1 w1 rv)
        as (ev' & w' & Heq' & Hfl' & Ht' & Hs')
  end.
  - unfold cache_consulted in *. cbn. destruct Hg as (_ & -> & _). exact Hcons.
  - cbn [config clock set_trace set_config]. rewrite (get_result_same_settings _ _ _ _ Hg).
    erewrite cache_id_inputs; [ exact Hget | reflexivity .. ].
  - rewrite Heq'. mcbn. eexists _, _. split; [ reflexivity | ].
    split; [ exact Hfl' | ]. split; [ reflexivity | ].
    split.
    + rewrite Ht'. cbn. rewrite <- app_assoc.
      erewrite cache_id_inputs; [ reflexivity | reflexivity .. ].
    + rewrite Hs'. reflexivity.
Qed.


(** *** No cache lookup outside [use_cached] *)

Lemma lf_ret {A : Type} (a : A) : lookup_free (ret a).
Proof. intros st. exists []. rewrite app_nil_r. split; reflexivity. Qed.

Lemma lf_raise {A : Type} (e : Exn) : lookup_free (@raise A e).
Proof. intros st. exists []. rewrite app_nil_r. split; reflexivity. Qed.

Lemma lf_get_self : lookup_free get_self.
Proof. intros st. exists []. rewrite app_nil_r. split; reflexivity. Qed.

Lemma lf_get_world : lookup_free get_world.
Proof. intros st. exists []. rewrite app_nil_r. split; reflexivity. Qed.

Lemma lf_modify_self (f : Command -> Command) : lookup_free (modify_self f).
Proof. intros st. exists []. rewrite app_nil_r. split; reflexivity. Qed.

Lemma lf_modify_world (f : World -> World) :
  (forall w, trace (f w) = trace w) -> lookup_free (modify_world f).
Proof. intros Hf st. exists []. rewrite app_nil_r. split; [ apply Hf | reflexivity ]. Qed.

Lemma lf_add_obs (o : Obs) :
  (forall cid, o <> ObsCacheGet cid) -> lookup_free (add_obs o).
Proof.
  intros Ho st. exists [o]. split; [ reflexivity | ].
  destruct o; try reflexivity. exfalso. eapply Ho. reflexivity.
Qed.

Lemma lf_bind {A B : Type} (m : M A) (k : A -> M B) :
  lookup_free m -> (forall a, lookup_free (k a)) -> lookup_free (bind m k).
Proof.
  intros Hm Hk st. unfold bind. destruct (Hm st) as (t & Ht & Hl).
  destruct (m st) as [ [ a | e ] st' ]; cbn in *.
  - destruct (Hk a st') as (t' & Ht' & Hl'). exists (t ++ t')%list.
    rewrite Ht', Ht, app_assoc, cache_lookups_app, Hl, Hl'. split; reflexivity.
  - exists t. split; assumption.
Qed.

Lemma lf_try {A : Type} (m : M A) (h : Exn -> M A) :
  lookup_free m -> (forall e, lookup_free (h e)) -> lookup_free (try_except m h).
Proof.
  intros Hm Hh st. unfold try_except. destruct (Hm st) as (t & Ht & Hl).
  destruct (m st) as [ [ a | e ] st' ]; cbn in *.
  - exists t. split; assumption.
  - destruct (Hh e st') as (t' & Ht' & Hl'). exists (t ++ t')%list.
    rewrite Ht', Ht, app_assoc, cache_lookups_app, Hl, Hl'. split; reflexivity.
Qed.

Lemma lf_when (b : bool) (m : M unit) : lookup_free m -> lookup_free (when b m).
Proof. intros Hm. destruct b; [ exact Hm | apply lf_ret ]. Qed.

Create HintDb lf.

Ltac lf_step :=
  first [ solve [ auto 1 with lf nocore ]
        | apply lf_ret | apply lf_raise | apply lf_get_self | apply lf_get_world
        | apply lf_modify_self
        | apply lf_modify_world; intros; reflexivity
        | apply lf_add_obs; intros; discriminate
        | apply lf_when
        | apply lf_bind; [ | intros ]
        | apply lf_try; [ | intros ] ].

Lemma lf_update_event_state (state : EventFlag) (log : bool) :
  lookup_free (_update_event_state state log).
Proof. unfold _update_event_state, time_time. repeat lf_step. Qed.
#[local] Hint Resolve lf_update_event_state : lf.

Lemma lf_update_finished_event : lookup_free _update_finished_event.
Proof. unfold _update_finished_event. repeat lf_step. Qed.
#[local] Hint Resolve lf_update_finished_event : lf.

Lemma lf_error (msg : string) (info : option pydict) (result : pyval) :
  lookup_free (_error msg info result).
Proof.
  unfold _error. repeat lf_step. destruct (truthy result); apply lf_ret.
Qed.
#[local] Hint Resolve lf_error : lf.

Lemma lf_cache_result (r : CommandResult) : lookup_free (cache_result r).
Proof.
  unfold cache_result, time_time. repeat lf_step.
  destruct (cache_requirements a r); repeat lf_step.
Qed.
#[local] Hint Resolve lf_cache_result : lf.

Lemma lf_finishing (doc : option string) (rv : pyval) (just_cleanup : bool) :
  lookup_free (_finishing doc rv just_cleanup).
Proof. unfold _finishing. destruct just_cleanup; repeat lf_step. Qed.
#[local] Hint Resolve lf_finishing : lf.

Lemma lf_invoke_body (args : list pyval) (kwargs : pydict) :
  lookup_free (invoke_body args kwargs).
Proof.
  unfold invoke_body. repeat lf_step.
  destruct (bo_value _); [ apply lf_ret | apply lf_raise ].
Qed.
#[local] Hint Resolve lf_invoke_body : lf.

Lemma lf_command_wrapper (args : list pyval) (kwargs : pydict) :
  lookup_free (command_wrapper args kwargs).
Proof.
  unfold command_wrapper. repeat lf_step.
  destruct (CONFIG_REQUIRED (cls a) && negb (loaded_config (config a0)));
    [ apply lf_error | ].
  destruct (CONFIG_REQUIRED (cls a) && QUITTING a0); [ apply lf_error | ].
  apply lf_invoke_body.
Qed.
#[local] Hint Resolve lf_command_wrapper : lf.

Lemma lf_run_command (args : list pyval) (kwargs : pydict) :
  lookup_free (run_command args kwargs).
Proof.
  unfold run_command. repeat lf_step.
  destruct (in_RAISES a e); repeat lf_step.
  destruct (str_join " " (c_args a0)); repeat lf_step.
Qed.

(** When the lookup is skipped, a run of [_run_sync] does no cache
    lookup at all, however it ends. *)
Lemma _run_sync_skips_lookup (enable_cache : bool) (args : list pyval) (kwargs : pydict)
    (c : Command) (w : World) :
  cache_consulted c w enable_cache = false ->
  cache_lookups (trace (_run_sync enable_cache args kwargs (c, w)).2.2)
  = cache_lookups (trace w).
Proof.
  intros Hcons. unfold _run_sync. munfold.
  destruct (_starting_run c w) as (ev & g & Heq & Hfl & Hid & Hg). rewrite Heq. mcbn.
  unfold lookup_cached. munfold. mcbn.
  assert (Hc : (COMMAND_CACHE_TTL (cls c) >? 0) && negb (debug_has g "http") && enable_cache
               = false).
  { unfold cache_consulted in Hcons. destruct Hg as (_ & -> & _). exact Hcons. }
  rewrite Hc.
  match goal with
  | |- context [run_command args kwargs ?st] =>
      destruct (lf_run_command args kwargs st) as (t & Ht & Hl)
  end.
  cbn [fst snd] in *. rewrite Ht. cbn [trace set_trace set_config].
  rewrite !cache_lookups_app, Hl. cbn. lia.
Qed.

(** *** Construction, [run] and the background task *)




(** The background task of a command that is served from the cache
    closes the event twice: once in the clean-up of [_run_sync], once
    in [streetcar] itself. *)
Lemma streetcar_served_from_cache (args : list pyval) (kwargs : pydict)
    (c : Command) (w : World) (rv : CommandResult) :
  cache_consulted c w true = true ->
  get_result (config w) (clock w) (cache_id c None) = Ok rv ->
  exists c' w',
    streetcar args kwargs (c, w) = (Ok tt, (c', w'))
    /\ flag_writes (trace w')
       = (flag_writes (trace w) ++ [RUNNING; COMPLETE; COMPLETE])%list
    /\ results_built (trace w') = results_built (trace w).
Proof.
  intros Hcons Hget. unfold streetcar. munfold.
  destruct (_run_sync_hit true args kwargs c w rv Hcons Hget)
    as (c1 & w1 & Heq & _ & _ & Ht & _).
  rewrite Heq. unfold record_result. munfold. mcbn.
  match goal with
  | |- context [_update_finished_event (?cc, w1)] =>
      destruct (_update_finished_event_run cc w1) as (ev & g & Heq' & _ & _ & _)
  end.
  rewrite Heq'. eexists _, _. split; [ reflexivity | ]. cbn.
  rewrite Ht, !flag_writes_app, !results_built_app. cbn.
  rewrite !app_nil_r, <- app_assoc. split; reflexivity.
Qed.


(** *** The claims about [_run_sync] *)



(** C3: for a cacheable command, with ['http'] not in the debug
    settings and caching enabled, a fresh cached result for the
    command's cache id is what [_run_sync] returns: the body does not
    run, no result is built, the session of the cached result carries
    the caller's ui, and the event is closed.  For a command that is not
    cacheable, or with ['http'] in the debug settings, [_run_sync] does
    no cache lookup, however the run ends. *)
Theorem C3_cache_hit_short_circuits (args : list pyval) (kwargs : pydict)
    (c : Command) (w : World) :
  (forall rv,
     COMMAND_CACHE_TTL (cls c) > 0 ->
     debug_has (config w) "http" = false ->
     get_result (config w) (clock w) (cache_id c None) = Ok rv ->
     (forall a b, s_ui (session_copy a b) = s_ui a) ->
     exists c' w',
       _run_sync true args kwargs (c, w) = (Ok (RetResult rv), (c', w'))
       /\ body_runs (trace w') = body_runs (trace w)
       /\ results_built (trace w') = results_built (trace w)
       /\ s_ui (sessions w' (r_session rv)) = s_ui (sessions w (c_session c))
       /\ flags (c_event c') = COMPLETE)
  /\ (forall enable_cache,
        COMMAND_CACHE_TTL (cls c) <= 0 \/ debug_has (config w) "http" = true ->
        cache_lookups (trace (_run_sync enable_cache args kwargs (c, w)).2.2)
        = cache_lookups (trace w)).
Proof.
  split.
  - intros rv Httl Hdebug Hget Hcopy.
    assert (Hcons : cache_consulted c w true = true).
    { unfold cache_consulted. rewrite Hdebug.
      destruct (Z.gtb_spec (COMMAND_CACHE_TTL (cls c)) 0); [ reflexivity | lia ]. }
    destruct (_run_sync_hit true args kwargs c w rv Hcons Hget)
      as (c' & w' & Heq & Hfl & _ & Ht & Hs).
    exists c', w'. split; [ exact Heq | ].
    rewrite Ht, body_runs_app, results_built_app, Hs. cbn.
    rewrite Nat.add_0_r, app_nil_r.
    repeat (split; [ reflexivity | ]).
    split; [ apply sessions_after_hit_ui; exact Hcopy | exact Hfl ].
  - intros enable_cache Hskip. apply _run_sync_skips_lookup.
    unfold cache_consulted. destruct Hskip as [ Httl | Hdebug ].
    + destruct (Z.gtb_spec (COMMAND_CACHE_TTL (cls c)) 0); [ lia | reflexivity ].
    + rewrite Hdebug. apply andb_false_intro1, andb_false_intro2. reflexivity.
Qed.

(** *** The claim about [run] *)





End Lifecycle.



(** ** The theorems at concrete inputs *)



Lemma C3_cache_hit_witness :
  (COMMAND_CACHE_TTL (cls cacheable_cmd) > 0
   /\ debug_has (config cached_world) "http" = false
   /\ get_result (config cached_world) (clock cached_world)
        (cache_id (Ext := plain_externals) cacheable_cmd None) = Ok earlier_result)
  /\ exists c' w',
       _run_sync (Ext := plain_externals) true [] [] (cacheable_cmd, cached_world)
       = (Ok (RetResult earlier_result), (c', w'))
       /\ body_runs (trace w') = body_runs (trace cached_world)
       /\ s_ui (sessions w' 1%nat) = s_ui (sessions cached_world 0%nat).
Proof.
  assert (H1 : COMMAND_CACHE_TTL (cls cacheable_cmd) > 0) by reflexivity.
  assert (H2 : debug_has (config cached_world) "http" = false) by reflexivity.
  assert (H3 : get_result (config cached_world) (clock cached_world)
                 (cache_id (Ext := plain_externals) cacheable_cmd None) = Ok earlier_result)
    by (vm_compute; reflexivity).
  split; [ split; [ exact H1 | split; [ exact H2 | exact H3 ] ] | ].
  destruct (proj1 (C3_cache_hit_short_circuits (Ext := plain_externals) [] []
                     cacheable_cmd cached_world)
              earlier_result H1 H2 H3 (fun a b => eq_refl))
    as (c' & w' & Heq & Hb & _ & Hui & _).
  exists c', w'. split; [ exact Heq | ]. split; [ exact Hb | exact Hui ].
Defined.



Lemma C7_Action_witness :
  (opt_str_truthy (Some "help") = true
   /\ GetCommand COMMANDS_by_synopsis (Some "help") = Some Help_entry)
  /\ Action (Ext := plain_externals) COMMANDS_by_synopsis Help_entry plain_world 0%nat
       (Some "help") (ArgStr "search") None
     = RunCommand Help_entry 0%nat (Some "help") (ArgStr "search") None.
Proof.
  assert (H1 : opt_str_truthy (Some "help") = true) by reflexivity.
  assert (H2 : GetCommand COMMANDS_by_synopsis (Some "help") = Some Help_entry)
    by (vm_compute; reflexivity).
  split; [ split; [ exact H1 | exact H2 ] | ].
  exact (proj1 (proj1 (proj2 (C7_Action_resolution_order (Ext := plain_externals)
                                COMMANDS_by_synopsis Help_entry plain_world 0%nat
                                (Some "help") (ArgStr "search") None) H1)
                      Help_entry H2)).
Defined.


Lemma C9_logged_event_data_witness :
  (In ("password", _sloppy_copy (PStr "hunter2") (Some "password"))
      (all_fields (PDict (e_private_data (c_event (_create_event secret_cmd plain_world).1))))
   /\ String.prefix "pass" "password" = true)
  /\ _sloppy_copy (PStr "hunter2") (Some "password") = PUni "(SUPPRESSED)".
Proof.
  assert (H1 : In ("password", _sloppy_copy (PStr "hunter2") (Some "password"))
                 (all_fields (PDict (e_private_data
                    (c_event (_create_event secret_cmd plain_world).1)))))
    by (vm_compute; right; left; reflexivity).
  assert (H2 : String.prefix "pass" "password" = true) by reflexivity.
  split; [ split; [ exact H1 | exact H2 ] | ].
  exact (proj1 (C9_logged_event_data secret_cmd plain_world) "password" _ H1 H2).
Defined.

Lemma C10_paging_stats_witness :
  map_res (b36 (Externals := plain_externals)) [PInt 2; PInt 3] = Ok ["2"; "3"]
  /\ exists sr,
       SearchResults__init__ (Ext := plain_externals) plain_session plain_config
         (Some [PInt 1; PInt 2; PInt 3]) 1 None (Some 2) = Ok sr
       /\ st_total (sr_stats sr) = 3
       /\ st_start (sr_stats sr) = 2
       /\ st_count (sr_stats sr) = 2
       /\ st_end (sr_stats sr) = 3.
Proof.
  assert (H : map_res (b36 (Externals := plain_externals)) [PInt 2; PInt 3]
              = Ok ["2"; "3"]) by (vm_compute; reflexivity).
  split; [ exact H | ].
  destruct (proj1 (proj2 (C10_paging_stats (Ext := plain_externals) plain_session
                            plain_config (Some [PInt 1; PInt 2; PInt 3]) 1 None (Some 2)))
              ["2"; "3"] H)
    as (sr & Heq & _ & Htot & Hst & Hcnt & _ & Hend & _).
  exists sr. split; [ exact Heq | ]. split; [ exact Htot | ].
  split; [ exact Hst | ]. split; [ exact Hcnt | exact Hend ].
Defined.

(** * Further properties *)
(** ** Dict lookups *)

Lemma dict_get_set (k k' : string) (v : pyval) (d : pydict) :
  dict_get k (dict_set k' v d) = if String.eqb k k' then Some v else dict_get k d.
Proof.
  induction d as [ | [ k1 v1 ] d IH ]; simpl.
  - destruct (String.eqb_spec k k'); reflexivity.
  - destruct (String.eqb_spec k' k1) as [ -> | Hne ]; simpl.
    + destruct (String.eqb_spec k k1); reflexivity.
    + rewrite IH. destruct (String.eqb_spec k k1) as [ -> | ]; [ | reflexivity ].
      destruct (String.eqb_spec k1 k'); [ congruence | reflexivity ].
Qed.

Lemma dict_get_None (k : string) (d : pydict) :
  dict_get k d = None <-> ~ In k (dict_keys d).
Proof.
  induction d as [ | [ k1 v1 ] d IH ]; simpl.
  - tauto.
  - destruct (String.eqb_spec k k1) as [ -> | Hne ].
    + split; [ discriminate | intros H; exfalso; apply H; left; reflexivity ].
    + rewrite IH. split; [ intros H [ E | I ]; [ congruence | tauto ] | tauto ].
Qed.

Lemma dict_get_update (k : string) (other d : pydict) :
  dict_wf other ->
  dict_get k (dict_update d other)
  = match dict_get k other with Some v => Some v | None => dict_get k d end.
Proof.
  unfold dict_update, dict_wf. revert d.
  induction other as [ | [ k1 v1 ] o IH ]; intros d Hwf; simpl.
  - reflexivity.
  - simpl in Hwf. apply List.NoDup_cons_iff in Hwf. destruct Hwf as [ Hin Hwf ].
    rewrite (IH _ Hwf), dict_get_set.
    destruct (String.eqb_spec k k1) as [ -> | Hne ]; [ | reflexivity ].
    apply dict_get_None in Hin. rewrite Hin. reflexivity.
Qed.




Lemma sloppy_dict_get (k : string) (d : pydict) :
  dict_get k (map (fun kv => (fst kv, _sloppy_copy (snd kv) (Some (fst kv)))) d)
  = option_map (fun v => _sloppy_copy v (Some k)) (dict_get k d).
Proof.
  induction d as [ | [ k1 v1 ] d IH ]; simpl; [ reflexivity | ].
  destruct (String.eqb_spec k k1) as [ -> | ]; [ reflexivity | exact IH ].
Qed.

Lemma sloppy_dict_wf (d : pydict) :
  dict_wf d -> dict_wf (map (fun kv => (fst kv, _sloppy_copy (snd kv) (Some (fst kv)))) d).
Proof.
  unfold dict_wf, dict_keys. rewrite map_map. simpl. tauto.
Qed.

Section QueryArgs.
Context `{Ext : Externals}.


(** X1: what [state_as_query_args] holds under each key: the copy of
    the entry of the data; the copied positional arguments under
    ['arg'] only when the data has no such entry. *)
Theorem X_query_args_lookup (c : Command) (k : string) :
  dict_wf (c_data c) ->
  dict_get k (state_as_query_args c)
  = match dict_get k (c_data c) with
    | Some v => Some (_sloppy_copy v (Some k))
    | None =>
        if String.eqb k "arg" && truthy (PTuple (c_args c))
        then Some (PList (map (fun i => _sloppy_copy i None) (c_args c)))
        else None
    end.
Proof.
  intros Hwf. unfold state_as_query_args. cbn [_sloppy_copy is_pass_name dict_items_of].
  rewrite dict_get_update by (apply sloppy_dict_wf, Hwf).
  rewrite sloppy_dict_get.
  destruct (dict_get k (c_data c)) as [ v | ]; cbn [option_map]; [ reflexivity | ].
  destruct (truthy (PTuple (c_args c))).
  - cbn [dict_set dict_get]. rewrite andb_true_r.
    destruct (String.eqb k "arg"); reflexivity.
  - rewrite andb_false_r. reflexivity.
Qed.


End QueryArgs.

(** ** The characters of a cache id *)

Lemma str_replace_char_length (a b : ascii) (s : string) :
  String.length (str_replace_char a b s) = String.length s.
Proof. induction s as [ | ch s IH ]; simpl; [ reflexivity | rewrite IH; reflexivity ]. Qed.

Lemma str_replace_char_In (a b ch : ascii) (s : string) :
  In ch (list_ascii_of_string (str_replace_char a b s)) ->
  (ch = b \/ ch <> a) /\ (ch = b \/ In ch (list_ascii_of_string s)).
Proof.
  induction s as [ | c0 s IH ]; simpl; [ tauto | ].
  intros [ E | I ].
  - destruct (Ascii.eqb_spec c0 a) as [ -> | Hne ].
    + subst ch. split; left; reflexivity.
    + subst ch. split; [ right; exact Hne | right; left; reflexivity ].
  - destruct (IH I) as [ H1 H2 ]. split; [ exact H1 | ].
    destruct H2 as [ H2 | H2 ]; [ left; exact H2 | right; right; exact H2 ].
Qed.

Lemma string_app_length (a b : string) :
  String.length (a ++ b) = (String.length a + String.length b)%nat.
Proof. induction a as [ | ch a IH ]; simpl; [ reflexivity | rewrite IH; reflexivity ]. Qed.

Section CacheIdShape.
Context `{Ext : Externals}.

(** X3: the cache id of a cacheable command is not empty and holds
    neither ['/'] nor ['.']. *)
Theorem X_cache_id_characters (c : Command) (sqa : option pydict) :
  1 <= COMMAND_CACHE_TTL (cls c) ->
  cache_id c sqa <> ""
  /\ forall ch, In ch (list_ascii_of_string (cache_id c sqa)) ->
                ch <> "/"%char /\ ch <> "."%char.
Proof.
  intros Httl. unfold cache_id.
  destruct (Z.ltb_spec (COMMAND_CACHE_TTL (cls c)) 1) as [ Hlt | _ ]; [ lia | ].
  cbv zeta. split.
  - intros H. apply (f_equal String.length) in H.
    rewrite !str_replace_char_length, !string_app_length in H. simpl in H. lia.
  - intros ch Hin.
    apply str_replace_char_In in Hin. destruct Hin as [ Hdot Hin ]. split.
    + destruct Hin as [ -> | Hin ]; [ discriminate | ].
      apply str_replace_char_In in Hin. destruct Hin as [ [ -> | Hs ] _ ];
        [ discriminate | exact Hs ].
    + destruct Hdot as [ -> | Hd ]; [ discriminate | exact Hd ].
Qed.

End CacheIdShape.

(** ** Construction *)

Section Construction.
Context `{Ext : Externals}.

(** X4: the two ways [Command.__init__] fails, and where the entries of
    [data['arg']] go. *)
Theorem X_init_failures_and_args (k : CommandClass) (session : nat)
    (name : option string) (arg : ArgSpec) (data : option pydict) (async : bool)
    (w0 : World) :
  match Command__init__ k session name arg data async w0 with
  | Raise e =>
      (exn_class e = UsageError
       /\ exists s, arg = ArgStr s /\ SPLIT_ARG k = true /\ shlex_split s = None)
      \/ (exn_class e = TypeError
          /\ exists d v, data = Some d /\ dict_get "arg" d = Some v
                         /\ forall l, v <> PList l)
  | Ok (c, w) =>
      c_name c = or_else (SYNOPSIS_1 k) (or_else (SYNOPSIS_2 k) name)
      /\ c_status c = "unknown"
      /\ c_message c = name
      /\ (forall l, arg = ArgSeq l ->
            c_args c = (l ++ match dict_get "arg" (c_data c) with
                             | Some (PList extra) => extra
                             | _ => []
                             end)%list)
      /\ (arg = ArgNone \/ arg = ArgStr "" ->
            c_args c = match dict_get "arg" (c_data c) with
                       | Some (PList extra) => extra
                       | _ => []
                       end)
  end.
Proof.
  unfold Command__init__.
  remember (match data with
            | Some d => if truthy (PDict d) then d else []
            | None => []
            end) as self_data eqn:Hsd.
  assert (Hdata : forall v, dict_get "arg" self_data = Some v ->
                            exists d, data = Some d /\ dict_get "arg" d = Some v).
  { intros v. subst self_data. destruct data as [ d | ]; [ | discriminate ].
    destruct (truthy (PDict d)); [ | discriminate ]. intros H. exists d. auto. }
  clear Hsd.
  destruct arg as [ | s | l ];
    [ | destruct (str_truthy s) eqn:Hs;
        [ destruct (SPLIT_ARG k) eqn:Hsplit;
          [ destruct (shlex_split s) as [ parts | ] eqn:Hsh | ] | ] | ];
    try (left; split; [ reflexivity | ]; exists s; auto).
  all: destruct (dict_get "arg" self_data) as [ v | ] eqn:E;
    [ destruct (Hdata v eq_refl) as (d & Hd & Hv);
      destruct v;
      try (right; split; [ reflexivity | ];
           exists d; eexists; split; [ exact Hd | ];
           split; [ exact Hv | discriminate ]) | ].
  all: cbn; rewrite E; repeat split;
    try (intros ? [= <-]; rewrite ?app_nil_r; reflexivity);
    try discriminate;
    try (intros [ H | H ]; try discriminate H; try reflexivity;
         injection H as ->; discriminate Hs).
Qed.

End Construction.

(** ** Rendering: [as_dict] and unknown formats *)

Lemma dict_get_filter_key (p : string -> bool) (k : string) (d : pydict) :
  dict_get k (List.filter (fun kv => p (fst kv)) d)
  = if p k then dict_get k d else None.
Proof.
  induction d as [ | [ k1 v1 ] d IH ]; simpl.
  - destruct (p k); reflexivity.
  - destruct (p k1) eqn:Hp1; simpl.
    + destruct (String.eqb_spec k k1) as [ -> | ]; [ rewrite Hp1; reflexivity | exact IH ].
    + rewrite IH. destruct (String.eqb_spec k k1) as [ -> | ]; [ | reflexivity ].
      rewrite Hp1. reflexivity.
Qed.

Lemma filter_dict_wf (p : string * pyval -> bool) (d : pydict) :
  dict_wf d -> dict_wf (List.filter p d).
Proof.
  unfold dict_wf, dict_keys. induction d as [ | kv d IH ]; simpl; intros H.
  - constructor.
  - apply List.NoDup_cons_iff in H. destruct H as [ Hin H ].
    destruct (p kv); simpl; [ | exact (IH H) ].
    constructor; [ | exact (IH H) ].
    intros Hk. apply Hin. apply in_map_iff in Hk. destruct Hk as (x & Hx & Hf).
    apply filter_In in Hf. apply in_map_iff. exists x. tauto.
Qed.

Section RenderingMore.
Context `{Ext : Externals}.

(** X5: [as_dict] carries the payload as it is, has an ['error'] entry
    exactly when [error_info] is not empty, and takes from the keyword
    arguments of the result the entries whose names start with ['ui_'],
    and no other. *)
Theorem X_as_dict_entries (ui : UI) (r : CommandResult) :
  dict_wf (r_kwargs r) ->
  dict_get "result" (as_dict ui r) = Some (r_result r)
  /\ dict_get "status" (as_dict ui r) = Some (PStr (r_status r))
  /\ dict_get "error" (as_dict ui r)
     = (if truthy (PDict (r_error_info r)) then Some (PDict (r_error_info r)) else None)
  /\ (forall k, str_startswith k "ui_" = true ->
        dict_get k (as_dict ui r) = dict_get k (r_kwargs r))
  /\ (forall k, str_startswith k "ui_" = false ->
        In k (dict_keys (as_dict ui r)) ->
        In k ["command"; "state"; "status"; "message"; "result"; "event_id";
              "elapsed"; "error"]).
Proof.
  intros Hwf. unfold as_dict.
  set (rv0 := [("command", _); ("state", _); ("status", _); ("message", _);
               ("result", _); ("event_id", _); ("elapsed", _)]).
  set (ui_kw := List.filter (fun kv => str_startswith (fst kv) "ui_") (r_kwargs r)).
  change (fold_left (fun rv kv => dict_set (fst kv) (snd kv) rv) ui_kw ?x)
    with (dict_update x ui_kw).
  assert (Hrv1 : forall k,
            dict_get k (if truthy (PDict (r_error_info r))
                        then dict_set "error" (PDict (r_error_info r)) rv0 else rv0)
            = if truthy (PDict (r_error_info r)) && String.eqb k "error"
              then Some (PDict (r_error_info r)) else dict_get k rv0).
  { intros k. destruct (truthy (PDict (r_error_info r))); [ | reflexivity ].
    rewrite dict_get_set. reflexivity. }
  assert (Hrv0 : forall k, dict_get k rv0 <> None ->
                           In k ["command"; "state"; "status"; "message"; "result";
                                 "event_id"; "elapsed"]).
  { intros k. subst rv0. cbn [dict_get].
    repeat match goal with
           | |- context [String.eqb k ?s] =>
               destruct (String.eqb_spec k s) as [ -> | ]; [ simpl; tauto | ]
           end. congruence. }
  assert (Hget : forall k,
            dict_get k (dict_update
                          (if truthy (PDict (r_error_info r))
                           then dict_set "error" (PDict (r_error_info r)) rv0 else rv0)
                          ui_kw)
            = if str_startswith k "ui_" then dict_get k (r_kwargs r)
              else if truthy (PDict (r_error_info r)) && String.eqb k "error"
                   then Some (PDict (r_error_info r)) else dict_get k rv0).
  { intros k. rewrite dict_get_update by (apply filter_dict_wf, Hwf).
    unfold ui_kw.
    rewrite (dict_get_filter_key (fun k => str_startswith k "ui_")), Hrv1.
    destruct (str_startswith k "ui_") eqn:Hk; [ | reflexivity ].
    destruct (dict_get k (r_kwargs r)) as [ v | ]; [ reflexivity | ].
    destruct (String.eqb_spec k "error") as [ -> | ]; [ vm_compute in Hk; discriminate Hk | ].
    rewrite andb_false_r.
    destruct (dict_get k rv0) eqn:E; [ | reflexivity ].
    assert (Hin : In k ["command"; "state"; "status"; "message"; "result";
                        "event_id"; "elapsed"]) by (apply Hrv0; congruence).
    simpl in Hin.
    repeat (destruct Hin as [ <- | Hin ]; [ vm_compute in Hk; discriminate Hk | ]). contradiction. }
  split; [ rewrite Hget; change (str_startswith "result" "ui_") with false;
           change (String.eqb "result" "error") with false; rewrite andb_false_r;
           reflexivity | ].
  split; [ rewrite Hget; change (str_startswith "status" "ui_") with false;
           change (String.eqb "status" "error") with false; rewrite andb_false_r;
           reflexivity | ].
  split; [ rewrite Hget; change (str_startswith "error" "ui_") with false;
           change (String.eqb "error" "error") with true; rewrite andb_true_r;
           destruct (truthy (PDict (r_error_info r))); reflexivity | ].
  split.
  - intros k Hk. rewrite Hget, Hk. reflexivity.
  - intros k Hk Hin.
    match type of Hin with
    | In k (dict_keys ?d) => destruct (dict_get k d) as [ v | ] eqn:E
    end.
    + rewrite Hget, Hk in E.
      destruct (String.eqb_spec k "error") as [ -> | ]; [ simpl; tauto | ].
      rewrite andb_false_r in E.
      assert (Hin0 : In k ["command"; "state"; "status"; "message"; "result";
                           "event_id"; "elapsed"]) by (apply Hrv0; congruence).
      simpl in *. tauto.
    + apply dict_get_None in E. contradiction.
Qed.

(** X6: a format that has no renderer is rendered as text and stored
    under its own name when [as_] is called without extra arguments,
    and raises [TypeError] when it is called with some. *)
Theorem X_as_unknown_format (ui : UI) (r : CommandResult) (what : string) :
  renderers what = None ->
  (forall args kwargs, args <> [] \/ kwargs <> [] ->
     exists msg, as_ ui r what args kwargs = (Raise (mkExn TypeError msg), r, []))
  /\ (r_rendered r !! what = None ->
      as_out (as_ ui r what [] []) = fst (as_text r)
      /\ forall text, fst (as_text r) = Ok text ->
           r_rendered (as_obj (as_ ui r what [] [])) = <[what := text]> (r_rendered r)).
Proof.
  intros Hnone. split.
  - intros args kwargs Hsome. unfold as_. rewrite Hnone.
    destruct args, kwargs; cbn; try (eexists; reflexivity).
    destruct Hsome; congruence.
  - intros Hmiss. unfold as_. cbn [length Nat.eqb negb orb]. rewrite Hmiss, Hnone.
    cbn [default call_renderer]. destruct (as_text r) as [ [ text | e ] calls ]; cbn.
    + split; [ reflexivity | ]. intros text' [= <-]. reflexivity.
    + split; [ reflexivity | ]. discriminate.
Qed.

End RenderingMore.

(** ** Paging from one page to the next *)

Lemma map_res_total {A B : Type} (f : A -> res B) (l : list A) :
  List.Forall (fun x => exists y, f x = Ok y) l -> exists ys, map_res f l = Ok ys.
Proof.
  induction 1 as [ | x l [ y Hy ] _ [ ys IH ] ]; simpl.
  - eexists. reflexivity.
  - rewrite Hy, IH. eexists. reflexivity.
Qed.

Lemma py_slice_incl {A : Type} (l : list A) (i j : Z) (x : A) :
  In x (py_slice l i j) -> In x l.
Proof.
  unfold py_slice. intros H.
  rewrite <- (firstn_skipn (Z.to_nat (slice_bound (Z.of_nat (length l)) i)) l).
  apply in_or_app. right.
  match type of H with
  | In x (firstn ?n ?m) => rewrite <- (firstn_skipn n m)
  end.
  apply in_or_app. left. exact H.
Qed.

Section PagingSetsFacts.
Context `{Ext : Externals}.

(** The start position that the constructor settles on. *)
Lemma SearchResults__init___session (session : Session) (cfg : Config)
    (start : Z) (end_ : option Z) :
  List.Forall (fun r => exists s, b36 r = Ok s) (s_results session) ->
  let R := s_results session in
  let L := Z.of_nat (length R) in
  let n := num_results cfg in
  let s := page_start session cfg None start end_ None in
  exists threads,
    map_res b36 (py_slice R s (s + n)) = Ok threads
    /\ SearchResults__init__ session cfg None start end_ None
       = Ok (mkSearchResults R
               (mkStats (Z.of_nat (length threads)) (s + 1) (s + Z.min n (L - s)) L)
               (s_searched session) threads).
Proof.
  intros Hb36 R L n s.
  assert (HR : or_list (or_list (default [] None) (s_results session)) [] = R).
  { subst R. cbn. destruct (s_results session); reflexivity. }
  destruct (map_res_total b36 (py_slice R s (s + n))) as [ threads Hth ].
  { apply List.Forall_forall. intros x Hx. apply py_slice_incl in Hx.
    revert x Hx. apply List.Forall_forall. exact Hb36. }
  exists threads. split; [ exact Hth | ].
  unfold SearchResults__init__. rewrite HR. cbn [or_Z].
  assert (Hs : (let st0 := match end_ with
                           | Some e => if e =? 0 then start else e - num_results cfg
                           | None => start
                           end in
                let st1 := if st0 >? Z.of_nat (length R) then Z.of_nat (length R) else st0 in
                if st1 <? 0 then 0 else st1) = s).
  { subst s. unfold page_start, page_size, page_results. rewrite HR. cbn [or_Z].
    cbv zeta.
    destruct (Z.gtb_spec
                (match end_ with
                 | Some e => if e =? 0 then start else e - num_results cfg
                 | None => start
                 end) (Z.of_nat (length R)));
      match goal with |- (if ?a <? 0 then _ else _) = _ => destruct (Z.ltb_spec a 0) end;
      lia. }
  cbv zeta in Hs. rewrite Hs. fold n. rewrite Hth. reflexivity.
Qed.

(** X7: [next_set] starts where a page ends; for a full page
    [previous_set] leads back to it, after a partial page [next_set]
    is empty, and [previous_set] of the first page is the first
    page. *)
Theorem X_paging_next_previous (session : Session) (cfg : Config) (start : Z)
    (p : SearchResults) :
  List.Forall (fun r => exists s, b36 r = Ok s) (s_results session) ->
  0 < num_results cfg ->
  SearchResults__init__ session cfg None start None None = Ok p ->
  (st_count (sr_stats p) = num_results cfg ->
     exists q, next_set session cfg p = Ok q
       /\ st_start (sr_stats q) = st_start (sr_stats p) + st_count (sr_stats p)
       /\ previous_set session cfg q = Ok p)
  /\ (st_count (sr_stats p) < num_results cfg ->
      exists q, next_set session cfg p = Ok q
        /\ st_count (sr_stats q) = 0
        /\ sr_thread_ids q = []
        /\ st_start (sr_stats q) = st_total (sr_stats p) + 1)
  /\ (st_start (sr_stats p) = 1 -> previous_set session cfg p = Ok p).
Proof.
  intros Hb36 Hn Hp.
  destruct (SearchResults__init___session session cfg start None Hb36)
    as (threads & Hth & Hinit).
  rewrite Hinit in Hp. injection Hp as <-.
  set (R := s_results session) in *. set (L := Z.of_nat (length R)) in *.
  set (n := num_results cfg) in *.
  set (s := page_start session cfg None start None None) in *.
  assert (Hs : 0 <= s <= L).
  { subst s L R. pose proof (page_start_range session cfg None start None None) as H.
    unfold page_results in H. cbn in H.
    destruct (s_results session); exact H. }
  assert (Hlen : Z.of_nat (length threads) = Z.min n (L - s)).
  { rewrite (map_res_length _ _ _ Hth), py_slice_length. fold L.
    unfold slice_bound.
    destruct (Z.ltb_spec (s + n) 0), (Z.ltb_spec s 0); lia. }
  cbn [sr_stats st_count st_start st_total sr_thread_ids].
  unfold next_set, previous_set. cbn [sr_stats st_count st_start].
  split; [ | split ].
  - intros Hfull.
    destruct (SearchResults__init___session session cfg
                (s + 1 - 1 + Z.of_nat (length threads)) None Hb36)
      as (threads' & Hth' & Hinit').
    rewrite Hinit'. eexists. split; [ reflexivity | ].
    cbn [sr_stats st_count st_start].
    assert (Hs' : page_start session cfg None (s + 1 - 1 + Z.of_nat (length threads))
                    None None = s + n).
    { unfold page_start, page_results. cbn [default or_list].
      replace (or_list (s_results session) []) with R
        by (subst R; destruct (s_results session); reflexivity).
      fold L. lia. }
    rewrite Hs'. split; [ lia | ].
    destruct (SearchResults__init___session session cfg 0 (Some (s + n + 1 - 1)) Hb36)
      as (threads'' & Hth'' & Hinit'').
    rewrite Hinit''.
    assert (Hs'' : page_start session cfg None 0 (Some (s + n + 1 - 1)) None = s).
    { unfold page_start, page_results, page_size. cbn [default or_list or_Z].
      replace (or_list (s_results session) []) with R
        by (subst R; destruct (s_results session); reflexivity).
      fold L n. destruct (Z.eqb_spec (s + n + 1 - 1) 0); lia. }
    rewrite Hs'' in *. fold R L n in Hth'' |- *.
    rewrite Hth in Hth''. injection Hth'' as <-. reflexivity.
  - intros Hpart.
    destruct (SearchResults__init___session session cfg
                (s + 1 - 1 + Z.of_nat (length threads)) None Hb36)
      as (threads' & Hth' & Hinit').
    rewrite Hinit'. eexists. split; [ reflexivity | ].
    cbn [sr_stats st_count st_start sr_thread_ids].
    assert (Hs' : page_start session cfg None (s + 1 - 1 + Z.of_nat (length threads))
                    None None = L).
    { unfold page_start, page_results. cbn [default or_list].
      replace (or_list (s_results session) []) with R
        by (subst R; destruct (s_results session); reflexivity).
      fold L. lia. }
    rewrite Hs' in *. fold R L n in Hth'.
    assert (Hl' : length threads' = 0%nat).
    { rewrite (map_res_length _ _ _ Hth').
      apply Nat2Z.inj. rewrite py_slice_length. fold L. unfold slice_bound.
      destruct (Z.ltb_spec (L + n) 0), (Z.ltb_spec L 0); lia. }
    destruct threads'; [ | discriminate Hl' ].
    repeat split; reflexivity.
  - intros Hfirst.
    destruct (SearchResults__init___session session cfg 0 (Some (s + 1 - 1)) Hb36)
      as (threads'' & Hth'' & Hinit'').
    rewrite Hinit''.
    assert (Hs'' : page_start session cfg None 0 (Some (s + 1 - 1)) None = s).
    { unfold page_start, page_results, page_size. cbn [default or_list or_Z].
      replace (or_list (s_results session) []) with R
        by (subst R; destruct (s_results session); reflexivity).
      fold L n. destruct (Z.eqb_spec (s + 1 - 1) 0); lia. }
    rewrite Hs'' in *. fold R L n in Hth'' |- *.
    rewrite Hth in Hth''. injection Hth'' as <-. reflexivity.
Qed.

End PagingSetsFacts.

(** ** Template paths *)

Lemma str_split_char_cons (sep : ascii) (s : string) :
  exists h t, str_split_char sep s = h :: t.
Proof.
  induction s as [ | c s (h & t & IH) ]; simpl.
  - eexists _, _. reflexivity.
  - destruct (Ascii.eqb c sep); [ eexists _, _; reflexivity | ].
    rewrite IH. eexists _, _. reflexivity.
Qed.

Lemma str_split_char_absent (sep : ascii) (s : string) :
  ~ In sep (list_ascii_of_string s) -> str_split_char sep s = [s].
Proof.
  induction s as [ | c s IH ]; simpl; intros H; [ reflexivity | ].
  destruct (Ascii.eqb_spec c sep) as [ -> | Hne ]; [ exfalso; apply H; left; reflexivity | ].
  rewrite IH; [ reflexivity | ]. intros Hin. apply H. right. exact Hin.
Qed.

Lemma append_to_last_last (l : list string) (suffix : string) :
  l <> [] ->
  exists front x, l = (front ++ [x])%list
                  /\ append_to_last l suffix = (front ++ [(x ++ suffix)%string])%list.
Proof.
  induction l as [ | x l IH ]; intros Hne; [ congruence | ].
  destruct l as [ | y l ].
  - exists [], x. split; reflexivity.
  - destruct IH as (front & z & Hl & Ha); [ discriminate | ].
    exists (x :: front), z. split.
    + simpl. rewrite Hl. reflexivity.
    + change (append_to_last (x :: y :: l) suffix)
        with (x :: append_to_last (y :: l) suffix).
      rewrite Ha. reflexivity.
Qed.

Lemma string_app_assoc (a b c : string) : (a ++ b) ++ c = a ++ (b ++ c).
Proof.
  induction a as [ | ch a IH ]; [ reflexivity | ].
  change (String ch ((a ++ b) ++ c) = String ch (a ++ (b ++ c))). rewrite IH. reflexivity.
Qed.

Lemma substring_app_right (a b : string) :
  substring (String.length a) (String.length b) (a ++ b) = b.
Proof.
  induction a as [ | ch a IH ].
  - change ("" ++ b) with b.
    induction b as [ | ch b IHb ]; simpl; [ reflexivity | f_equal; exact IHb ].
  - change (String ch a ++ b) with (String ch (a ++ b)). simpl. exact IH.
Qed.

Lemma str_endswith_app (a b : string) : str_endswith (a ++ b) b = true.
Proof.
  unfold str_endswith. rewrite string_app_length.
  replace (String.length a + String.length b - String.length b)%nat
    with (String.length a) by lia.
  rewrite substring_app_right, String.eqb_refl, andb_true_r.
  apply Nat.leb_le. lia.
Qed.

Lemma substring_chars (n m : nat) (s : string) (ch : ascii) :
  In ch (list_ascii_of_string (substring n m s)) -> In ch (list_ascii_of_string s).
Proof.
  revert n m. induction s as [ | c s IH ]; intros n m; simpl.
  - destruct n, m; simpl; tauto.
  - destruct n as [ | n ].
    + destruct m as [ | m ]; simpl; [ tauto | ].
      intros [ E | I ]; [ left; exact E | right; eapply IH; exact I ].
    + intros I. right. eapply IH. exact I.
Qed.

Lemma str_endswith_char (s : string) (ch : ascii) :
  str_endswith s (String ch "") = true -> In ch (list_ascii_of_string s).
Proof.
  unfold str_endswith. intros H. apply andb_prop in H. destruct H as [ _ H ].
  apply String.eqb_eq in H.
  apply (substring_chars (String.length s - String.length (String ch "")) 
           (String.length (String ch "")) s).
  rewrite H. left. reflexivity.
Qed.

Lemma os_path_join_ends (parts front : list string) (x : string) :
  parts = (front ++ [x])%list ->
  exists pre, os_path_join parts = Ok (pre ++ x).
Proof.
  intros ->. destruct front as [ | a front ].
  - exists "". reflexivity.
  - simpl. rewrite fold_left_app. simpl.
    match goal with
    | |- context [fold_left ?f front a] => set (path := fold_left f front a)
    end.
    destruct (str_startswith x "/"); [ exists ""; reflexivity | ].
    destruct (String.eqb path "" || str_endswith path "/").
    + exists path. reflexivity.
    + exists (path ++ "/"). rewrite string_app_assoc. reflexivity.
Qed.

Lemma or_else_truthy (a b : option string) :
  opt_str_truthy b = true -> opt_str_truthy (or_else a b) = true.
Proof. unfold or_else. destruct (opt_str_truthy a) eqn:E; [ intros _; exact E | tauto ]. Qed.

Section TemplatePath.
Variable clean_text : string -> string.

(** X8: [template_path] always returns a path, and the path ends with
    ['.'] and the type; for a name without ['/'] and no template of its
    own the path is [name/index.etype]. *)
Theorem X_template_path_shape (k : CommandClass) (etype : string)
    (template_id template : option string) :
  let name := or_empty (or_else template_id (or_else (SYNOPSIS_2 k) (Some "command"))) in
  exists path,
    Command_template_path clean_text k etype template_id template = Ok path
    /\ str_endswith path ("." ++ etype) = true
    /\ (~ In "/"%char (list_ascii_of_string name) ->
        template = None \/ template = Some etype \/ template = Some ("as." ++ etype) ->
        path = name ++ "/index." ++ etype).
Proof.
  intros name. unfold Command_template_path. fold name.
  set (parts1 := if Nat.eqb (length (str_split_char "/" name)) 1
                 then (str_split_char "/" name ++ ["index"])%list
                 else str_split_char "/" name).
  set (parts2 := match template with
                 | None => parts1
                 | Some t =>
                     if String.eqb t etype || String.eqb t ("as." ++ etype) then parts1
                     else append_to_last parts1
                            ("-" ++ clean_text (str_remove ("." ++ etype) t))
                 end).
  assert (H1 : parts1 <> []).
  { subst parts1. destruct (str_split_char_cons "/" name) as (h & t & ->).
    destruct (Nat.eqb (length (h :: t)) 1); discriminate. }
  assert (H2 : parts2 <> []).
  { subst parts2. destruct template as [ t | ]; [ | exact H1 ].
    destruct (String.eqb t etype || String.eqb t ("as." ++ etype)); [ exact H1 | ].
    destruct (append_to_last_last parts1 ("-" ++ clean_text (str_remove ("." ++ etype) t)) H1)
      as (front & x & _ & ->).
    destruct front; discriminate. }
  destruct (append_to_last_last parts2 ("." ++ etype) H2) as (front & x & Hp & Ha).
  destruct (os_path_join_ends _ front (x ++ "." ++ etype) Ha) as (pre & Hjoin).
  exists (pre ++ x ++ "." ++ etype). split; [ exact Hjoin | ]. split.
  - rewrite <- string_app_assoc. apply str_endswith_app.
  - intros Hno Htpl.
    assert (Hparts : parts2 = [name; "index"]).
    { assert (parts1 = [name; "index"]) as ->
        by (subst parts1; rewrite (str_split_char_absent _ _ Hno); reflexivity).
      subst parts2.
      destruct Htpl as [ -> | [ -> | -> ] ]; [ reflexivity | | ].
      - rewrite String.eqb_refl. reflexivity.
      - rewrite String.eqb_refl, orb_true_r. reflexivity. }
    rewrite Hparts in Hjoin. cbn [append_to_last os_path_join fold_left] in Hjoin.
    change (str_startswith ("index" ++ "." ++ etype) "/") with false in Hjoin.
    assert (Hname : String.eqb name "" = false).
    { assert (Ht : opt_str_truthy
                     (or_else template_id (or_else (SYNOPSIS_2 k) (Some "command"))) = true)
        by (apply or_else_truthy, or_else_truthy; reflexivity).
      subst name.
      destruct (or_else template_id (or_else (SYNOPSIS_2 k) (Some "command")));
        [ | discriminate Ht ].
      cbn in Ht |- *. unfold str_truthy in Ht. apply negb_true_iff in Ht. exact Ht. }
    assert (Hend : str_endswith name "/" = false).
    { destruct (str_endswith name "/") eqn:E; [ | reflexivity ].
      exfalso. apply Hno. apply str_endswith_char. exact E. }
    rewrite Hname, Hend in Hjoin. cbn [orb] in Hjoin.
    injection Hjoin as Hjoin. rewrite <- Hjoin. reflexivity.
Qed.

End TemplatePath.

(** ** Choosing messages *)

Lemma forallb_incl {A : Type} (p : A -> bool) (l l' : list A) :
  (forall x, In x l' -> In x l) -> forallb p l = true -> forallb p l' = true.
Proof.
  intros Hin H. apply forallb_forall. intros x Hx.
  apply (proj1 (forallb_forall p l) H). apply Hin, Hx.
Qed.

Lemma py_index_In {A : Type} (l : list A) (i : Z) (x : A) :
  py_index l i = Some x -> In x l.
Proof.
  unfold py_index.
  destruct ((0 <=? (if i <? 0 then i + Z.of_nat (length l) else i))
            && ((if i <? 0 then i + Z.of_nat (length l) else i) <? Z.of_nat (length l)));
    [ | discriminate ].
  apply nth_error_In.
Qed.

Section ChooseMessagesFacts.
Variable py_int : Z -> string -> option Z.
Variable index_size : Z.

Lemma choose_word_members (results : list pyval) (displayed : option Stats)
    (allow_ephemeral : bool) (what : string) :
  forallb hashable results = true ->
  exists added,
    choose_word py_int index_size results displayed allow_ephemeral what = Ok added
    /\ forall x, In x added -> choosable index_size results allow_ephemeral x.
Proof.
  intros Hh. unfold choose_word.
  destruct (String.eqb (str_lower what) "these").
  { destruct displayed as [ stats | ]; [ | exists []; split; [ reflexivity | intros x [] ] ].
    cbv zeta.
    rewrite (forallb_incl hashable results _ (py_slice_incl results _ _) Hh).
    eexists. split; [ reflexivity | ].
    intros x Hx. left. eapply py_slice_incl. exact Hx. }
  destruct (String.eqb (str_lower what) "all").
  { destruct (negb (Nat.eqb (length results) 0));
      [ | exists []; split; [ reflexivity | intros x [] ] ].
    rewrite Hh. exists results. split; [ reflexivity | ]. intros x Hx. left. exact Hx. }
  destruct (str_startswith what "=") eqn:Heq.
  { destruct (py_int 36 (str_tail what)) as [ msg_id | ].
    - destruct (Z.geb_spec msg_id 0), (Z.ltb_spec msg_id index_size); cbn [andb];
        try (exists []; split; [ reflexivity | intros x [] ]).
      eexists. split; [ reflexivity | ].
      intros x [ <- | [] ]. right. left. exists msg_id. split; [ reflexivity | lia ].
    - destruct allow_ephemeral; cbn [andb];
        [ | exists []; split; [ reflexivity | intros x [] ] ].
      destruct (str_has_char "-" what) eqn:Hd;
        [ | exists []; split; [ reflexivity | intros x [] ] ].
      eexists. split; [ reflexivity | ].
      intros x [ <- | [] ]. right. right. split; [ reflexivity | ].
      exists (str_tail what). split; [ reflexivity | ].
      destruct what as [ | c what ]; [ discriminate Hd | ].
      cbn in Heq, Hd |- *.
      destruct (Ascii.eqb_spec c "-") as [ -> | ]; [ discriminate Heq | exact Hd ]. }
  destruct (str_has_char "-" what).
  { destruct (str_split_char "-" what) as [ | b [ | e [ | ] ] ];
      try (exists []; split; [ reflexivity | intros x [] ]).
    destruct (py_int 10 b) as [ b' | ], (py_int 10 e) as [ e' | ];
      try (exists []; split; [ reflexivity | intros x [] ]).
    cbv zeta. destruct (forallb hashable (py_slice results (b' - 1) e'));
      [ | exists []; split; [ reflexivity | intros x [] ] ].
    eexists. split; [ reflexivity | ].
    intros x Hx. left. eapply py_slice_incl. exact Hx. }
  destruct (py_int 10 what) as [ n | ];
    [ | exists []; split; [ reflexivity | intros x [] ] ].
  destruct (py_index results (n - 1)) as [ v | ] eqn:Hi;
    [ | exists []; split; [ reflexivity | intros x [] ] ].
  destruct (hashable v); [ | exists []; split; [ reflexivity | intros x [] ] ].
  eexists. split; [ reflexivity | ].
  intros x [ <- | [] ]. left. eapply py_index_In. exact Hi.
Qed.

Lemma choose_words_members (results : list pyval) (displayed : option Stats)
    (allow_ephemeral : bool) (all_words : list string) (msg_ids : list pyval) :
  forallb hashable results = true ->
  (forall x, In x msg_ids -> choosable index_size results allow_ephemeral x) ->
  exists ids,
    choose_words py_int index_size results displayed allow_ephemeral all_words msg_ids
    = Ok ids
    /\ (forall x, In x ids -> choosable index_size results allow_ephemeral x)
    /\ (forall x, In x msg_ids -> In x ids)
    /\ (In "all" all_words -> forall x, In x results -> In x ids).
Proof.
  intros Hh. revert msg_ids.
  induction all_words as [ | what rest IH ]; intros msg_ids Hacc; simpl.
  - exists msg_ids. split; [ reflexivity | ]. split; [ exact Hacc | ].
    split; [ tauto | intros [] ].
  - destruct (choose_word_members results displayed allow_ephemeral what Hh)
      as (added & Hw & Hadded).
    rewrite Hw.
    destruct (IH (msg_ids ++ added)%list) as (ids & Hids & Hmem & Hmono & Hall).
    { intros x Hx. apply in_app_or in Hx. destruct Hx; auto. }
    exists ids. split; [ exact Hids | ]. split; [ exact Hmem | ].
    split; [ intros x Hx; apply Hmono, in_or_app; left; exact Hx | ].
    intros [ -> | Hin ] x Hx; [ | apply Hall; assumption ].
    apply Hmono, in_or_app. right.
    unfold choose_word in Hw. cbn in Hw.
    destruct results as [ | r results' ]; [ destruct Hx | ].
    cbn [length Nat.eqb negb] in Hw. rewrite Hh in Hw. injection Hw as <-. exact Hx.
Qed.

(** X9: when the results of the session can be members of a set,
    [_choose_messages] returns, and every value it chooses is one of
    the results, a position inside the index, or (only when ephemeral
    ids are allowed) the text after ['='] of a word with a ['-'].  No
    word selects nothing; the word ['all'] selects every result. *)
Theorem X_choose_messages_members (session : Session) (displayed : option Stats)
    (words : list string) (allow_ephemeral : bool) :
  forallb hashable (s_results session) = true ->
  exists ids,
    _choose_messages py_int index_size session displayed words allow_ephemeral = Ok ids
    /\ (forall x, In x ids -> choosable index_size (s_results session) allow_ephemeral x)
    /\ (words = [] -> ids = [])
    /\ (In "all" words -> forall x, In x (s_results session) -> In x ids).
Proof.
  intros Hh. unfold _choose_messages.
  destruct (choose_words_members (s_results session) displayed allow_ephemeral
              (concat (map (str_split_char ",") words)) [] Hh)
    as (ids & Hids & Hmem & _ & Hall); [ intros x [] | ].
  exists ids. split; [ exact Hids | ]. split; [ exact Hmem | ]. split.
  - intros ->. cbn in Hids. injection Hids as <-. reflexivity.
  - intros Hin. apply Hall. apply in_concat. exists ["all"]. split; [ | left; reflexivity ].
    apply in_map_iff. exists "all". split; [ reflexivity | exact Hin ].
Qed.

End ChooseMessagesFacts.

(** ** Names of senders *)

Lemma list_ascii_app (a b : string) :
  list_ascii_of_string (a ++ b) = (list_ascii_of_string a ++ list_ascii_of_string b)%list.
Proof.
  induction a as [ | ch a IH ]; [ reflexivity | ].
  change (String ch a ++ b) with (String ch (a ++ b)). simpl. rewrite IH. reflexivity.
Qed.

Lemma str_drop_chars_In (drop : ascii -> bool) (s : string) (c : ascii) :
  In c (list_ascii_of_string (str_drop_chars drop s)) ->
  drop c = false /\ In c (list_ascii_of_string s).
Proof.
  induction s as [ | c0 s IH ]; simpl; [ tauto | ].
  destruct (drop c0) eqn:Hd; simpl.
  - intros H. destruct (IH H). tauto.
  - intros [ <- | H ]; [ tauto | ]. destruct (IH H). tauto.
Qed.

Lemma str_before_In (sep : ascii) (s : string) (c : ascii) :
  In c (list_ascii_of_string (str_before sep s)) ->
  c <> sep /\ In c (list_ascii_of_string s).
Proof.
  induction s as [ | c0 s IH ]; simpl; [ tauto | ].
  destruct (Ascii.eqb_spec c0 sep) as [ -> | Hne ]; simpl; [ tauto | ].
  intros [ <- | H ]; [ tauto | ]. destruct (IH H). tauto.
Qed.

Lemma str_has_char_false (ch : ascii) (s : string) :
  str_has_char ch s = false -> ~ In ch (list_ascii_of_string s).
Proof.
  induction s as [ | c0 s IH ]; simpl; [ tauto | ].
  destruct (Ascii.eqb_spec c0 ch) as [ -> | Hne ]; simpl; [ discriminate | ].
  intros H [ E | I ]; [ congruence | exact (IH H I) ].
Qed.

Lemma string_concat_In (sep : string) (l : list string) (c : ascii) :
  In c (list_ascii_of_string (String.concat sep l)) ->
  In c (list_ascii_of_string sep) \/ exists w, In w l /\ In c (list_ascii_of_string w).
Proof.
  induction l as [ | x l IH ]; [ intros [] | ].
  destruct l as [ | y l ].
  - simpl. intros H. right. exists x. tauto.
  - change (String.concat sep (x :: y :: l))
      with (x ++ sep ++ String.concat sep (y :: l)).
    rewrite !list_ascii_app. intros H.
    apply in_app_or in H. destruct H as [ H | H ]; [ right; exists x; simpl; tauto | ].
    apply in_app_or in H. destruct H as [ H | H ]; [ left; exact H | ].
    destruct (IH H) as [ Hs | (w & Hw & Hc) ]; [ left; exact Hs | ].
    right. exists w. split; [ right; exact Hw | exact Hc ].
Qed.

Section NamesFacts.
Variable is_space : ascii -> bool.

Lemma str_split_ws_In (s w : string) (c : ascii) :
  In w (str_split_ws is_space s) -> In c (list_ascii_of_string w) ->
  is_space c = false /\ In c (list_ascii_of_string s).
Proof.
  revert w. induction s as [ | c0 s IH ]; intros w; [ intros [] | ].
  cbn [str_split_ws]. destruct (is_space c0) eqn:Hc0.
  - intros Hw Hc. destruct (IH w Hw Hc). simpl. tauto.
  - destruct s as [ | c1 s ].
    + intros [ <- | [] ] [ <- | [] ]. simpl. tauto.
    + destruct (is_space c1) eqn:Hc1.
      * intros [ <- | Hw ] Hc.
        -- destruct Hc as [ <- | [] ]. simpl. tauto.
        -- destruct (IH w Hw Hc). simpl in *. tauto.
      * destruct (str_split_ws is_space (String c1 s)) as [ | h t ] eqn:E.
        -- intros [ <- | [] ] [ <- | [] ]. simpl. tauto.
        -- intros [ <- | Hw ] Hc.
           ++ destruct Hc as [ <- | Hc ]; [ simpl; tauto | ].
              destruct (IH h (or_introl eq_refl) Hc). simpl in *. tauto.
           ++ destruct (IH w (or_intror Hw) Hc). simpl in *. tauto.
Qed.

(** X10: the name shown for a sender holds no double quote and no angle
    bracket; unless the full address is asked for it holds no ['@'];
    the short form holds no whitespace. *)
Theorem X_name_characters (sender : string) (short full_email : bool) :
  (forall c, In c (list_ascii_of_string "(nobody)") -> is_space c = false) ->
  let shown := list_ascii_of_string (_name is_space sender short full_email) in
  (forall c, In c shown -> c <> double_quote /\ c <> "<"%char /\ c <> ">"%char)
  /\ (full_email = false -> ~ In "@"%char shown)
  /\ (short = true -> forall c, In c shown -> is_space c = false).
Proof.
  intros Hnobody shown. subst shown. unfold _name.
  set (drop := fun c => Ascii.eqb c double_quote || Ascii.eqb c "<" || Ascii.eqb c ">").
  set (words := str_split_ws is_space (str_drop_chars drop sender)).
  set (nomail := List.filter (fun w => negb (str_has_char "@" w)) words).
  assert (Hdrop : forall c, drop c = false ->
                            c <> double_quote /\ c <> "<"%char /\ c <> ">"%char).
  { intros c. unfold drop.
    destruct (Ascii.eqb_spec c double_quote), (Ascii.eqb_spec c "<"),
      (Ascii.eqb_spec c ">"); cbn; try discriminate. tauto. }
  assert (Hwords : forall w c, In w words -> In c (list_ascii_of_string w) ->
                               drop c = false /\ is_space c = false).
  { intros w c Hw Hc. destruct (str_split_ws_In _ w c Hw Hc) as [ Hs Hin ].
    apply str_drop_chars_In in Hin. tauto. }
  assert (Hnomail : forall w, In w nomail ->
                              In w words /\ ~ In "@"%char (list_ascii_of_string w)).
  { intros w Hw. apply filter_In in Hw. destruct Hw as [ Hw Hat ].
    split; [ exact Hw | ]. apply str_has_char_false. apply negb_true_iff. exact Hat. }
  assert (Hone : forall w, In w nomail ->
            (forall c, In c (list_ascii_of_string w) ->
                       c <> double_quote /\ c <> "<"%char /\ c <> ">"%char)
            /\ ~ In "@"%char (list_ascii_of_string w)
            /\ (forall c, In c (list_ascii_of_string w) -> is_space c = false)).
  { intros w Hw. destruct (Hnomail w Hw) as [ Hin Hat ].
    split; [ intros c Hc; apply Hdrop; apply (Hwords w c Hin Hc) | ].
    split; [ exact Hat | intros c Hc; apply (Hwords w c Hin Hc) ]. }
  destruct nomail as [ | n0 rest ] eqn:En.
  - destruct words as [ | w0 ws ] eqn:Ew.
    + split; [ | split ].
      * intros c Hc. cbn in Hc. unfold double_quote.
        repeat (destruct Hc as [ <- | Hc ]; [ repeat split; discriminate | ]).
        destruct Hc.
      * intros _ Hc. cbn in Hc.
        repeat (destruct Hc as [ Hc | Hc ]; [ discriminate Hc | ]). destruct Hc.
      * intros _. exact Hnobody.
    + assert (Hw0 : forall c, In c (list_ascii_of_string w0) ->
                              drop c = false /\ is_space c = false)
        by (intros c; apply Hwords; left; reflexivity).
      destruct full_email; cbn [negb].
      * split; [ intros c Hc; apply Hdrop, Hw0, Hc | ].
        split; [ discriminate | intros _ c Hc; apply Hw0, Hc ].
      * split; [ intros c Hc; apply str_before_In in Hc; apply Hdrop, Hw0; tauto | ].
        split; [ intros _ Hc; apply str_before_In in Hc; tauto | ].
        intros _ c Hc. apply str_before_In in Hc. apply Hw0. tauto.
  - destruct short.
    + assert (Hpick : forall w, In w (n0 :: rest) ->
                (forall c, In c (list_ascii_of_string w) ->
                           c <> double_quote /\ c <> "<"%char /\ c <> ">"%char)
                /\ (full_email = false -> ~ In "@"%char (list_ascii_of_string w))
                /\ (true = true -> forall c, In c (list_ascii_of_string w) ->
                                             is_space c = false)).
      { intros w Hw. destruct (Hone w Hw) as (Ha & Hb & Hc). tauto. }
      destruct rest as [ | n1 rest' ]; [ apply Hpick; left; reflexivity | ].
      destruct (existsb (String.eqb (str_lower n0)) _NAME_TITLES).
      * apply Hpick. right. left. reflexivity.
      * apply Hpick. left. reflexivity.
    + split; [ | split; [ | discriminate ] ].
      * intros c Hc. apply string_concat_In in Hc.
        destruct Hc as [ [ <- | [] ] | (w & Hw & Hc) ].
        -- unfold double_quote. repeat split; discriminate.
        -- apply (Hone w Hw). exact Hc.
      * intros _ Hc. apply string_concat_In in Hc.
        destruct Hc as [ [ Hc | [] ] | (w & Hw & Hc) ]; [ discriminate Hc | ].
        apply (Hone w Hw). exact Hc.
Qed.

End NamesFacts.

(** ** What a run leaves alone *)

Lemma steady_refl (st : St) : steady st st.
Proof. unfold steady. repeat (split; [ reflexivity | ]). split; [ | tauto ].
  split; [ apply same_switches_refl | tauto ]. Qed.

Lemma steady_trans (st1 st2 st3 : St) : steady st1 st2 -> steady st2 st3 -> steady st1 st3.
Proof.
  unfold steady.
  intros (Hc & Ha & Hd & Hr & Hl & Hla & Hq & Hk & Hs & Hlog & Hcache)
         (Hc' & Ha' & Hd' & Hr' & Hl' & Hla' & Hq' & Hk' & Hs' & Hlog' & Hcache').
  rewrite Hc in Hlog', Hcache'.
  repeat (split; [ congruence | ]).
  split; [ eapply same_switches_trans; eassumption | ].
  split; intros H; [ rewrite (Hlog' H); exact (Hlog H)
                   | rewrite (Hcache' H); exact (Hcache H) ].
Qed.

Section KeepsSteady.
Context `{Ext : Externals}.

Ltac munfold :=
  unfold when, time_time, add_obs, bind, ret, raise, try_except,
    get_self, get_world, modify_self, modify_world.

Lemma ks_ret {A : Type} (a : A) : keeps_steady (ret a).
Proof. intros st. apply steady_refl. Qed.

Lemma ks_raise {A : Type} (e : Exn) : keeps_steady (@raise A e).
Proof. intros st. apply steady_refl. Qed.

Lemma ks_get_self : keeps_steady get_self.
Proof. intros st. apply steady_refl. Qed.

Lemma ks_get_world : keeps_steady get_world.
Proof. intros st. apply steady_refl. Qed.

Lemma ks_modify_self (f : Command -> Command) :
  (forall c, cls (f c) = cls c /\ c_args (f c) = c_args c /\ c_data (f c) = c_data c
             /\ c_run_async (f c) = c_run_async c) ->
  keeps_steady (modify_self f).
Proof.
  intros Hf [ c w ]. destruct (Hf c) as (H1 & H2 & H3 & H4).
  unfold steady. cbn. repeat (split; [ assumption || reflexivity | ]).
  split; [ apply same_switches_refl | tauto ].
Qed.

Lemma ks_modify_world (f : World -> World) :
  (forall w, LIVE_USER_ACTIVITIES (f w) = LIVE_USER_ACTIVITIES w
             /\ LAST_USER_ACTIVITY (f w) = LAST_USER_ACTIVITY w
             /\ QUITTING (f w) = QUITTING w /\ clock (f w) = clock w
             /\ config (f w) = config w) ->
  keeps_steady (modify_world f).
Proof.
  intros Hf [ c w ]. destruct (Hf w) as (H1 & H2 & H3 & H4 & H5).
  unfold steady. cbn. rewrite H5. repeat (split; [ assumption || reflexivity | ]).
  split; [ apply same_switches_refl | tauto ].
Qed.

Lemma ks_bind {A B : Type} (m : M A) (k : A -> M B) :
  keeps_steady m -> (forall a, keeps_steady (k a)) -> keeps_steady (bind m k).
Proof.
  intros Hm Hk st. unfold bind. specialize (Hm st).
  destruct (m st) as [ [ a | e ] st' ]; cbn in *; [ | exact Hm ].
  eapply steady_trans; [ exact Hm | apply Hk ].
Qed.

Lemma ks_try {A : Type} (m : M A) (h : Exn -> M A) :
  keeps_steady m -> (forall e, keeps_steady (h e)) -> keeps_steady (try_except m h).
Proof.
  intros Hm Hh st. unfold try_except. specialize (Hm st).
  destruct (m st) as [ [ a | e ] st' ]; cbn in *; [ exact Hm | ].
  eapply steady_trans; [ exact Hm | apply Hh ].
Qed.

Lemma ks_when (b : bool) (m : M unit) : keeps_steady m -> keeps_steady (when b m).
Proof. intros Hm. destruct b; [ exact Hm | apply ks_ret ]. Qed.

Create HintDb ks.

Ltac ks_step :=
  first [ solve [ auto 1 with ks nocore ]
        | apply ks_ret | apply ks_raise | apply ks_get_self | apply ks_get_world
        | apply ks_modify_self; intros; repeat split; reflexivity
        | apply ks_modify_world; intros; repeat split; reflexivity
        | apply ks_when
        | apply ks_bind; [ | intros ]
        | apply ks_try; [ | intros ] ].

Lemma ks_update_event_state (state : EventFlag) (log : bool) :
  keeps_steady (_update_event_state state log).
Proof.
  intros [ c w ]. unfold _update_event_state. munfold. cbn.
  destruct (LOG_NOTHING (cls c)) eqn:Hn; rewrite ?andb_false_r; cbn.
  - unfold steady. cbn. repeat (split; [ reflexivity | ]).
    split; [ apply same_switches_refl | tauto ].
  - destruct (log || LOG_PROGRESS (cls c)); cbn.
    + unfold steady. cbn. repeat (split; [ reflexivity | ]).
      split; [ apply same_settings_switches, same_settings_log | ].
      split; [ congruence | intros _; apply same_settings_log ].
    + unfold steady. cbn. repeat (split; [ reflexivity | ]).
      split; [ apply same_switches_refl | tauto ].
Qed.
#[local] Hint Resolve ks_update_event_state : ks.

Lemma ks_starting : keeps_steady _starting.
Proof. unfold _starting, time_time. repeat ks_step. Qed.
#[local] Hint Resolve ks_starting : ks.

Lemma ks_update_finished_event : keeps_steady _update_finished_event.
Proof. unfold _update_finished_event. repeat ks_step. Qed.
#[local] Hint Resolve ks_update_finished_event : ks.

Lemma ks_error (msg : string) (info : option pydict) (result : pyval) :
  keeps_steady (_error msg info result).
Proof. unfold _error. repeat ks_step. destruct (truthy result); apply ks_ret. Qed.
#[local] Hint Resolve ks_error : ks.

Lemma ks_cache_result (r : CommandResult) : keeps_steady (cache_result r).
Proof.
  intros [ c w ]. unfold cache_result. munfold. cbn.
  destruct (Z.gtb_spec (COMMAND_CACHE_TTL (cls c)) 0) as [ Hpos | Hnpos ]; cbn;
    [ | apply steady_refl ].
  destruct (str_truthy (cache_id c None)); cbn; [ | apply steady_refl ].
  destruct (cache_requirements c r); cbn; [ | apply steady_refl ].
  unfold steady. cbn. repeat (split; [ reflexivity | ]).
  split; [ repeat split | ]. split; [ reflexivity | lia ].
Qed.
#[local] Hint Resolve ks_cache_result : ks.

Lemma ks_finishing (doc : option string) (rv : pyval) (just_cleanup : bool) :
  keeps_steady (_finishing doc rv just_cleanup).
Proof. unfold _finishing, add_obs. destruct just_cleanup; repeat ks_step. Qed.
#[local] Hint Resolve ks_finishing : ks.

Lemma ks_invoke_body (args : list pyval) (kwargs : pydict) :
  keeps_steady (invoke_body args kwargs).
Proof.
  unfold invoke_body, add_obs. repeat ks_step.
  destruct (bo_value _); [ apply ks_ret | apply ks_raise ].
Qed.
#[local] Hint Resolve ks_invoke_body : ks.

Lemma ks_command_wrapper (args : list pyval) (kwargs : pydict) :
  keeps_steady (command_wrapper args kwargs).
Proof.
  unfold command_wrapper. repeat ks_step.
  destruct (CONFIG_REQUIRED (cls a) && negb (loaded_config (config a0)));
    [ apply ks_error | ].
  destruct (CONFIG_REQUIRED (cls a) && QUITTING a0); [ apply ks_error | ].
  apply ks_invoke_body.
Qed.
#[local] Hint Resolve ks_command_wrapper : ks.

Lemma ks_run_command (args : list pyval) (kwargs : pydict) :
  keeps_steady (run_command args kwargs).
Proof.
  unfold run_command. repeat ks_step.
  destruct (in_RAISES a e); repeat ks_step.
  destruct (str_join " " (c_args a0)); repeat ks_step.
Qed.
#[local] Hint Resolve ks_run_command : ks.

Lemma ks_use_cached (cid : string) : keeps_steady (use_cached cid).
Proof.
  unfold use_cached, add_obs. repeat ks_step.
  match goal with
  | |- context [get_result ?g ?now cid] => destruct (get_result g now cid)
  end; repeat ks_step.
Qed.
#[local] Hint Resolve ks_use_cached : ks.

Lemma ks_lookup_cached (enable_cache : bool) : keeps_steady (lookup_cached enable_cache).
Proof.
  unfold lookup_cached. repeat ks_step.
  destruct ((COMMAND_CACHE_TTL (cls a) >? 0) && negb (debug_has (config a0) "http")
            && enable_cache); repeat ks_step.
Qed.
#[local] Hint Resolve ks_lookup_cached : ks.

Lemma ks_run_sync (enable_cache : bool) (args : list pyval) (kwargs : pydict) :
  keeps_steady (_run_sync enable_cache args kwargs).
Proof.
  unfold _run_sync. repeat ks_step.
  match goal with
  | |- keeps_steady (match ?hit with _ => _ end) => destruct hit
  end; repeat ks_step.
Qed.
#[local] Hint Resolve ks_run_sync : ks.

Lemma ks_record_result (rv : RetVal) : keeps_steady (record_result rv).
Proof. unfold record_result. destruct rv; repeat ks_step. Qed.
#[local] Hint Resolve ks_record_result : ks.

Lemma ks_streetcar (args : list pyval) (kwargs : pydict) :
  keeps_steady (streetcar args kwargs).
Proof. unfold streetcar. repeat ks_step. Qed.

Lemma ks__run (args : list pyval) (kwargs : pydict) :
  keeps_steady (_run args kwargs).
Proof.
  unfold _run, add_obs. repeat ks_step.
  match goal with
  | |- keeps_steady (if ?b then _ else _) => destruct b
  end; repeat ks_step.
Qed.

(** [run] around [_run]: the activity counter goes up before and down
    after, on both exits. *)
Lemma run_steady (args : list pyval) (kwargs : pydict) (c : Command) (w : World) :
  let st' := (run args kwargs (c, w)).2 in
  cls st'.1 = cls c
  /\ LIVE_USER_ACTIVITIES st'.2 = LIVE_USER_ACTIVITIES w
  /\ LAST_USER_ACTIVITY st'.2
     = (if IS_USER_ACTIVITY (cls c) then clock w else LAST_USER_ACTIVITY w)
  /\ QUITTING st'.2 = QUITTING w
  /\ same_switches (config w) (config st'.2)
  /\ (LOG_NOTHING (cls c) = true -> event_log (config st'.2) = event_log (config w))
  /\ (COMMAND_CACHE_TTL (cls c) <= 0 ->
      command_cache (config st'.2) = command_cache (config w)).
Proof.
  unfold run. munfold. cbn [fst snd].
  destruct (IS_USER_ACTIVITY (cls c)).
  - pose proof (ks__run args kwargs
                  (c, set_activity (clock w) (LIVE_USER_ACTIVITIES w + 1) w)) as H.
    destruct (_run args kwargs _) as [ r [ c' w' ] ].
    unfold steady in H. cbn in H |- *.
    destruct H as (Hc & _ & _ & _ & Hl & Hla & Hq & _ & Hs & Hlog & Hcache).
    rewrite Hl, Hla. split; [ exact Hc | ]. split; [ lia | ]. split; [ reflexivity | ].
    split; [ exact Hq | ]. split; [ exact Hs | ]. split; [ exact Hlog | exact Hcache ].
  - pose proof (ks__run args kwargs (c, w)) as H.
    destruct (_run args kwargs _) as [ r [ c' w' ] ].
    unfold steady in H. cbn in H |- *.
    destruct H as (Hc & _ & _ & _ & Hl & Hla & Hq & _ & Hs & Hlog & Hcache).
    split; [ exact Hc | ]. split; [ exact Hl | ]. split; [ exact Hla | ].
    split; [ exact Hq | ]. split; [ exact Hs | ]. split; [ exact Hlog | exact Hcache ].
Qed.


(** X12: for a command of a class with [LOG_NOTHING] the lifecycle
    writes nothing to the event log, neither in [run] nor in the
    background task. *)
Theorem X_log_nothing_keeps_event_log (args : list pyval) (kwargs : pydict)
    (c : Command) (w : World) :
  LOG_NOTHING (cls c) = true ->
  event_log (config (run args kwargs (c, w)).2.2) = event_log (config w)
  /\ event_log (config (streetcar args kwargs (c, w)).2.2) = event_log (config w).
Proof.
  intros Hn. split.
  - destruct (run_steady args kwargs c w) as (_ & _ & _ & _ & _ & Hlog & _). exact (Hlog Hn).
  - pose proof (ks_streetcar args kwargs (c, w)) as H. unfold steady in H.
    destruct H as (_ & _ & _ & _ & _ & _ & _ & _ & _ & Hlog & _). exact (Hlog Hn).
Qed.

(** X13: for a command of a class that is not cacheable the lifecycle
    leaves the command cache as it is, and consults it in no run. *)
Theorem X_not_cacheable_keeps_cache (args : list pyval) (kwargs : pydict)
    (c : Command) (w : World) :
  COMMAND_CACHE_TTL (cls c) <= 0 ->
  command_cache (config (run args kwargs (c, w)).2.2) = command_cache (config w)
  /\ command_cache (config (streetcar args kwargs (c, w)).2.2) = command_cache (config w)
  /\ forall enable_cache,
       cache_lookups (trace (_run_sync enable_cache args kwargs (c, w)).2.2)
       = cache_lookups (trace w).
Proof.
  intros Httl. split; [ | split ].
  - destruct (run_steady args kwargs c w) as (_ & _ & _ & _ & _ & _ & Hcache).
    exact (Hcache Httl).
  - pose proof (ks_streetcar args kwargs (c, w)) as H. unfold steady in H.
    destruct H as (_ & _ & _ & _ & _ & _ & _ & _ & _ & _ & Hcache). exact (Hcache Httl).
  - intros enable_cache. apply _run_sync_skips_lookup. unfold cache_consulted.
    destruct (Z.gtb_spec (COMMAND_CACHE_TTL (cls c)) 0); [ lia | reflexivity ].
Qed.

End KeepsSteady.

(** ** Overridden lifecycle methods *)

Section OverridesFacts.
Context `{Ext : Externals}.

Ltac munfold :=
  unfold when, time_time, add_obs, bind, ret, raise, try_except,
    get_self, get_world, modify_self, modify_world.

Ltac mcbn :=
  cbn -[_update_event_state _update_finished_event _starting _error _finishing
        cache_result invoke_body command_wrapper use_cached lookup_cached run_command
        _run_sync _run streetcar record_result
        log_event get_result cache_put cache_id _fmt_msg fmt_failure str_join
        dict_set dict_update new_result background_result as_dict fn_insert
        opt_str_truthy truthy str_truthy in_RAISES or_else
        Z.mul Z.sub Z.add Z.gtb Z.ltb].

(** The driver with the methods of [class Command] is [_run_sync]. *)
Lemma _run_sync_with_base (enable_cache : bool) (args : list pyval) (kwargs : pydict) :
  _run_sync_with _starting _finishing enable_cache args kwargs
  = _run_sync enable_cache args kwargs.
Proof. reflexivity. Qed.

(** X14: with the [_starting] and [_finishing] of [Help], [_run_sync]
    never writes the event (it stays as [__init__] made it,
    [INCOMPLETE]) nor the configuration, and the result it returns has
    no [error_info], whatever the body recorded. *)
Theorem X_Help_never_completes_event (enable_cache : bool) (args : list pyval)
    (kwargs : pydict) (c : Command) (w : World) :
  COMMAND_CACHE_TTL (cls c) <= 0 ->
  exists r c' w',
    Help__run_sync enable_cache args kwargs (c, w) = (r, (c', w'))
    /\ c_event c' = c_event c
    /\ flag_writes (trace w') = flag_writes (trace w)
    /\ config w' = config w
    /\ match r with
       | Ok (RetResult res) =>
           r_error_info res = []
           /\ r_status res = c_status c'
           /\ results_built (trace w') = (results_built (trace w) ++ [res])%list
       | Ok (RetValue _) => False
       | Raise e =>
           (in_RAISES c e = true /\ c_status c' = "success")
           \/ exists e0, str_join " " (c_args c) = Raise e
                         /\ bo_value (body_outcome c args kwargs) = Raise e0
       end.
Proof.
  intros Httl. unfold Help__run_sync, _run_sync_with, Help__starting, lookup_cached_with.
  munfold. mcbn.
  destruct (Z.gtb_spec (COMMAND_CACHE_TTL (cls c)) 0) as [ Hpos | _ ]; [ lia | ].
  mcbn. unfold run_command_with. munfold.
  destruct (command_wrapper_run args kwargs (set_run_args args kwargs c) w)
    as (c1 & w1 & t1 & Heq & Hcls & Hargs & _ & _ & Hev & _ & Hst & (Ht & _ & _ & _ & _ & Hsw) & Htt).
  rewrite Heq.
  assert (Hcfg : config w1 = config w).
  { clear - Heq. unfold command_wrapper in Heq. revert Heq. munfold. mcbn.
    destruct (CONFIG_REQUIRED (cls c) && negb (loaded_config (config w)));
      [ rewrite _error_run; intros [= _ _ <-]; reflexivity | ].
    destruct (CONFIG_REQUIRED (cls c) && QUITTING w);
      [ rewrite _error_run; intros [= _ _ <-]; reflexivity | ].
    destruct (invoke_body_run args kwargs (set_run_args args kwargs c) w)
      as (c' & Heq' & _). rewrite Heq'. intros [= _ _ <-]. reflexivity. }
  assert (Hfw : flag_writes (trace w1) = flag_writes (trace w)).
  { rewrite Ht, flag_writes_app, Htt.
    destruct (body_allowed _ _); cbn; apply app_nil_r. }
  assert (Hrb : results_built (trace w1) = results_built (trace w)).
  { rewrite Ht, results_built_app, Htt.
    destruct (body_allowed _ _); cbn; apply app_nil_r. }
  change (body_outcome (set_run_args args kwargs c) args kwargs)
    with (body_outcome c args kwargs) in *.
  change (body_allowed (set_run_args args kwargs c) w) with (body_allowed c w) in *.
  destruct (if body_allowed c w then bo_value (body_outcome c args kwargs)
            else Ok (PBool false)) as [ v | e ] eqn:Hout.
  - unfold Help__finishing. munfold. mcbn.
    eexists _, c1, _. split; [ reflexivity | ]. mcbn.
    split; [ exact Hev | ].
    rewrite flag_writes_app, results_built_app, Hfw, Hrb. cbn. rewrite app_nil_r.
    split; [ reflexivity | ]. split; [ exact Hcfg | ]. repeat split.
  - mcbn. rewrite (in_RAISES_cls c c1 e Hcls).
    assert (He0 : bo_value (body_outcome c args kwargs) = Raise e).
    { destruct (body_allowed c w); [ exact Hout | discriminate Hout ]. }
    destruct (in_RAISES c e) eqn:Hr.
    + unfold Help__finishing. munfold. mcbn.
      eexists _, _, _. split; [ reflexivity | ]. mcbn.
      split; [ exact Hev | ].
      rewrite flag_writes_app, Hfw. cbn. rewrite app_nil_r.
      split; [ reflexivity | ]. split; [ exact Hcfg | ]. left. split; [ exact Hr | reflexivity ].
    + cbn [fst snd]. rewrite Hargs.
      change (c_args (set_run_args args kwargs c)) with (c_args c).
      destruct (str_join " " (c_args c)) as [ joined | e' ] eqn:Hj.
      * cbn beta. rewrite _error_run. unfold Help__finishing. munfold. mcbn.
        eexists _, _, _. split; [ reflexivity | ]. mcbn.
        split; [ exact Hev | ].
        rewrite flag_writes_app, results_built_app, Hfw, Hrb. cbn. rewrite app_nil_r.
        split; [ reflexivity | ]. split; [ exact Hcfg | ]. repeat split.
      * mcbn. eexists _, _, _. split; [ reflexivity | ].
        split; [ exact Hev | ]. split; [ exact Hfw | ]. split; [ exact Hcfg | ].
        right. exists e. split; [ reflexivity | exact He0 ].
Qed.

(** *** [Cached.run] *)

Variable copy_session : Session -> Session -> Session.

(** X15: [Cached.run] hands out the cached result for the id it is given
    without starting the event, running a body or building a result;
    the session of the command takes over what [Session.copy] gives.
    When there is no id, or no fresh result under it, the command ends
    as an error: the event is started and completed and one result with
    status ['error'] is built. *)
Theorem X_Cached_run (c : Command) (w : World) :
  (forall cid rv,
     cid_text (Cached_cid c) = Some cid ->
     get_result (config w) (clock w) cid = Ok rv ->
     Cached_run copy_session (c, w)
     = (Ok (RetResult rv),
        (c, set_sessions (<[c_session c :=
                              copy_session (sessions w (c_session c))
                                           (sessions w (r_session rv))]> (sessions w)) w)))
  /\ ((cid_text (Cached_cid c) = None
       \/ exists cid e, cid_text (Cached_cid c) = Some cid
                        /\ get_result (config w) (clock w) cid = Raise e) ->
      COMMAND_CACHE_TTL (cls c) <= 0 ->
      c_run_async c = false ->
      forall joined, str_join " " (c_args c) = Ok joined ->
      exists res c' w',
        Cached_run copy_session (c, w) = (Ok (RetResult res), (c', w'))
        /\ r_status res = "error"
        /\ r_result res = PBool false
        /\ r_message res = Some (fmt_failure c joined)
        /\ flag_writes (trace w') = (flag_writes (trace w) ++ [RUNNING; COMPLETE])%list
        /\ results_built (trace w') = (results_built (trace w) ++ [res])%list
        /\ body_runs (trace w') = body_runs (trace w)
        /\ flags (c_event c') = COMPLETE).
Proof.
  split.
  - intros cid rv Hcid Hget. unfold Cached_run. munfold. mcbn.
    rewrite Hcid, Hget. reflexivity.
  - intros Hmiss Httl Hsync joined Hjoin. unfold Cached_run. munfold. mcbn.
    assert (Hfound : match cid_text (Cached_cid c) with
                     | Some cid =>
                         match get_result (config w) (clock w) cid with
                         | Ok rv => Some rv
                         | Raise _ => None
                         end
                     | None => None
                     end = None).
    { destruct Hmiss as [ -> | (cid & e & -> & ->) ]; reflexivity. }
    rewrite Hfound.
    destruct (_starting_run c w) as (ev & g & Heq & Hfl & Hid & Hg). rewrite Heq. mcbn.
    rewrite Hjoin. rewrite _error_run. mcbn.
    match goal with
    | |- context [_finishing ?d (PBool false) false (?c1, ?w1)] =>
        destruct (_finishing_result_run d (PBool false) c1 w1)
          as (res & c' & w' & t & Heq' & Hst & Hmsg & _ & Hres & _ & _ & Hfl' & Hstep & Hq)
    end.
    { unfold requirements_return. cbn. lia. }
    rewrite Heq'. exists res, c', w'. split; [ reflexivity | ].
    cbn in Hst, Hmsg, Hfl'.
    cbn [c_run_async set_message set_status set_event set_start_time] in Hstep.
    rewrite Hsync in Hfl', Hstep.
    destruct Hstep as (Ht & _). destruct Hq as (Hq1 & Hq2 & Hq3 & _).
    cbn [trace set_trace set_config] in Ht.
    split; [ exact Hst | ]. split; [ exact Hres | ]. split; [ exact Hmsg | ].
    rewrite Ht, !flag_writes_app, !results_built_app, !body_runs_app, Hq1, Hq2, Hq3. cbn.
    rewrite !app_nil_r, <- !app_assoc.
    split; [ reflexivity | ]. split; [ reflexivity | ]. split; [ lia | exact Hfl' ].
Qed.

End OverridesFacts.

(** ** [refresh], and cacheable classes without [cache_requirements] *)

Section LifecycleEdges.
Context `{Ext : Externals}.

Ltac munfold :=
  unfold when, time_time, add_obs, bind, ret, raise, try_except,
    get_self, get_world, modify_self, modify_world.

Ltac mcbn :=
  cbn -[_update_event_state _update_finished_event _starting _error _finishing
        cache_result invoke_body command_wrapper use_cached lookup_cached run_command
        _run_sync _run streetcar record_result
        log_event get_result cache_put cache_id _fmt_msg fmt_failure str_join
        dict_set dict_update new_result background_result as_dict fn_insert
        opt_str_truthy truthy str_truthy in_RAISES or_else
        Z.mul Z.sub Z.add Z.gtb Z.ltb].


Lemma cache_id_nonempty (c : Command) (sqa : option pydict) :
  COMMAND_CACHE_TTL (cls c) > 0 -> str_truthy (cache_id c sqa) = true.
Proof.
  intros Httl. unfold cache_id, str_truthy.
  destruct (Z.ltb_spec (COMMAND_CACHE_TTL (cls c)) 1) as [ Hlt | _ ]; [ lia | ].
  cbv zeta. apply negb_true_iff. apply String.eqb_neq. intros H.
  apply (f_equal String.length) in H.
  rewrite !str_replace_char_length, !string_app_length in H. simpl in H. lia.
Qed.

(** [_finishing] when [cache_requirements] raises: the result is built,
    then the exception leaves [_finishing] before the event is
    completed. *)
Lemma _finishing_requirements_raise (doc : option string) (rv : pyval)
    (c : Command) (w : World) (e : Exn) :
  COMMAND_CACHE_TTL (cls c) > 0 ->
  (forall c' r, cls c' = cls c -> cache_requirements c' r = Raise e) ->
  exists res c' w',
    _finishing doc rv false (c, w) = (Raise e, (c', w'))
    /\ cls c' = cls c /\ c_args c' = c_args c /\ c_name c' = c_name c
    /\ c_event c' = c_event c
    /\ trace w' = (trace w ++ [ObsNewResult res])%list.
Proof.
  intros Httl Hreq. unfold _finishing. munfold. mcbn.
  destruct (negb (opt_str_truthy (c_context c))); mcbn.
  all: unfold cache_result; munfold; mcbn.
  all: destruct (Z.gtb_spec (COMMAND_CACHE_TTL (cls c)) 0) as [ _ | Hn ]; [ | lia ].
  all: match goal with
       | |- context [str_truthy (cache_id ?c1 None)] =>
           rewrite (cache_id_nonempty c1 None Httl)
       end.
  all: match goal with
       | |- context [cache_requirements ?c1 ?r] => rewrite (Hreq c1 r eq_refl)
       end.
  all: eexists _, _, _; split; [ reflexivity | ]; repeat split.
Qed.

(** X17: a cacheable class that leaves [cache_requirements] to the base
    class, which raises: once the body has returned, [_run_sync] builds
    the result, fails to cache it, builds an error result, fails again,
    and the exception leaves [_run_sync] with the event still
    [RUNNING]. *)
Theorem X_cacheable_without_requirements (enable_cache : bool) (args : list pyval)
    (kwargs : pydict) (c : Command) (w : World) (e : Exn) (v : pyval) (joined : string) :
  COMMAND_CACHE_TTL (cls c) > 0 ->
  (forall c' r, cls c' = cls c -> cache_requirements c' r = Raise e) ->
  in_RAISES c e = false ->
  no_hit c w enable_cache ->
  body_allowed c w = true ->
  bo_value (body_outcome c args kwargs) = Ok v ->
  str_join " " (c_args c) = Ok joined ->
  exists c' w',
    _run_sync enable_cache args kwargs (c, w) = (Raise e, (c', w'))
    /\ flags (c_event c') = RUNNING
    /\ flag_writes (trace w') = (flag_writes (trace w) ++ [RUNNING])%list
    /\ length (results_built (trace w')) = (length (results_built (trace w)) + 2)%nat.
Proof.
  intros Httl Hreq Hraises Hno Hallowed Hbody Hjoin. unfold _run_sync. munfold.
  destruct (_starting_run c w) as (ev & g & Heq & Hfl & Hid & Hg). rewrite Heq. mcbn.
  match goal with
  | |- context [lookup_cached enable_cache (?cc, ?ww)] =>
      set (c1 := cc) in *; set (w1 := ww) in *
  end.
  assert (Hcid : cache_id c1 None = cache_id c None)
    by (apply cache_id_inputs; reflexivity).
  destruct (lookup_cached_miss enable_cache c1 w1)
    as (w2 & t2 & Heq2 & Hstep2 & Hf2 & Hr2 & _ & _).
  { unfold no_hit, cache_consulted in *. rewrite Hcid. subst c1 w1.
    cbn [cls set_run_args set_event set_start_time config clock set_trace set_config].
    pose proof Hg as (_ & Hdebug & _). rewrite Hdebug.
    rewrite (get_result_same_settings _ _ _ _ Hg). exact Hno. }
  rewrite Heq2. mcbn. unfold run_command. munfold.
  destruct (command_wrapper_run args kwargs c1 w2)
    as (c3 & w3 & t3 & Heq3 & Hcls3 & Hargs3 & _ & _ & Hev3 & Hname3 & _ & Hstep3 & Ht3).
  assert (Hallowed' : body_allowed c1 w2 = true).
  { unfold body_allowed in *. destruct Hstep2 as (_ & _ & Hq & _ & _ & Hsw).
    destruct Hsw as (Hload & _). rewrite Hq, Hload. subst c1 w1. cbn.
    destruct Hg as (-> & _). exact Hallowed. }
  rewrite Hallowed' in Heq3, Ht3.
  change (body_outcome c1 args kwargs) with (body_outcome c args kwargs) in Heq3.
  rewrite Hbody in Heq3. rewrite Heq3.
  destruct (_finishing_requirements_raise None v c3 w3 e)
    as (res1 & c4 & w4 & Heq4 & Hcls4 & Hargs4 & Hname4 & Hev4 & Ht4).
  { rewrite Hcls3. exact Httl. }
  { intros c' r Hc'. apply Hreq. rewrite Hc', Hcls3. reflexivity. }
  rewrite Heq4. cbn [fst snd].
  assert (Hclsc : cls c4 = cls c) by (rewrite Hcls4, Hcls3; reflexivity).
  rewrite (in_RAISES_cls c c4 e Hclsc), Hraises.
  assert (Hargsc : c_args c4 = c_args c) by (rewrite Hargs4, Hargs3; reflexivity).
  cbn [fst snd]. rewrite Hargsc, Hjoin. cbn beta. rewrite _error_run.
  match goal with
  | |- context [_finishing None (PBool false) false (?c5, w4)] =>
      destruct (_finishing_requirements_raise None (PBool false) c5 w4 e)
        as (res2 & c6 & w6 & Heq6 & _ & _ & _ & Hev6 & Ht6)
  end.
  { cbn. rewrite Hclsc. exact Httl. }
  { intros c' r Hc'. apply Hreq. rewrite Hc'. cbn. exact Hclsc. }
  rewrite Heq6. exists c6, w6. split; [ reflexivity | ].
  cbn in Hev6. rewrite Hev6, Hev4, Hev3. subst c1. cbn [c_event set_run_args set_event].
  split; [ exact Hfl | ].
  destruct Hstep2 as (Ht2 & _). destruct Hstep3 as (Ht3' & _).
  rewrite Ht6, Ht4, Ht3', Ht2, Ht3. subst w1. cbn [trace set_trace set_config].
  rewrite !flag_writes_app, !results_built_app, Hf2, Hr2, !length_app. cbn.
  rewrite !app_nil_r. split; [ reflexivity | lia ].
Qed.

End LifecycleEdges.

(** ** From one run to the next through the cache *)

Section CacheRoundTrip.
Context `{Ext : Externals}.

Ltac munfold :=
  unfold when, time_time, add_obs, bind, ret, raise, try_except,
    get_self, get_world, modify_self, modify_world.

Ltac mcbn :=
  cbn -[_update_event_state _update_finished_event _starting _error _finishing
        cache_result invoke_body command_wrapper use_cached lookup_cached run_command
        _run_sync _run streetcar record_result
        log_event get_result cache_put cache_id _fmt_msg fmt_failure str_join
        dict_set dict_update new_result background_result as_dict fn_insert
        opt_str_truthy truthy str_truthy in_RAISES or_else
        Z.mul Z.sub Z.add Z.gtb Z.ltb].

Lemma get_result_cache_put (g : Config) (cid : string) (expires now : Z)
    (reqs : list string) (c : Command) (r : CommandResult) :
  now < expires -> get_result (cache_put cid expires reqs c r g) now cid = Ok r.
Proof.
  intros Hnow. unfold get_result, cache_put. cbn. rewrite lookup_insert_eq. cbn.
  destruct (Z.ltb_spec now expires); [ reflexivity | lia ].
Qed.

Lemma get_result_same_cache (g g' : Config) (now : Z) (cid : string) :
  command_cache g' = command_cache g -> get_result g' now cid = get_result g now cid.
Proof. unfold get_result. intros ->. reflexivity. Qed.

(** [_finishing] for a cacheable class: the result it returns is in the
    cache afterwards, fresh until the time to live has passed. *)
Lemma _finishing_stores (doc : option string) (rv : pyval) (c : Command) (w : World) :
  COMMAND_CACHE_TTL (cls c) > 0 ->
  requirements_return c ->
  exists res c' w',
    _finishing doc rv false (c, w) = (Ok (RetResult res), (c', w'))
    /\ r_result res = rv
    /\ debug_has (config w') = debug_has (config w)
    /\ forall now, now < clock w + COMMAND_CACHE_TTL (cls c) ->
         get_result (config w') now (cache_id c None) = Ok res.
Proof.
  intros Httl Hreq. unfold _finishing. munfold. mcbn.
  destruct (negb (opt_str_truthy (c_context c))); mcbn.
  all: unfold cache_result; munfold; mcbn.
  all: destruct (Z.gtb_spec (COMMAND_CACHE_TTL (cls c)) 0) as [ _ | Hn ]; [ | lia ].
  all: match goal with
       | |- context [str_truthy (cache_id ?c1 None)] =>
           rewrite (cache_id_nonempty c1 None Httl)
       end.
  all: match goal with
       | |- context [cache_requirements ?c1 ?r] =>
           destruct (Hreq Httl c1 r eq_refl) as [ reqs Hreqs ]; rewrite Hreqs
       end.
  all: mcbn.
  all: destruct (c_run_async c); mcbn.
  all: try match goal with
           | |- context [_update_finished_event (?c1, ?w2)] =>
               destruct (_update_finished_event_run c1 w2)
                 as (ev & g & Heq' & _ & _ & (_ & Hdebug & Hcache & _));
               rewrite Heq'; mcbn
           end.
  all: eexists _, _, _; split; [ reflexivity | ]; split; [ reflexivity | ].
  all: cbn [config set_trace set_config] in *.
  all: split; [ first [ exact Hdebug | reflexivity ] | intros now Hnow ].
  all: try rewrite (get_result_same_cache _ _ _ _ Hcache).
  all: match goal with
       | |- get_result (cache_put ?cid _ _ _ _ _) _ _ = _ =>
           change (cache_id c None) with cid
       end.
  all: apply get_result_cache_put; exact Hnow.
Qed.

(** X18: after a run of a cacheable command whose body returned, a
    command of the same class with the same arguments and data that
    runs before the time to live has passed, on the configuration the
    first run left, gets the result of the first run, and its body does
    not run. *)
Theorem X_second_run_served_from_cache (args : list pyval) (kwargs : pydict)
    (c : Command) (w : World) (v : pyval) :
  COMMAND_CACHE_TTL (cls c) > 0 ->
  debug_has (config w) "http" = false ->
  requirements_return c ->
  no_hit c w true ->
  body_allowed c w = true ->
  bo_value (body_outcome c args kwargs) = Ok v ->
  exists res c' w',
    _run_sync true args kwargs (c, w) = (Ok (RetResult res), (c', w'))
    /\ r_result res = v
    /\ forall c2 w2 args2 kwargs2,
         cls c2 = cls c -> c_args c2 = c_args c -> c_data c2 = c_data c ->
         config w2 = config w' ->
         clock w2 < clock w + COMMAND_CACHE_TTL (cls c) ->
         exists c2' w2',
           _run_sync true args2 kwargs2 (c2, w2) = (Ok (RetResult res), (c2', w2'))
           /\ body_runs (trace w2') = body_runs (trace w2).
Proof.
  intros Httl Hdebug Hreq Hno Hallowed Hbody. unfold _run_sync at 1. munfold.
  destruct (_starting_run c w) as (ev & g & Heq & Hfl & Hid & Hg). rewrite Heq. mcbn.
  match goal with
  | |- context [lookup_cached true (?cc, ?ww)] =>
      set (c1 := cc) in *; set (w1 := ww) in *
  end.
  assert (Hcid : cache_id c1 None = cache_id c None)
    by (apply cache_id_inputs; reflexivity).
  destruct (lookup_cached_miss true c1 w1)
    as (w2 & t2 & Heq2 & Hstep2 & _).
  { unfold no_hit, cache_consulted in *. rewrite Hcid. subst c1 w1.
    cbn [cls set_run_args set_event set_start_time config clock set_trace set_config].
    pose proof Hg as (_ & Hdebug' & _). rewrite Hdebug'.
    rewrite (get_result_same_settings _ _ _ _ Hg). exact Hno. }
  rewrite Heq2. mcbn. unfold run_command. munfold.
  destruct (command_wrapper_run args kwargs c1 w2)
    as (c3 & w3 & t3 & Heq3 & Hcls3 & Hargs3 & _ & _ & _ & _ & _ & Hstep3 & _).
  pose proof (ks_command_wrapper args kwargs (c1, w2)) as Hks.
  rewrite Heq3 in Hks. unfold steady in Hks. cbn [fst snd] in Hks.
  destruct Hks as (_ & _ & Hdata3 & _).
  assert (Hallowed' : body_allowed c1 w2 = true).
  { unfold body_allowed in *. destruct Hstep2 as (_ & _ & Hq & _ & _ & Hsw).
    destruct Hsw as (Hload & _). rewrite Hq, Hload. subst c1 w1. cbn.
    destruct Hg as (-> & _). exact Hallowed. }
  rewrite Hallowed' in Heq3.
  change (body_outcome c1 args kwargs) with (body_outcome c args kwargs) in Heq3.
  rewrite Hbody in Heq3. rewrite Heq3.
  destruct (_finishing_stores None v c3 w3) as (res & c4 & w4 & Heq4 & Hres & Hdebug4 & Hget).
  { rewrite Hcls3. exact Httl. }
  { eapply requirements_return_cls; [ | exact Hreq ]. rewrite Hcls3. reflexivity. }
  rewrite Heq4. exists res, c4, w4. split; [ reflexivity | ]. split; [ exact Hres | ].
  intros c2 w2' args2 kwargs2 Hcls2 Hargs2 Hdata2 Hcfg2 Hclock2.
  assert (Hclock3 : clock w3 = clock w).
  { destruct Hstep3 as (_ & _ & _ & Hc3 & _). destruct Hstep2 as (_ & _ & _ & Hc2 & _).
    rewrite Hc3, Hc2. reflexivity. }
  assert (Hdebug3 : debug_has (config w3) = debug_has (config w)).
  { destruct Hstep3 as (_ & _ & _ & _ & _ & (_ & Hd3 & _)).
    destruct Hstep2 as (_ & _ & _ & _ & _ & (_ & Hd2 & _)).
    rewrite Hd3, Hd2. subst w1. cbn. destruct Hg as (_ & Hd & _). exact Hd. }
  destruct (_run_sync_hit true args2 kwargs2 c2 w2' res)
    as (c2' & w2'' & Heq5 & _ & _ & Ht5 & _).
  { unfold cache_consulted. rewrite Hcls2, Hcfg2, Hdebug4, Hdebug3, Hdebug.
    destruct (Z.gtb_spec (COMMAND_CACHE_TTL (cls c)) 0); [ reflexivity | lia ]. }
  { rewrite Hcfg2.
    rewrite (cache_id_inputs c3 c2 None);
      [ | rewrite Hcls2, Hcls3; reflexivity | rewrite Hargs2, Hargs3; reflexivity
        | rewrite Hdata2, Hdata3; reflexivity ].
    apply Hget. rewrite Hclock3, Hcls3. exact Hclock2. }
  exists c2', w2''. split; [ exact Heq5 | ].
  rewrite Ht5, body_runs_app. cbn. lia.
Qed.


End CacheRoundTrip.

(** * Examples for the further properties *)

Lemma X_query_args_lookup_witness :
  dict_wf (c_data arg_data_cmd)
  /\ dict_get "arg" (state_as_query_args arg_data_cmd) = Some (PList [PUni "inbox"]).
Proof.
  assert (H : dict_wf (c_data arg_data_cmd))
    by (apply List.NoDup_cons;
        [ simpl; intros [ E | [] ]; discriminate E
        | apply List.NoDup_cons; [ simpl; tauto | apply List.NoDup_nil ] ]).
  split; [ exact H | ].
  rewrite (X_query_args_lookup arg_data_cmd "arg" H).
  vm_compute. reflexivity.
Defined.


Lemma X_cache_id_characters_witness :
  1 <= COMMAND_CACHE_TTL (cls cacheable_cmd)
  /\ cache_id (Ext := plain_externals) cacheable_cmd None <> "".
Proof.
  assert (H : 1 <= COMMAND_CACHE_TTL (cls cacheable_cmd)) by (vm_compute; discriminate).
  split; [ exact H | ].
  exact (proj1 (X_cache_id_characters (Ext := plain_externals) cacheable_cmd None H)).
Defined.

Lemma X_as_dict_entries_witness :
  dict_wf (r_kwargs plain_result)
  /\ dict_get "result" (as_dict (Ext := plain_externals) plain_ui plain_result)
     = Some (PBool true).
Proof.
  assert (H : dict_wf (r_kwargs plain_result)) by (vm_compute; constructor).
  split; [ exact H | ].
  exact (proj1 (X_as_dict_entries (Ext := plain_externals) plain_ui plain_result H)).
Defined.

Lemma X_as_unknown_format_witness :
  renderers "pdf" = None
  /\ exists msg,
       as_ (Ext := plain_externals) plain_ui plain_result "pdf" [Some "page"] []
       = (Raise (mkExn TypeError msg), plain_result, []).
Proof.
  assert (H : renderers "pdf" = None) by reflexivity.
  split; [ exact H | ].
  apply (proj1 (X_as_unknown_format (Ext := plain_externals) plain_ui plain_result "pdf" H)
           [Some "page"] []).
  left. discriminate.
Defined.

Lemma X_paging_next_previous_witness :
  (List.Forall (fun r => exists s, b36 (Externals := plain_externals) r = Ok s)
               (s_results paged_session)
   /\ 0 < num_results paged_config
   /\ SearchResults__init__ (Ext := plain_externals) paged_session paged_config
        None 0 None None = Ok first_page
   /\ st_count (sr_stats first_page) = num_results paged_config)
  /\ exists q,
       next_set (Ext := plain_externals) paged_session paged_config first_page = Ok q
       /\ st_start (sr_stats q) = 3
       /\ previous_set (Ext := plain_externals) paged_session paged_config q
          = Ok first_page.
Proof.
  assert (H1 : List.Forall (fun r => exists s, b36 (Externals := plain_externals) r = Ok s)
                           (s_results paged_session))
    by (repeat constructor; eexists; reflexivity).
  assert (H2 : 0 < num_results paged_config) by reflexivity.
  assert (H3 : SearchResults__init__ (Ext := plain_externals) paged_session paged_config
                 None 0 None None = Ok first_page) by (vm_compute; reflexivity).
  assert (H4 : st_count (sr_stats first_page) = num_results paged_config) by reflexivity.
  split; [ repeat (split; [ assumption | ]); assumption | ].
  destruct (proj1 (X_paging_next_previous (Ext := plain_externals) paged_session
                     paged_config 0 first_page H1 H2 H3) H4)
    as (q & Hq & Hst & Hback).
  exists q. split; [ exact Hq | ]. split; [ exact Hst | exact Hback ].
Defined.

Lemma X_choose_messages_members_witness :
  forallb hashable (s_results paged_session) = true
  /\ exists ids,
       _choose_messages plain_int 10 paged_session None ["all"; "=z"] false = Ok ids
       /\ forall x, In x (s_results paged_session) -> In x ids.
Proof.
  assert (H : forallb hashable (s_results paged_session) = true) by reflexivity.
  split; [ exact H | ].
  destruct (X_choose_messages_members plain_int 10 paged_session None ["all"; "=z"] false H)
    as (ids & Hids & _ & _ & Hall).
  exists ids. split; [ exact Hids | ]. apply Hall. left. reflexivity.
Defined.

Lemma X_name_characters_witness :
  (forall c, In c (list_ascii_of_string "(nobody)") -> str_isspace c = false)
  /\ ~ In "@"%char
       (list_ascii_of_string (_name str_isspace "Mr Jo <jo@example.org>" true false)).
Proof.
  assert (H : forall c, In c (list_ascii_of_string "(nobody)") -> str_isspace c = false).
  { intros c Hc. simpl in Hc.
    repeat (destruct Hc as [ <- | Hc ]; [ reflexivity | ]). destruct Hc. }
  split; [ exact H | ].
  exact (proj1 (proj2 (X_name_characters str_isspace "Mr Jo <jo@example.org>" true false H))
           eq_refl).
Defined.

Lemma X_log_nothing_witness :
  LOG_NOTHING (cls cached_cmd) = true
  /\ event_log (config (run (Ext := plain_externals) [] [] (cached_cmd, cached_cmd_world)).2.2)
     = event_log (config cached_cmd_world).
Proof.
  assert (H : LOG_NOTHING (cls cached_cmd) = true) by reflexivity.
  split; [ exact H | ].
  exact (proj1 (X_log_nothing_keeps_event_log (Ext := plain_externals) [] []
                  cached_cmd cached_cmd_world H)).
Defined.

Lemma X_not_cacheable_witness :
  COMMAND_CACHE_TTL (cls usage_cmd) <= 0
  /\ command_cache (config (run (Ext := plain_externals) [] [] (usage_cmd, usage_world)).2.2)
     = command_cache (config usage_world).
Proof.
  assert (H : COMMAND_CACHE_TTL (cls usage_cmd) <= 0) by (vm_compute; discriminate).
  split; [ exact H | ].
  exact (proj1 (X_not_cacheable_keeps_cache (Ext := plain_externals) [] []
                  usage_cmd usage_world H)).
Defined.

Lemma X_Help_witness :
  COMMAND_CACHE_TTL (cls plain_command) <= 0
  /\ exists r c' w',
       Help__run_sync (Ext := plain_externals) true [] [] (plain_command, plain_world)
       = (r, (c', w'))
       /\ c_event c' = c_event plain_command
       /\ flag_writes (trace w') = flag_writes (trace plain_world).
Proof.
  assert (H : COMMAND_CACHE_TTL (cls plain_command) <= 0) by (vm_compute; discriminate).
  split; [ exact H | ].
  destruct (X_Help_never_completes_event (Ext := plain_externals) true [] []
              plain_command plain_world H)
    as (r & c' & w' & Heq & Hev & Hfw & _).
  exists r, c', w'. split; [ exact Heq | ]. split; [ exact Hev | exact Hfw ].
Defined.


Lemma X_cacheable_without_requirements_witness :
  (COMMAND_CACHE_TTL (cls cacheable_cmd) > 0
   /\ (forall c' r, cls c' = cls cacheable_cmd ->
         cache_requirements (Externals := base_externals) c' r = Raise not_implemented)
   /\ in_RAISES cacheable_cmd not_implemented = false
   /\ no_hit (Ext := base_externals) cacheable_cmd cacheable_world true
   /\ body_allowed cacheable_cmd cacheable_world = true
   /\ bo_value (body_outcome cacheable_cmd [] []) = Ok PNone
   /\ str_join " " (c_args cacheable_cmd) = Ok "")
  /\ exists c' w',
       _run_sync (Ext := base_externals) true [] [] (cacheable_cmd, cacheable_world)
       = (Raise not_implemented, (c', w'))
       /\ flags (c_event c') = RUNNING.
Proof.
  assert (H1 : COMMAND_CACHE_TTL (cls cacheable_cmd) > 0) by reflexivity.
  assert (H2 : forall c' r, cls c' = cls cacheable_cmd ->
                 cache_requirements (Externals := base_externals) c' r
                 = Raise not_implemented) by (intros; reflexivity).
  assert (H3 : in_RAISES cacheable_cmd not_implemented = false) by reflexivity.
  assert (H4 : no_hit (Ext := base_externals) cacheable_cmd cacheable_world true)
    by (right; eexists; vm_compute; reflexivity).
  assert (H5 : body_allowed cacheable_cmd cacheable_world = true) by reflexivity.
  assert (H6 : bo_value (body_outcome cacheable_cmd [] []) = Ok PNone) by reflexivity.
  assert (H7 : str_join " " (c_args cacheable_cmd) = Ok "") by reflexivity.
  split; [ repeat (split; [ assumption | ]); assumption | ].
  destruct (X_cacheable_without_requirements (Ext := base_externals) true [] []
              cacheable_cmd cacheable_world not_implemented PNone "" H1 H2 H3 H4 H5 H6 H7)
    as (c' & w' & Heq & Hfl & _).
  exists c', w'. split; [ exact Heq | exact Hfl ].
Defined.

Lemma X_second_run_witness :
  (COMMAND_CACHE_TTL (cls cacheable_cmd) > 0
   /\ debug_has (config cacheable_world) "http" = false
   /\ requirements_return (Ext := plain_externals) cacheable_cmd
   /\ no_hit (Ext := plain_externals) cacheable_cmd cacheable_world true
   /\ body_allowed cacheable_cmd cacheable_world = true
   /\ bo_value (body_outcome cacheable_cmd [] []) = Ok PNone)
  /\ exists res c' w',
       _run_sync (Ext := plain_externals) true [] [] (cacheable_cmd, cacheable_world)
       = (Ok (RetResult res), (c', w'))
       /\ exists c2' w2',
            _run_sync (Ext := plain_externals) true [] [] (cacheable_cmd, w')
            = (Ok (RetResult res), (c2', w2'))
            /\ body_runs (trace w2') = body_runs (trace w').
Proof.
  assert (H1 : COMMAND_CACHE_TTL (cls cacheable_cmd) > 0) by reflexivity.
  assert (H2 : debug_has (config cacheable_world) "http" = false) by reflexivity.
  assert (H3 : requirements_return (Ext := plain_externals) cacheable_cmd)
    by (intros _ c' r _; exists []; reflexivity).
  assert (H4 : no_hit (Ext := plain_externals) cacheable_cmd cacheable_world true)
    by (right; eexists; vm_compute; reflexivity).
  assert (H5 : body_allowed cacheable_cmd cacheable_world = true) by reflexivity.
  assert (H6 : bo_value (body_outcome cacheable_cmd [] []) = Ok PNone) by reflexivity.
  split; [ repeat (split; [ assumption | ]); assumption | ].
  destruct (X_second_run_served_from_cache (Ext := plain_externals) [] []
              cacheable_cmd cacheable_world PNone H1 H2 H3 H4 H5 H6)
    as (res & c' & w' & Heq & _ & Hnext).
  exists res, c', w'. split; [ exact Heq | ].
  apply (Hnext cacheable_cmd w' [] []); try reflexivity.
  pose proof (ks_run_sync (Ext := plain_externals) true [] [] (cacheable_cmd, cacheable_world))
    as Hks.
  rewrite Heq in Hks. destruct Hks as (_ & _ & _ & _ & _ & _ & _ & Hclock & _).
  cbn [fst snd] in Hclock. rewrite Hclock. vm_compute. reflexivity.
Defined.

